(** * Manga Insight: batch-analysis pipeline and task-lifecycle controller

    A shallow embedding of the core of [src/core/manga_insight]:
    - [storage.py]      (AnalysisStorage: JSON files below the book directory),
    - [analyzer.py]     (MangaAnalyzer: batch analysis, context window,
                         segment summaries, chapter grouping),
    - [task_manager.py] (AnalysisTaskManager: task records, start / pause /
                         resume / cancel, checkpoints, the tier loops).

    Python values are modelled dynamically (a JSON value type with Python's
    truthiness, [dict.get], slicing and indexing); effects are modelled by a
    state-and-exception monad over an explicit world (files, clock, event
    trace, manager tables).  External collaborators (the VLM client, the chat
    client, the JSON parser, the disk) are fields of a type class. *)

From Stdlib Require Import ZArith String Ascii List Lia Bool.
From Stdlib Require Import DecimalString DecimalN DecimalPos.
From stdpp Require Import gmap strings list.

Local Open Scope string_scope.
Local Open Scope list_scope.
Local Open Scope Z_scope.

#[local] Set Warnings "-register-all".

(* ================================================================== *)
(** * Python values and builtins *)
(* ================================================================== *)

Module Py.

(** JSON-like Python values: what [json.load] yields and what the analysis
    records hold.  Floats are not modelled: every number of a record the
    pipeline looks at is a page number or a count. *)
Inductive Json :=
| JNull
| JBool (b : bool)
| JInt (z : Z)
| JStr (s : string)
| JList (l : list Json)
| JDict (d : gmap string Json).

Abbreviation Dict := (gmap string Json).

(** The exceptions the modelled code can meet.  [JSONDecodeError] is the
    only one caught by class; every other handler is [except Exception]. *)
Inductive Exn :=
| AttributeError
| TypeError
| IndexError
| ValueError (msg : string)
| JSONDecodeError
| ZeroDivisionError
| KeyError (key : string)
| ExternalError (msg : string).

(** Python truthiness ([if x:], [not x], [bool(x)]). *)
Definition dict_truthy (d : Dict) : bool :=
  match map_to_list d with [] => false | _ :: _ => true end.

Definition truthy (j : Json) : bool :=
  match j with
  | JNull => false
  | JBool b => b
  | JInt z => negb (z =? 0)
  | JStr s => negb (String.eqb s "")
  | JList l => match l with [] => false | _ :: _ => true end
  | JDict d => dict_truthy d
  end.

(** [d.get(k, dflt)] on a dict, and on an arbitrary value (only dicts have
    [.get]; anything else raises [AttributeError]). *)
Definition dget (d : Dict) (k : string) (dflt : Json) : Json :=
  default dflt (d !! k).

Definition get (j : Json) (k : string) (dflt : Json) : Exn + Json :=
  match j with
  | JDict d => inr (dget d k dflt)
  | _ => inl AttributeError
  end.

(** Integers as Python sees them: [bool] is a subclass of [int]. *)
Definition as_int (j : Json) : option Z :=
  match j with
  | JInt z => Some z
  | JBool b => Some (Z.b2z b)
  | _ => None
  end.

(** ** Sequences *)

(** Normalisation of a slice bound against a length: negative bounds count
    from the end, and every bound is clipped into [0, len]. *)
Definition clip (len i : Z) : Z :=
  if i <? 0 then Z.max 0 (i + len) else Z.min i len.

(** [l[start:stop]] with optional bounds (step 1). *)
Definition slice {A} (l : list A) (start stop : option Z) : list A :=
  let len := Z.of_nat (length l) in
  let a := match start with None => 0 | Some i => clip len i end in
  let b := match stop with None => len | Some i => clip len i end in
  take (Z.to_nat (b - a)) (drop (Z.to_nat a) l).

(** [l[i]]: negative indices count from the end; out of range raises. *)
Definition index {A} (l : list A) (i : Z) : Exn + A :=
  let len := Z.of_nat (length l) in
  let j := if i <? 0 then i + len else i in
  if (j <? 0) || (len <=? j) then inl IndexError
  else match l !! Z.to_nat j with
       | Some x => inr x
       | None => inl IndexError
       end.

(** [range(n)] and [range(0, stop, step)]; the latter raises [ValueError]
    for a zero step. *)
Definition range (n : Z) : list Z :=
  map Z.of_nat (seq 0 (Z.to_nat n)).

(** [range(a, b)] *)
Definition range_from (a b : Z) : list Z :=
  map (fun k => a + Z.of_nat k) (seq 0 (Z.to_nat (b - a))).

Definition range_step (stop step : Z) : Exn + list Z :=
  if step =? 0 then inl (ValueError "range() arg 3 must not be zero")
  else if step <? 0 then inr []   (* start = 0 is never above a stop >= 0 *)
  else inr (map (fun k => Z.of_nat k * step)
                (seq 0 (Z.to_nat ((stop + step - 1) / step)))).

(** [a // b]: Rocq's [Z.div] is the same floor division; Python raises on
    a zero divisor. *)
Definition floordiv (a b : Z) : Exn + Z :=
  if b =? 0 then inl ZeroDivisionError else inr (a / b).

(** ** Text *)

Definition nl : string := String (ascii_of_nat 10) EmptyString.

(** [str(n)] for an integer. *)
Definition str_of_Z (z : Z) : string :=
  NilZero.string_of_int (Z.to_int z).

Fixpoint zeros (n : nat) : string :=
  match n with O => "" | S k => String "0" (zeros k) end.

(** The decimal digits of a natural number, no sign, ["0"] for zero. *)
Definition digits (n : N) : string :=
  NilEmpty.string_of_uint (N.to_uint n).

Definition zfill (w : nat) (s : string) : string :=
  zeros (w - String.length s) +:+ s.

(** [format(z, "03d")]: sign-aware zero padding to width 3. *)
Definition format_03d (z : Z) : string :=
  if z <? 0 then String "-" (zfill 2 (digits (Z.to_N (- z))))
  else zfill 3 (digits (Z.to_N z)).

(** [sep.join(parts)]. *)
Fixpoint join (sep : string) (parts : list string) : string :=
  match parts with
  | [] => ""
  | [p] => p
  | p :: rest => p +:+ sep +:+ join sep rest
  end.

(** [s[:n]] and [s[n:]] on text, for a non-negative [n]. *)
Fixpoint str_take (n : nat) (s : string) : string :=
  match n, s with
  | S k, String c s' => String c (str_take k s')
  | _, _ => ""
  end.

Fixpoint str_drop (n : nat) (s : string) : string :=
  match n, s with
  | S k, String _ s' => str_drop k s'
  | _, _ => s
  end.

Fixpoint starts_with (p s : string) : bool :=
  match p, s with
  | EmptyString, _ => true
  | String a p', String b s' => Ascii.eqb a b && starts_with p' s'
  | String _ _, EmptyString => false
  end.

Definition str_rev (s : string) : string :=
  string_of_list_ascii (rev (list_ascii_of_string s)).

Definition ends_with (p s : string) : bool :=
  starts_with (str_rev p) (str_rev s).

(** [s.replace(old, new)] for a non-empty [old]: leftmost non-overlapping
    occurrences.  [skip] counts the characters of a match still to drop. *)
Fixpoint replace_from (old new : string) (skip : nat) (s : string) : string :=
  match s with
  | EmptyString => ""
  | String c s' =>
      match skip with
      | S k => replace_from old new k s'
      | O => if starts_with old s
             then new +:+ replace_from old new (String.length old - 1) s'
             else String c (replace_from old new 0 s')
      end
  end.

Definition replace (s old new : string) : string :=
  replace_from old new 0 s.

(** [s.strip()]: the ASCII white space characters. *)
Definition is_space (c : ascii) : bool :=
  let n := nat_of_ascii c in
  ((9 <=? n) && (n <=? 13))%nat || (n =? 32)%nat.

Fixpoint lstrip (s : string) : string :=
  match s with
  | String c s' => if is_space c then lstrip s' else s
  | EmptyString => ""
  end.

Definition strip (s : string) : string :=
  str_rev (lstrip (str_rev (lstrip s))).

End Py.

(* ================================================================== *)
(** * Effects: state, exceptions, blocking *)
(* ================================================================== *)

Module Eff.
Import Py.

(** Outcome of a computation: a value, a raised exception, or a thread that
    never returns (blocked for ever on the pause gate). *)
Inductive Res (A : Type) : Type :=
| Val (a : A)
| Raise (e : Exn)
| Hang.
Arguments Val {A} a.
Arguments Raise {A} e.
Arguments Hang {A}.

Definition M (S A : Type) : Type := S -> Res A * S.

Definition ret {S A} (a : A) : M S A := fun s => (Val a, s).

Definition bind {S A B} (c : M S A) (k : A -> M S B) : M S B :=
  fun s => match c s with
           | (Val a, s') => k a s'
           | (Raise e, s') => (Raise e, s')
           | (Hang, s') => (Hang, s')
           end.

Definition raise {S A} (e : Exn) : M S A := fun s => (Raise e, s).

Definition hang {S A} : M S A := fun s => (Hang, s).

Definition gets {S A} (f : S -> A) : M S A := fun s => (Val (f s), s).

Definition modify {S} (f : S -> S) : M S unit := fun s => (Val tt, f s).

(** [try: c except Exception as e: h e].  The state changes made before the
    exception stay. *)
Definition try_except {S A} (c : M S A) (h : Exn -> M S A) : M S A :=
  fun s => match c s with
           | (Raise e, s') => h e s'
           | r => r
           end.

(** A pure partial operation ([Exn + A]) as a computation. *)
Definition lift_exn {S A} (r : Exn + A) : M S A :=
  match r with inl e => raise e | inr a => ret a end.

(** Run a computation over a component of a larger state. *)
Definition zoom {S T A} (proj : T -> S) (inj : S -> T -> T) (c : M S A) : M T A :=
  fun t => let (r, s') := c (proj t) in (r, inj s' t).

(** [for x in xs: body x], stopping at the first exception. *)
Fixpoint for_each {S A} (xs : list A) (body : A -> M S unit) : M S unit :=
  match xs with
  | [] => ret tt
  | x :: rest => bind (body x) (fun _ => for_each rest body)
  end.

End Eff.

Notation "'let*' x ':=' c 'in' k" := (Eff.bind c (fun x => k))
  (at level 10, x pattern, c at level 100, k at level 200).
Notation "c ';;' k" := (Eff.bind c (fun _ => k))
  (at level 100, k at level 200, right associativity).

(* ================================================================== *)
(** * The analyzer's world: files, clock, trace, collaborators *)
(* ================================================================== *)

Module Env.
Import Py Eff.

Definition Image := string.

(** One element of [book_info["all_images"]] as [get_book_info] builds it. *)
Record ImageInfo := {
  img_chapter_id : string;
  img_index : Z;
  img_path : string;
}.

Inductive Level := DEBUG | INFO | WARNING | ERROR.

(** The logging call sites of the modelled functions, with the values they
    interpolate. *)
Inductive LogSite :=
| LoadJsonFailed (filename : string)
| SaveJsonFailed (filename : string)
| BatchCacheHit (start_page end_page : Z)
| BatchCall (start_page end_page : Z) (n_images context_count : nat)
| BatchContext (context : Dict)
| BatchDone (start_page end_page : Z)
| SegmentCacheHit (segment_id : string)
| SegmentGenerationFailed (e : Exn)
| ReadImage (path : string)
| TaskCreated (task_id : string)
| TaskMissing (task_id : string)
| TaskAlreadyRunning (task_id : string)
| BookAlreadyRunning (book_id other : string)
| TaskStarted (task_id : string)
| TaskPaused (task_id : string)
| TaskResumed (task_id : string)
| TaskCancelled (task_id : string)
| TierBatchStart (first last : Z) (batch_no total_batches : Z) (context_count : nat)
| TierBatchFailed (first last : Z) (e : Exn)
| LayerInputEmpty (layer_name : string)
| LayerGroupStart (layer_name segment_id : string) (group_no total_groups : Z)
| LayerGroupFailed (layer_name segment_id : string) (e : Exn).

Inductive WriteOutcome :=
| Written          (* the file now holds the data *)
| NotOpened        (* [open] failed: the file is as before *)
| Truncated.       (* [open] succeeded, the dump did not: unreadable file *)

Inductive Event :=
| EvRead (filename : string)
| EvWrite (filename : string) (outcome : WriteOutcome)
| EvListDir (dir : string)
| EvVlm (n_images : nat) (start_page : Z) (context : Dict)
| EvChat (prompt system : string)
| EvLog (lvl : Level) (site : LogSite)
| EvProgressCallback (phase : string) (current total : Z)
| EvNotify (task_id : string)
| EvThreadStart (task_id : string).

(** What a file below the book's storage directory holds. *)
Inductive FileContent :=
| FJson (j : Json)   (* well-formed JSON *)
| FCorrupt.          (* anything [json.load] fails on *)

Record AState := {
  files : gmap string FileContent;    (* relative file name -> content *)
  image_files : gmap string Image;    (* image path -> bytes *)
  clock : nat;                        (* advances at every external call *)
  trace : list Event;                 (* what happened, oldest first *)
}.

(** The collaborators of the core.  Each oracle sees the clock, so that two
    calls with the same arguments may answer differently.
    [vlm_client.py] is not among the sources: [vlm_analyze_batch] stands
    for [VLMClient.analyze_batch], a dict or an error.  [chat_generate]
    covers building a [ChatClient] and calling [generate]. *)
Class Collaborators := {
  vlm_analyze_batch : nat -> list Image -> Z -> Dict -> Exn + Dict;
  chat_generate : nat -> string -> string -> Exn + string;
  chat_close : nat -> option Exn;
  json_loads : string -> option Json;
  isoformat : nat -> string;
  disk_write : nat -> string -> WriteOutcome;
  (** [str(x)] for a list or a dict *)
  str_container : Json -> string;
  (** [d.update(x)] for an [x] that is not a dict: the dict as far as it
      got updated, and the exception that stopped the update, if any *)
  update_from_iterable : Dict -> Json -> Dict * option Exn;
  (** [config.prompts.segment_summary or DEFAULT_SEGMENT_SUMMARY_PROMPT] *)
  segment_summary_prompt : string;
  (** [config.prompts.analysis_system or DEFAULT_ANALYSIS_SYSTEM_PROMPT] *)
  analysis_system_prompt : string;
}.

Definition emit (e : Event) : M AState unit :=
  modify (fun s => {| files := files s; image_files := image_files s;
                      clock := clock s; trace := trace s ++ [e] |}).

Definition log (lvl : Level) (site : LogSite) : M AState unit :=
  emit (EvLog lvl site).

Definition tick : M AState nat :=
  fun s => (Val (clock s),
            {| files := files s; image_files := image_files s;
               clock := S (clock s); trace := trace s |}).

Definition set_file (filename : string) (c : FileContent) : M AState unit :=
  modify (fun s => {| files := <[filename := c]> (files s);
                      image_files := image_files s;
                      clock := clock s; trace := trace s |}).

Section WithCollaborators.
Context `{Collaborators}.

(** [datetime.now().isoformat()] *)
Definition now : M AState string :=
  let* t := tick in ret (isoformat t).

(** [str(x)] *)
Definition str (j : Json) : string :=
  match j with
  | JNull => "None"
  | JBool true => "True"
  | JBool false => "False"
  | JInt z => str_of_Z z
  | JStr s => s
  | _ => str_container j
  end.

End WithCollaborators.
End Env.

(* ================================================================== *)
(** * storage.py: AnalysisStorage *)
(* ================================================================== *)

Module Storage.
Import Py Eff Env.

(** [f"batches/batch_{start_page:03d}_{end_page:03d}.json"] *)
Definition batch_filename (start_page end_page : Z) : string :=
  "batches/batch_" +:+ format_03d start_page +:+ "_" +:+
  format_03d end_page +:+ ".json".

(** [f"pages/page_{page_num:03d}.json"] *)
Definition page_filename (page_num : Z) : string :=
  "pages/page_" +:+ format_03d page_num +:+ ".json".

(** [f"segments/{segment_id}.json"] *)
Definition segment_filename (segment_id : string) : string :=
  "segments/" +:+ segment_id +:+ ".json".

(** [{"start": start_page, "end": end_page}] *)
Definition page_range_dict (start_page end_page : Z) : Dict :=
  <["end" := JInt end_page]> (<["start" := JInt start_page]> ∅).

(** One entry of [list_batches]. *)
Record BatchInfo := {
  bi_start_page : Z;
  bi_end_page : Z;
  bi_filename : string;
}.

Fixpoint split_from (sep : ascii) (cur : string) (s : string) : list string :=
  match s with
  | EmptyString => [str_rev cur]
  | String c s' =>
      if Ascii.eqb c sep then str_rev cur :: split_from sep "" s'
      else split_from sep (String c cur) s'
  end.

(** [s.split(sep)] for a one-character separator. *)
Definition split (sep : ascii) (s : string) : list string :=
  split_from sep "" s.

(** [sorted(batches, key=lambda x: x["start_page"])].  Python's sort is
    stable: an entry is put before the entries of equal [start_page] that
    come after it in the input, so that ties keep their order. *)
Fixpoint insert_by_start (b : BatchInfo) (l : list BatchInfo) : list BatchInfo :=
  match l with
  | [] => [b]
  | x :: rest =>
      if bi_start_page b <=? bi_start_page x then b :: l
      else x :: insert_by_start b rest
  end.

Definition sorted_by_start (l : list BatchInfo) : list BatchInfo :=
  foldr insert_by_start [] l.

Section WithCollaborators.
Context `{Collaborators}.

(** [_load_json(filename, default)]: the parsed file; for a missing or an
    unreadable file [default if default is not None else {}]. *)
Definition _load_json (filename : string) (dflt : option Json) : M AState Json :=
  emit (EvRead filename);;
  let* fs := gets files in
  match fs !! filename with
  | Some (FJson j) => ret j
  | Some FCorrupt =>
      log ERROR (LoadJsonFailed filename);;
      ret (default (JDict ∅) dflt)
  | None => ret (default (JDict ∅) dflt)
  end.

(** [_save_json(filename, data)]: [True] when the dump went through. *)
Definition _save_json (filename : string) (data : Json) : M AState bool :=
  let* t := tick in
  let outcome := disk_write t filename in
  emit (EvWrite filename outcome);;
  match outcome with
  | Written => set_file filename (FJson data);; ret true
  | NotOpened => log ERROR (SaveJsonFailed filename);; ret false
  | Truncated =>
      set_file filename FCorrupt;;
      log ERROR (SaveJsonFailed filename);; ret false
  end.

(** [load_batch_analysis(start_page, end_page)] *)
Definition load_batch_analysis (start_page end_page : Z) : M AState Json :=
  let filename := batch_filename start_page end_page in
  _load_json filename None.

(** [save_batch_analysis(start_page, end_page, analysis)].  The dict is
    updated in place, so the caller's [analysis] changes too: the updated
    dict is returned next to the boolean. *)
Definition save_batch_analysis (start_page end_page : Z) (analysis : Dict)
  : M AState (bool * Dict) :=
  let filename := batch_filename start_page end_page in
  let* stamp := now in
  let analysis := <["saved_at" := JStr stamp]> analysis in
  let analysis :=
    <["page_range" := JDict (page_range_dict start_page end_page)]> analysis in
  let* ok := _save_json filename (JDict analysis) in
  ret (ok, analysis).

(** [os.listdir(dir)]: the names directly below [dir ++ "/"].  The order of
    [os.listdir] is arbitrary; the model lists in the order of the map. *)
Definition listdir (dir : string) : M AState (list string) :=
  emit (EvListDir dir);;
  let* fs := gets files in
  let prefix := dir +:+ "/" in
  ret (omap (fun kv : string * FileContent =>
               let name := kv.1 in
               if starts_with prefix name
               then let base := str_drop (String.length prefix) name in
                    match split "/" base with
                    | [_] => Some base
                    | _ => None
                    end
               else None)
            (map_to_list fs)).

(** [int(s)] on the decimal strings of file names: an optional minus sign
    and ASCII digits. *)
Definition int_of_str (s : string) : option Z :=
  match s with
  | EmptyString => None
  | String c s' =>
      if Ascii.eqb c "-" then
        match s' with
        | EmptyString => None
        | _ => (fun n => - Z.of_N n) <$> (N.of_uint <$> NilEmpty.uint_of_string s')
        end
      else Z.of_N <$> (N.of_uint <$> NilEmpty.uint_of_string s)
  end.

(** [list_batches()] *)
Definition list_batches : M AState (list BatchInfo) :=
  let* names := listdir "batches" in
  let batches :=
    omap (fun filename =>
            if starts_with "batch_" filename && ends_with ".json" filename
            then
              let core := str_take (String.length filename - 11)
                                   (str_drop 6 filename) in
              match split "_" core with
              | p0 :: p1 :: _ =>
                  match int_of_str p0, int_of_str p1 with
                  | Some s, Some e =>
                      Some {| bi_start_page := s; bi_end_page := e;
                              bi_filename := filename |}
                  | _, _ => None
                  end
              | _ => None
              end
            else None) names in
  ret (sorted_by_start batches).

(** [save_page_analysis(page_num, analysis)], the dict updated in place. *)
Definition save_page_analysis (page_num : Z) (analysis : Dict)
  : M AState (bool * Dict) :=
  let filename := page_filename page_num in
  let* stamp := now in
  let analysis := <["saved_at" := JStr stamp]> analysis in
  let* ok := _save_json filename (JDict analysis) in
  ret (ok, analysis).

(** [load_segment_summary(segment_id)] *)
Definition load_segment_summary (segment_id : string) : M AState Json :=
  let filename := segment_filename segment_id in
  _load_json filename None.

(** [save_segment_summary(segment_id, summary)], the dict updated in place. *)
Definition save_segment_summary (segment_id : string) (summary : Dict)
  : M AState (bool * Dict) :=
  let filename := segment_filename segment_id in
  let* stamp := now in
  let summary := <["saved_at" := JStr stamp]> summary in
  let summary := <["segment_id" := JStr segment_id]> summary in
  let* ok := _save_json filename (JDict summary) in
  ret (ok, summary).

End WithCollaborators.
End Storage.

(* ================================================================== *)
(** * analyzer.py: MangaAnalyzer *)
(* ================================================================== *)

Module Analyzer.
Import Py Eff Env Storage.

(** [len(x)] *)
Definition len (j : Json) : Exn + Z :=
  match j with
  | JStr s => inr (Z.of_nat (String.length s))
  | JList l => inr (Z.of_nat (length l))
  | JDict d => inr (Z.of_nat (size d))
  | _ => inl TypeError
  end.

(** The characters of a text, as one-character strings. *)
Definition chars (s : string) : list Json :=
  map (fun c => JStr (String c EmptyString)) (list_ascii_of_string s).

(** What [for x in j] and [list.extend(j)] go through. *)
Definition iterate (j : Json) : Exn + list Json :=
  match j with
  | JList l => inr l
  | JStr s => inr (chars s)
  | JDict d => inr (map (fun kv : string * Json => JStr kv.1) (map_to_list d))
  | _ => inl TypeError
  end.

(** One tier descriptor of [BatchAnalysisSettings.get_layers()]; a field is
    [None] when the dict has no such key. *)
Record Layer := {
  layer_name : option string;
  layer_units_per_group : option Z;
  layer_align_to_chapter : option bool;
}.

Section WithCollaborators.
Context `{Collaborators}.

(** [_get_image_from_info(page_num, image_info)] *)
Definition _get_image_from_info (page_num : Z) (image_info : option ImageInfo)
  : M AState Image :=
  let missing :=
    raise (ValueError ("无法获取第 " +:+ str_of_Z page_num +:+ " 页的图片")) in
  match image_info with
  | Some info =>
      let image_path := img_path info in
      let* imgs := gets image_files in
      match imgs !! image_path with
      | Some data =>
          if truthy (JStr image_path)
          then log DEBUG (ReadImage image_path);; ret data
          else missing
      | None => missing
      end
  | None => missing
  end.

(** [_format_single_result(result, batch_num, total_batches)] *)
Definition _format_single_result (result : Json) (batch_num total_batches : Z)
  : Exn + string :=
  if negb (truthy result) then inr ""
  else
    match result with
    | JDict result =>
      if truthy (dget result "parse_error" JNull) then inr ""
      else
        (* page range *)
        let page_range := dget result "page_range" (JDict ∅) in
        let range_part : Exn + list string :=
          if truthy page_range then
            match page_range with
            | JDict pr =>
                let s := str (dget pr "start" (JStr "?")) in
                let e := str (dget pr "end" (JStr "?")) in
                if 1 <? total_batches
                then inr ["【前第" +:+ str_of_Z (total_batches - batch_num + 1)
                          +:+ "批：第" +:+ s +:+ "-" +:+ e +:+ "页】"]
                else inr ["【第" +:+ s +:+ "-" +:+ e +:+ "页】"]
            | _ => inl AttributeError
            end
          else inr [] in
        (* batch summary *)
        let batch_summary := dget result "batch_summary" (JStr "") in
        let summary_part : Exn + list string :=
          if truthy batch_summary then
            match batch_summary with
            | JStr s =>
                let s := if (600 <? String.length s)%nat
                         then str_take 600 s +:+ "..." else s in
                inr ["剧情: " +:+ s]
            | JList l =>
                if (600 <? length l)%nat then inl TypeError
                else inr ["剧情: " +:+ str batch_summary]
            | JDict d =>
                if (600 <? size d)%nat then inl TypeError
                else inr ["剧情: " +:+ str batch_summary]
            | _ => inl TypeError
            end
          else inr [] in
        (* key events *)
        let key_events := dget result "key_events" (JList []) in
        let events_part : Exn + list string :=
          if truthy key_events then
            let first3 : Exn + list Json :=
              match key_events with
              | JList l => inr (take 3 l)
              | JStr s => inr (chars (str_take 3 s))
              | _ => inl TypeError
              end in
            match first3 with
            | inl e => inl e
            | inr es =>
                let valid_events := map str (filter (fun e => truthy e = true) es) in
                match valid_events with
                | [] => inr []
                | _ => inr ["事件: " +:+ join "; " valid_events]
                end
            end
          else inr [] in
        match range_part, summary_part, events_part with
        | inl e, _, _ => inl e
        | _, inl e, _ => inl e
        | _, _, inl e => inl e
        | inr a, inr b, inr c => inr (join nl (a ++ b ++ c))
        end
    | _ => inl AttributeError
    end.

(** [_format_previous_results(results)] *)
Fixpoint format_parts (results : list Json) (idx total : Z)
  : Exn + list string :=
  match results with
  | [] => inr []
  | result :: rest =>
      match _format_single_result result (idx + 1) total with
      | inl e => inl e
      | inr formatted =>
          match format_parts rest (idx + 1) total with
          | inl e => inl e
          | inr parts =>
              inr (if truthy (JStr formatted) then formatted :: parts else parts)
          end
      end
  end.

Definition _format_previous_results (results : list Json) : Exn + string :=
  match results with
  | [] => inr ""
  | _ =>
      match format_parts results 0 (Z.of_nat (length results)) with
      | inl e => inl e
      | inr all_parts => inr (join (nl +:+ nl) all_parts)
      end
  end.

(** [_build_batch_context(start_page, previous_results)].  A missing
    [previous_results] ([None]) and an empty list take the same branches
    everywhere, so both are the empty list here. *)
Definition _build_batch_context (start_page : Z) (previous_results : list Dict)
  : M AState Dict :=
  let context : Dict := ∅ in
  match previous_results with
  | _ :: _ =>
      let* text := lift_exn (_format_previous_results (map JDict previous_results)) in
      let context := <["previous_summary" := JStr text]> context in
      let context :=
        <["context_batch_count" := JInt (Z.of_nat (length previous_results))]> context in
      ret context
  | [] =>
      if 1 <? start_page then
        let* batches := list_batches in
        match List.find (fun b => bi_end_page b <? start_page) (rev batches) with
        | Some batch =>
            let* batch_data :=
              load_batch_analysis (bi_start_page batch) (bi_end_page batch) in
            if truthy batch_data then
              let* text := lift_exn (_format_previous_results [batch_data]) in
              let context := <["previous_summary" := JStr text]> context in
              let context := <["context_batch_count" := JInt 1]> context in
              ret context
            else ret context
        | None => ret context
        end
      else ret context
  end.

(** The per-page fan-out at the end of [analyze_batch]: every page entry
    with a truthy [page_number] is marked and saved; the entries are
    updated in place, so the returned list is the updated one. *)
Fixpoint save_pages (pages : list Json) (start_page end_page : Z)
    (analyzed_at : Json) : M AState (list Json) :=
  match pages with
  | [] => ret []
  | page_data :: rest =>
      let* page_data' :=
        match page_data with
        | JDict pd =>
            let page_num := dget pd "page_number" JNull in
            if truthy page_num then
              let pd := <["from_batch" := JBool true]> pd in
              let pd := <["batch_range" :=
                           JDict (page_range_dict start_page end_page)]> pd in
              let pd := <["analyzed_at" := analyzed_at]> pd in
              match page_num with
              | JStr _ => raise (ValueError "Unknown format code 'd'")
              | _ =>
                  match as_int page_num with
                  | Some n =>
                      let* r := save_page_analysis n pd in
                      ret (JDict r.2)
                  | None => raise TypeError
                  end
              end
            else ret page_data
        | _ => raise AttributeError
        end in
      let* rest' := save_pages rest start_page end_page analyzed_at in
      ret (page_data' :: rest')
  end.

(** The image loading loop of [analyze_batch]. *)
Fixpoint load_images (page_nums : list Z) (i : nat)
    (image_infos : list (option ImageInfo)) : M AState (list Image) :=
  match page_nums with
  | [] => ret []
  | page_num :: rest =>
      let img_info := mjoin (image_infos !! i) in
      let* img_data := _get_image_from_info page_num img_info in
      let* more := load_images rest (S i) image_infos in
      ret (img_data :: more)
  end.

(** [min(page_nums)] and [max(page_nums)] of a non-empty list. *)
Definition list_min (x : Z) (xs : list Z) : Z := foldl Z.min x xs.
Definition list_max (x : Z) (xs : list Z) : Z := foldl Z.max x xs.

(** [analyze_batch(page_nums, images, image_infos, force, previous_results)].
    [image_infos] holds [None] entries for pages without image information
    (a missing list is the empty list); [previous_results] as in
    [_build_batch_context]. *)
Definition analyze_batch (page_nums : list Z) (images : option (list Image))
    (image_infos : list (option ImageInfo)) (force : bool)
    (previous_results : list Dict) : M AState Dict :=
  match page_nums with
  | [] => ret ∅
  | p :: ps =>
      let start_page := list_min p ps in
      let end_page := list_max p ps in
      let compute : M AState Dict :=
        (* images *)
        let* images :=
          match images with
          | Some imgs => ret imgs
          | None => load_images page_nums 0 image_infos
          end in
        (* context from the previous batches *)
        let* context := _build_batch_context start_page previous_results in
        let context_count := length previous_results in
        log INFO (BatchCall start_page end_page (length images) context_count);;
        log DEBUG (BatchContext context);;
        (* the VLM call *)
        let* t := tick in
        emit (EvVlm (length images) start_page context);;
        let* result := lift_exn (vlm_analyze_batch t images start_page context) in
        let* _ := lift_exn (len (dget result "pages" (JList []))) in
        log INFO (BatchDone start_page end_page);;
        (* metadata *)
        let* stamp := now in
        let result := <["analyzed_at" := JStr stamp]> result in
        let result := <["analysis_mode" := JStr "batch"]> result in
        (* the batch record *)
        let* saved := save_batch_analysis start_page end_page result in
        let result := saved.2 in
        (* the page records *)
        let pages := dget result "pages" JNull in
        if truthy pages then
          let* items :=
            match pages with
            | JList l => ret l
            | _ => raise AttributeError
            end in
          let* items' :=
            save_pages items start_page end_page (JStr stamp) in
          ret (<["pages" := JList items']> result)
        else ret result
      in
      (* the cache *)
      if negb force then
        let* cached := load_batch_analysis start_page end_page in
        if truthy cached then
          match cached with
          | JDict c =>
              if negb (truthy (dget c "parse_error" JNull)) then
                log DEBUG (BatchCacheHit start_page end_page);;
                ret c
              else compute
          | _ => raise AttributeError
          end
        else compute
      else compute
  end.

(** The previous-results window, built the same way before every batch in
    [_analyze_single_batch] (task_manager.py) and in
    [analyze_chapter_with_segments]:
    [[
      previous_results = []
      if context_batch_count > 0:
          valid_results = [r for r in batch_results if not r.get("parse_error")]
          previous_results = valid_results[-context_batch_count:]
    ]] *)
Definition parse_error_flag (r : Dict) : bool :=
  truthy (dget r "parse_error" JNull).

Definition context_window (batch_results : list Dict) (context_batch_count : Z)
  : list Dict :=
  if 0 <? context_batch_count then
    let valid_results :=
      filter (fun r => parse_error_flag r = false) batch_results in
    slice valid_results (Some (- context_batch_count)) None
  else [].

(** The collecting loop of [generate_segment_summary]: summaries, events,
    and the running page range ([None] is [float('inf')]). *)
Record Collected := {
  batch_summaries : list string;
  all_key_events : list Json;
  c_start_page : option Z;
  c_end_page : Z;
}.

Definition collect_one (acc : Collected) (batch : Json) : Exn + Collected :=
  match batch with
  | JDict b =>
      match dget b "page_range" (JDict ∅) with
      | JDict page_range =>
          let batch_start := dget page_range "start" (JInt 0) in
          let batch_end := dget page_range "end" (JInt 0) in
          match as_int batch_start, as_int batch_end with
          | Some bs, Some be =>
              let start_page :=
                match c_start_page acc with
                | None => bs
                | Some sp => Z.min sp bs
                end in
              let end_page := Z.max (c_end_page acc) be in
              let summary := dget b "batch_summary" (JStr "") in
              let summaries :=
                if truthy summary
                then (batch_summaries acc ++
                      ["第" +:+ str batch_start +:+ "-" +:+ str batch_end
                       +:+ "页: " +:+ str summary])%list
                else batch_summaries acc in
              match iterate (dget b "key_events" (JList [])) with
              | inr events =>
                  inr {| batch_summaries := summaries;
                         all_key_events := (all_key_events acc ++ events)%list;
                         c_start_page := Some start_page;
                         c_end_page := end_page |}
              | inl e => inl e
              end
          | _, _ => inl TypeError
          end
      | _ => inl AttributeError
      end
  | _ => inl AttributeError
  end.

(** [batch_summaries = []], [all_key_events = []],
    [start_page = float('inf')], [end_page = 0]. *)
Definition nothing_collected : Collected :=
  {| batch_summaries := []; all_key_events := [];
     c_start_page := None; c_end_page := 0 |}.

Fixpoint collect (acc : Collected) (batch_results : list Json) : Exn + Collected :=
  match batch_results with
  | [] => inr acc
  | batch :: rest =>
      match collect_one acc batch with
      | inl e => inl e
      | inr acc' => collect acc' rest
      end
  end.

(** The cleaning of the model's answer before [json.loads]. *)
Definition strip_fences (response : string) : string :=
  let text := strip response in
  let text := if starts_with "```json" text then str_drop 7 text else text in
  let text := if starts_with "```" text then str_drop 3 text else text in
  let text := if ends_with "```" text
              then str_take (String.length text - 3) text else text in
  strip text.

(** The prompt of [generate_segment_summary]: the template with its
    placeholders replaced. *)
Definition segment_prompt (segment_id : string) (n_batches : nat)
    (start_page end_page : Z) (summaries : list string) : string :=
  let batch_summaries_text := join nl summaries in
  let prompt := replace segment_summary_prompt "{batch_count}"
                        (str_of_Z (Z.of_nat n_batches)) in
  let prompt := replace prompt "{start_page}" (str_of_Z start_page) in
  let prompt := replace prompt "{end_page}" (str_of_Z end_page) in
  let prompt := replace prompt "{batch_summaries}" batch_summaries_text in
  replace prompt "{segment_id}" segment_id.

(** The [try] block of [generate_segment_summary]: the segment dict as the
    block leaves it, and the exception that ended the block, if any. *)
Definition summarize_with_llm (segment_id : string) (n_batches : nat)
    (start_page end_page : Z) (summaries : list string) (segment_data : Dict)
  : M AState (Dict * option Exn) :=
  let prompt :=
    segment_prompt segment_id n_batches start_page end_page summaries in
  let system_prompt := analysis_system_prompt in
  let* t := tick in
  emit (EvChat prompt system_prompt);;
  match chat_generate t prompt system_prompt with
  | inl e => ret (segment_data, Some e)
  | inr response =>
      let parsed_update : Dict * option Exn :=
        match json_loads (strip_fences response) with
        | None =>      (* json.JSONDecodeError: the plain merge *)
            (<["summary" := JStr (join nl (take 3 summaries))]> segment_data, None)
        | Some (JDict parsed) => (parsed ∪ segment_data, None)
        | Some other => update_from_iterable segment_data other
        end in
      match parsed_update.2 with
      | Some e => ret (parsed_update.1, Some e)
      | None =>
          let* t' := tick in
          ret (parsed_update.1, chat_close t')
      end
  end.

(** The [segment_data] dict literal of [generate_segment_summary]. *)
Definition initial_segment_data (segment_id : string) (start_page end_page : Z)
    (key_events : list Json) (batch_count : nat) : Dict :=
  <["batch_count" := JInt (Z.of_nat batch_count)]> (
  <["themes" := JList []]> (
  <["plot_progression" := JStr ""]> (
  <["key_events" := JList (take 10 key_events)]> (
  <["summary" := JStr ""]> (
  <["page_range" := JDict (page_range_dict start_page end_page)]> (
  <["segment_id" := JStr segment_id]> ∅)))))).

(** [generate_segment_summary(segment_id, batch_results, force)] *)
Definition generate_segment_summary (segment_id : string)
    (batch_results : list Json) (force : bool) : M AState Json :=
  match batch_results with
  | [] => ret (JDict ∅)
  | _ :: _ =>
      let compute : M AState Json :=
        let* c := lift_exn (collect nothing_collected batch_results) in
        let start_page := default 0 (c_start_page c) in
        let end_page := c_end_page c in
        let segment_data :=
          initial_segment_data segment_id start_page end_page
            (all_key_events c) (length batch_results) in
        let* r := summarize_with_llm segment_id (length batch_results)
                    start_page end_page (batch_summaries c) segment_data in
        let* segment_data :=
          match r.2 with
          | Some e =>
              log WARNING (SegmentGenerationFailed e);;
              ret (<["summary" := JStr (join nl (take 3 (batch_summaries c)))]> r.1)
          | None => ret r.1
          end in
        let* stamp := now in
        let segment_data := <["generated_at" := JStr stamp]> segment_data in
        let* saved := save_segment_summary segment_id segment_data in
        ret (JDict saved.2)
      in
      if negb force then
        let* cached := load_segment_summary segment_id in
        if truthy cached then
          log DEBUG (SegmentCacheHit segment_id);;
          ret cached
        else compute
      else compute
  end.

(** ** The loops of [analyze_chapter_with_segments] *)

(** The group of index [group_idx] of a tier:
    [[
      start = group_idx * units_per_group
      end = min(start + units_per_group, len(current_results))
      group_items = current_results[start:end]
    ]]
    (the same three lines in [_execute_summary_layer], task_manager.py). *)
Definition group_items {A} (current_results : list A) (units_per_group : Z)
    (group_idx : Z) : list A :=
  let start := group_idx * units_per_group in
  let end_ := Z.min (start + units_per_group) (Z.of_nat (length current_results)) in
  slice current_results (Some start) (Some end_).

(** [for group_idx in range(total_groups)] together with the
    [group_items] the body computes from each index. *)
Definition indexed_groups {A} (current_results : list A)
    (units_per_group total_groups : Z) : list (Z * list A) :=
  map (fun group_idx =>
         (group_idx, group_items current_results units_per_group group_idx))
      (range total_groups).

(** First tier: the batches of one chapter, each analysed with the window
    of the previous results.  [chapter_images] pairs page numbers with
    their image information; [starts] is [range(0, total_pages,
    pages_per_batch)]. *)
Fixpoint chapter_batch_loop (starts : list Z) (batch_idx : Z)
    (chapter_images : list (Z * ImageInfo))
    (pages_per_batch context_batch_count total_batches : Z)
    (progress_callback : bool) (batch_results : list Dict)
  : M AState (list Dict) :=
  match starts with
  | [] => ret batch_results
  | i :: rest =>
      let batch_pages := slice chapter_images (Some i) (Some (i + pages_per_batch)) in
      let page_nums := map fst batch_pages in
      let image_infos := map (fun p => Some (snd p)) batch_pages in
      (if progress_callback
       then let* _ := lift_exn (index page_nums 0) in
            let* _ := lift_exn (index page_nums (-1)) in
            emit (EvProgressCallback "batch" (batch_idx + 1) total_batches)
       else ret tt);;
      let previous_results := context_window batch_results context_batch_count in
      let* batch_result :=
        analyze_batch page_nums None image_infos false previous_results in
      chapter_batch_loop rest (batch_idx + 1) chapter_images pages_per_batch
        context_batch_count total_batches progress_callback
        (batch_results ++ [batch_result])
  end.

Definition analyze_chapter_batches (chapter_images : list (Z * ImageInfo))
    (pages_per_batch context_batch_count : Z) (progress_callback : bool)
  : M AState (list Dict) :=
  let total_pages := Z.of_nat (length chapter_images) in
  let* total_batches :=
    lift_exn (floordiv (total_pages + pages_per_batch - 1) pages_per_batch) in
  let* starts := lift_exn (range_step total_pages pages_per_batch) in
  chapter_batch_loop starts 0 chapter_images pages_per_batch
    context_batch_count total_batches progress_callback [].

(** [f"{chapter_id}_L{layer_idx}_{group_idx:03d}"] *)
Definition chapter_segment_id (chapter_id : string) (layer_idx group_idx : Z)
  : string :=
  chapter_id +:+ "_L" +:+ str_of_Z layer_idx +:+ "_" +:+ format_03d group_idx.

(** The groups of one middle tier, in order. *)
Fixpoint chapter_group_loop (groups : list (Z * list Json)) (chapter_id : string)
    (layer_idx : Z) (name : string) (total_groups : Z)
    (progress_callback : bool) (segment_results : list Json)
  : M AState (list Json) :=
  match groups with
  | [] => ret segment_results
  | (group_idx, items) :: rest =>
      let segment_id := chapter_segment_id chapter_id layer_idx group_idx in
      (if progress_callback
       then emit (EvProgressCallback name (group_idx + 1) total_groups)
       else ret tt);;
      let* segment_result := generate_segment_summary segment_id items false in
      chapter_group_loop rest chapter_id layer_idx name
        total_groups progress_callback
        (segment_results ++ [segment_result])
  end.

(** Middle tiers: [for layer_idx in range(1, len(layers) - 1)]. *)
Fixpoint chapter_layer_loop (layer_idxs : list Z) (layers : list Layer)
    (chapter_id : string) (progress_callback : bool)
    (current_results : list Json) : M AState (list Json) :=
  match layer_idxs with
  | [] => ret current_results
  | layer_idx :: rest =>
      let* layer := lift_exn (index layers layer_idx) in
      let name := default ("层级" +:+ str_of_Z layer_idx) (layer_name layer) in
      let units_per_group := default 5 (layer_units_per_group layer) in
      let units_per_group :=
        if units_per_group <=? 0
        then Z.max (Z.of_nat (length current_results)) 1
        else units_per_group in
      match current_results with
      | [] => chapter_layer_loop rest layers chapter_id progress_callback
                current_results
      | _ :: _ =>
          let* total_groups :=
            lift_exn (floordiv (Z.of_nat (length current_results)
                                + units_per_group - 1) units_per_group) in
          let* segment_results :=
            chapter_group_loop
              (indexed_groups current_results units_per_group total_groups)
              chapter_id layer_idx name total_groups progress_callback [] in
          chapter_layer_loop rest layers chapter_id progress_callback
            segment_results
      end
  end.

Definition analyze_chapter_layers (layers : list Layer) (chapter_id : string)
    (progress_callback : bool) (batch_results : list Dict)
  : M AState (list Json) :=
  chapter_layer_loop (range_from 1 (Z.of_nat (length layers) - 1)) layers
    chapter_id progress_callback (map JDict batch_results).

End WithCollaborators.
End Analyzer.

(* ================================================================== *)
(** * task_manager.py: AnalysisTaskManager *)
(* ================================================================== *)

Module TaskManager.
Import Py Eff Env Storage Analyzer.

(** Modelled from the spec: [task_models.py] is not among the sources.  The
    members of [TaskStatus] and [TaskType] are the ones task_manager.py
    names; the fields of [AnalysisTask] and [AnalysisProgress] are the ones
    it reads and writes; a new task is Pending with an empty progress
    snapshot and no failed pages (spec, Data model and 4.5). *)
Inductive TaskStatus :=
| PENDING | RUNNING | PAUSED | COMPLETED | FAILED | CANCELLED.

Inductive TaskType := FULL_BOOK | CHAPTER | INCREMENTAL | REANALYZE.

Record AnalysisProgress := {
  total_pages : Z;
  analyzed_pages : Z;
  current_page : Z;
  current_phase : string;
}.

Record AnalysisTask := {
  task_id : string;
  book_id : string;
  task_type : TaskType;
  status : TaskStatus;
  progress : AnalysisProgress;
  failed_pages : list Z;
  target_chapters : option (list string);
  target_pages : option (list Z);
  is_incremental : bool;
  started_at : option nat;
  completed_at : option nat;
  error_message : option Exn;
}.

Global Instance TaskStatus_eq_dec : EqDecision TaskStatus.
Proof. solve_decision. Defined.

(** The tables of the singleton manager.  A [threading.Event] is its flag:
    [true] is set (not paused), [false] is cleared (paused). *)
Record Manager := {
  tasks : gmap string AnalysisTask;
  running_tasks : gset string;
  book_tasks : gmap string (list string);
  _pause_events : gmap string bool;
  _cancel_flags : gmap string bool;
}.

(** Requests that reach the controller from other threads while a worker
    runs. *)
Inductive Request :=
| ReqCreate (new_id book : string) (ty : TaskType)
| ReqStart (id : string)
| ReqPause (id : string)
| ReqResume (id : string)
| ReqCancel (id : string).

(** The requests that arrive around one checkpoint of a worker, by the
    point of [_check_pause_and_cancel] they arrive at. *)
Record Interference := {
  at_entry : list Request;       (* before the first look at the cancel flag *)
  before_wait : list Request;    (* between that look and [wait()] *)
  while_blocked : list Request;  (* while the worker waits on a cleared gate *)
  after_wake : list Request;     (* between [wait()] and the second look *)
}.

Record World := {
  mgr : Manager;
  an : AState;                   (* storage, clock and trace *)
  inbox : list Interference;     (* requests still to come, per checkpoint *)
}.

Definition set_mgr (m : Manager) (w : World) : World :=
  {| mgr := m; an := an w; inbox := inbox w |}.
Definition set_an (a : AState) (w : World) : World :=
  {| mgr := mgr w; an := a; inbox := inbox w |}.
Definition set_inbox (i : list Interference) (w : World) : World :=
  {| mgr := mgr w; an := an w; inbox := i |}.

Definition with_tasks (f : gmap string AnalysisTask -> gmap string AnalysisTask)
    (m : Manager) : Manager :=
  {| tasks := f (tasks m); running_tasks := running_tasks m;
     book_tasks := book_tasks m; _pause_events := _pause_events m;
     _cancel_flags := _cancel_flags m |}.
Definition with_running (f : gset string -> gset string) (m : Manager) : Manager :=
  {| tasks := tasks m; running_tasks := f (running_tasks m);
     book_tasks := book_tasks m; _pause_events := _pause_events m;
     _cancel_flags := _cancel_flags m |}.
Definition with_book_tasks
    (f : gmap string (list string) -> gmap string (list string))
    (m : Manager) : Manager :=
  {| tasks := tasks m; running_tasks := running_tasks m;
     book_tasks := f (book_tasks m); _pause_events := _pause_events m;
     _cancel_flags := _cancel_flags m |}.
Definition with_pause_events (f : gmap string bool -> gmap string bool)
    (m : Manager) : Manager :=
  {| tasks := tasks m; running_tasks := running_tasks m;
     book_tasks := book_tasks m; _pause_events := f (_pause_events m);
     _cancel_flags := _cancel_flags m |}.
Definition with_cancel_flags (f : gmap string bool -> gmap string bool)
    (m : Manager) : Manager :=
  {| tasks := tasks m; running_tasks := running_tasks m;
     book_tasks := book_tasks m; _pause_events := _pause_events m;
     _cancel_flags := f (_cancel_flags m) |}.

Definition with_status (s : TaskStatus) (t : AnalysisTask) : AnalysisTask :=
  {| task_id := task_id t; book_id := book_id t; task_type := task_type t;
     status := s; progress := progress t; failed_pages := failed_pages t;
     target_chapters := target_chapters t; target_pages := target_pages t;
     is_incremental := is_incremental t; started_at := started_at t;
     completed_at := completed_at t; error_message := error_message t |}.
Definition with_progress (f : AnalysisProgress -> AnalysisProgress)
    (t : AnalysisTask) : AnalysisTask :=
  {| task_id := task_id t; book_id := book_id t; task_type := task_type t;
     status := status t; progress := f (progress t);
     failed_pages := failed_pages t;
     target_chapters := target_chapters t; target_pages := target_pages t;
     is_incremental := is_incremental t; started_at := started_at t;
     completed_at := completed_at t; error_message := error_message t |}.
Definition with_failed_pages (f : list Z -> list Z) (t : AnalysisTask)
  : AnalysisTask :=
  {| task_id := task_id t; book_id := book_id t; task_type := task_type t;
     status := status t; progress := progress t;
     failed_pages := f (failed_pages t);
     target_chapters := target_chapters t; target_pages := target_pages t;
     is_incremental := is_incremental t; started_at := started_at t;
     completed_at := completed_at t; error_message := error_message t |}.
Definition with_times (started completed : option nat) (err : option Exn)
    (t : AnalysisTask) : AnalysisTask :=
  {| task_id := task_id t; book_id := book_id t; task_type := task_type t;
     status := status t; progress := progress t;
     failed_pages := failed_pages t;
     target_chapters := target_chapters t; target_pages := target_pages t;
     is_incremental := is_incremental t; started_at := started;
     completed_at := completed; error_message := err |}.

Definition set_current_page (p : Z) (g : AnalysisProgress) : AnalysisProgress :=
  {| total_pages := total_pages g; analyzed_pages := analyzed_pages g;
     current_page := p; current_phase := current_phase g |}.
Definition set_analyzed_pages (p : Z) (g : AnalysisProgress) : AnalysisProgress :=
  {| total_pages := total_pages g; analyzed_pages := p;
     current_page := current_page g; current_phase := current_phase g |}.

(** Effects on the world. *)
Definition on_an {A} (c : M AState A) : M World A := zoom an set_an c.

Definition on_mgr (f : Manager -> Manager) : M World unit :=
  modify (fun w => set_mgr (f (mgr w)) w).

(** An attribute assignment on the task object [self.tasks[id]]. *)
Definition update_task (id : string) (f : AnalysisTask -> AnalysisTask)
  : M World unit :=
  on_mgr (with_tasks (alter f id)).

Definition status_of (w : World) (id : string) : option TaskStatus :=
  status <$> tasks (mgr w) !! id.

(** [AnalysisTask(book_id=..., task_type=..., ...)] with its fresh id. *)
Definition new_task (new_id book : string) (ty : TaskType)
    (chapters : option (list string)) (pages : option (list Z))
    (incremental : bool) : AnalysisTask :=
  {| task_id := new_id; book_id := book; task_type := ty; status := PENDING;
     progress := {| total_pages := 0; analyzed_pages := 0; current_page := 0;
                    current_phase := "" |};
     failed_pages := [];
     target_chapters := chapters; target_pages := pages;
     is_incremental := incremental;
     started_at := None; completed_at := None; error_message := None |}.

Section WithCollaborators.
Context `{Collaborators}.

(** [create_task(book_id, task_type, target_chapters, target_pages,
    is_incremental)]; [new_id] is the id the new [AnalysisTask] gives
    itself. *)
Definition create_task (new_id book : string) (ty : TaskType)
    (chapters : option (list string)) (pages : option (list Z))
    (incremental : bool) : M World AnalysisTask :=
  let task := new_task new_id book ty chapters pages incremental in
  on_mgr (with_tasks (insert new_id task));;
  on_mgr (with_book_tasks (fun bt =>
            let bt := match bt !! book with
                      | Some _ => bt
                      | None => <[book := []]> bt
                      end in
            alter (fun ids => ids ++ [new_id]) book bt));;
  on_mgr (with_pause_events (insert new_id true));;
  on_mgr (with_cancel_flags (insert new_id false));;
  on_an (log INFO (TaskCreated new_id));;
  ret task.

(** The scan of [start_task]: the first id of the book whose task is another
    one and is Running. *)
Definition running_sibling (m : Manager) (id book : string) : option string :=
  List.find (fun tid =>
               match tasks m !! tid with
               | Some other_task =>
                   negb (String.eqb (task_id other_task) id)
                   && bool_decide (status other_task = RUNNING)
               | None => false
               end)
            (default [] (book_tasks m !! book)).

(** [start_task(task_id)] *)
Definition start_task (id : string) : M World bool :=
  let* m := gets mgr in
  match tasks m !! id with
  | None => on_an (log ERROR (TaskMissing id));; ret false
  | Some task =>
      if bool_decide (status task = RUNNING) then
        on_an (log WARNING (TaskAlreadyRunning id));; ret false
      else
        let book := book_id task in
        match running_sibling m id book with
        | Some tid => on_an (log WARNING (BookAlreadyRunning book tid));; ret false
        | None =>
            update_task id (with_status RUNNING);;
            let* t := on_an tick in
            update_task id (fun task =>
              with_times (Some t) (completed_at task) (error_message task) task);;
            (* the background thread running [_execute_task(task)] *)
            on_an (emit (EvThreadStart id));;
            on_mgr (with_running (fun r => {[id]} ∪ r));;
            on_an (log INFO (TaskStarted id));;
            ret true
        end
  end.

(** [pause_task(task_id)] *)
Definition pause_task (id : string) : M World bool :=
  let* m := gets mgr in
  match tasks m !! id with
  | None => ret false
  | Some task =>
      if negb (bool_decide (status task = RUNNING)) then ret false
      else
        update_task id (with_status PAUSED);;
        match _pause_events m !! id with
        | None => raise (KeyError id)
        | Some _ =>
            on_mgr (with_pause_events (insert id false));;
            on_an (log INFO (TaskPaused id));;
            ret true
        end
  end.

(** [resume_task(task_id)] *)
Definition resume_task (id : string) : M World bool :=
  let* m := gets mgr in
  match tasks m !! id with
  | None => ret false
  | Some task =>
      if negb (bool_decide (status task = PAUSED)) then ret false
      else
        update_task id (with_status RUNNING);;
        match _pause_events m !! id with
        | None => raise (KeyError id)
        | Some _ =>
            on_mgr (with_pause_events (insert id true));;
            on_an (log INFO (TaskResumed id));;
            ret true
        end
  end.

(** [cancel_task(task_id)] *)
Definition cancel_task (id : string) : M World bool :=
  let* m := gets mgr in
  match tasks m !! id with
  | None => ret false
  | Some task =>
      if negb (bool_decide (status task ∈ [PENDING; RUNNING; PAUSED])) then ret false
      else
        update_task id (with_status CANCELLED);;
        on_mgr (with_cancel_flags (insert id true));;
        (match _pause_events m !! id with
         | Some _ => on_mgr (with_pause_events (insert id true))
         | None => ret tt
         end);;
        on_an (log INFO (TaskCancelled id));;
        ret true
  end.

(** A request served by the controller on another thread: whatever it
    returns or raises stays with its caller. *)
Definition serve (r : Request) : M World unit :=
  fun w =>
    let w' :=
      match r with
      | ReqCreate new_id book ty =>
          (create_task new_id book ty None None false w).2
      | ReqStart id => (start_task id w).2
      | ReqPause id => (pause_task id w).2
      | ReqResume id => (resume_task id w).2
      | ReqCancel id => (cancel_task id w).2
      end in
    (Val tt, w').

Definition serve_all (rs : list Request) : M World unit :=
  for_each rs serve.

Definition cancel_flag (w : World) (id : string) : bool :=
  default false (_cancel_flags (mgr w) !! id).

(** [_check_pause_and_cancel(task_id)]: [True] to go on, [False] to stop.
    The head of the inbox is what the other threads do around this call;
    [wait()] on a cleared gate returns once a request sets the gate, and
    never if none does. *)
Definition _check_pause_and_cancel (id : string) : M World bool :=
  let* pending := gets inbox in
  let i := default {| at_entry := []; before_wait := []; while_blocked := [];
                      after_wake := [] |} (head pending) in
  modify (set_inbox (tail pending));;
  serve_all (at_entry i);;
  (* the cancel flag *)
  let* w := gets (fun w => w) in
  if cancel_flag w id then ret false
  else
    serve_all (before_wait i);;
    (* the pause gate *)
    let* w := gets (fun w => w) in
    (match _pause_events (mgr w) !! id with
     | Some true => ret tt
     | Some false =>
         serve_all (while_blocked i);;
         let* w := gets (fun w => w) in
         match _pause_events (mgr w) !! id with
         | Some false => hang
         | _ => ret tt
         end
     | None => ret tt
     end);;
    serve_all (after_wake i);;
    (* the cancel flag again: it may have been set during the pause *)
    let* w := gets (fun w => w) in
    if cancel_flag w id then ret false
    else ret true.

(** [_notify_progress(task_id, progress)]: the registered callbacks run; an
    exception of a callback is logged and dropped. *)
Definition _notify_progress (id : string) : M World unit :=
  on_an (emit (EvNotify id)).

(** [_build_chapter_page_map(all_images, chapters)]: chapter id -> page
    numbers, in the order the chapters first appear. *)
Fixpoint page_map_add (ch_id : string) (page : Z) (m : list (string * list Z))
  : list (string * list Z) :=
  match m with
  | [] => [(ch_id, [page])]
  | (k, pages) :: rest =>
      if String.eqb k ch_id then (k, pages ++ [page]) :: rest
      else (k, pages) :: page_map_add ch_id page rest
  end.

Fixpoint chapter_page_map_from (all_images : list ImageInfo) (idx : Z)
    (m : list (string * list Z)) : list (string * list Z) :=
  match all_images with
  | [] => m
  | img :: rest =>
      let ch_id := img_chapter_id img in
      let m := if truthy (JStr ch_id) then page_map_add ch_id (idx + 1) m else m in
      chapter_page_map_from rest (idx + 1) m
  end.

Definition _build_chapter_page_map (all_images : list ImageInfo)
  : list (string * list Z) :=
  chapter_page_map_from all_images 0 [].

(** [[all_images[p - 1] for p in page_nums]] *)
Fixpoint images_of_pages (all_images : list ImageInfo) (page_nums : list Z)
  : Exn + list ImageInfo :=
  match page_nums with
  | [] => inr []
  | p :: rest =>
      match index all_images (p - 1) with
      | inl e => inl e
      | inr img =>
          match images_of_pages all_images rest with
          | inl e => inl e
          | inr imgs => inr (img :: imgs)
          end
      end
  end.

(** [_analyze_single_batch(task, analyzer, all_images, page_nums, batch_idx,
    total_batches, batch_results, context_batch_count)]; [None] is the
    [return None] of the handler. *)
Definition _analyze_single_batch (id : string) (all_images : list ImageInfo)
    (page_nums : list Z) (batch_idx total_batches : Z)
    (batch_results : list Dict) (context_batch_count : Z)
  : M World (option Dict) :=
  let* image_infos := lift_exn (images_of_pages all_images page_nums) in
  let* first := lift_exn (index page_nums 0) in
  update_task id (with_progress (set_current_page first));;
  (* the context *)
  let previous_results := context_window batch_results context_batch_count in
  try_except
    (let* first := lift_exn (index page_nums 0) in
     let* last := lift_exn (index page_nums (-1)) in
     on_an (log INFO (TierBatchStart first last (batch_idx + 1) total_batches
                        (length previous_results)));;
     let* result :=
       on_an (analyze_batch page_nums None (map Some image_infos) true
                previous_results) in
     let* last := lift_exn (index page_nums (-1)) in
     update_task id (with_progress (set_analyzed_pages last));;
     _notify_progress id;;
     ret (Some result))
    (fun e =>
     let* first := lift_exn (index page_nums 0) in
     let* last := lift_exn (index page_nums (-1)) in
     on_an (log ERROR (TierBatchFailed first last e));;
     update_task id (with_failed_pages (fun fp => fp ++ page_nums));;
     let* last := lift_exn (index page_nums (-1)) in
     update_task id (with_progress (set_analyzed_pages last));;
     _notify_progress id;;
     ret None).

(** [if result: batch_results.append(result)] *)
Definition append_result (batch_results : list Dict) (result : option Dict)
  : list Dict :=
  match result with
  | Some r => if dict_truthy r then batch_results ++ [r] else batch_results
  | None => batch_results
  end.

(** The loop of [_execute_batch_analysis_layer] over chapter-aligned
    batches. *)
Fixpoint aligned_batch_loop (batch_groups : list (string * list Z))
    (batch_idx : Z) (id : string) (all_images : list ImageInfo)
    (total_batches context_batch_count : Z) (batch_results : list Dict)
  : M World (list Dict) :=
  match batch_groups with
  | [] => ret batch_results
  | (ch_id, page_nums) :: rest =>
      let* go := _check_pause_and_cancel id in
      if negb go then ret batch_results
      else
        let* result :=
          _analyze_single_batch id all_images page_nums batch_idx
            total_batches batch_results context_batch_count in
        let result := (fun r : Dict => <["chapter_id" := JStr ch_id]> r) <$>
                      (match result with
                       | Some r => if dict_truthy r then Some r else None
                       | None => None
                       end) in
        aligned_batch_loop rest (batch_idx + 1) id all_images total_batches
          context_batch_count (append_result batch_results result)
  end.

(** The loop of [_execute_batch_analysis_layer] over plain batches. *)
Fixpoint plain_batch_loop (batch_idxs : list Z) (id : string)
    (all_images : list ImageInfo)
    (pages_per_batch total_pages total_batches context_batch_count : Z)
    (batch_results : list Dict) : M World (list Dict) :=
  match batch_idxs with
  | [] => ret batch_results
  | batch_idx :: rest =>
      let* go := _check_pause_and_cancel id in
      if negb go then ret batch_results
      else
        let start_idx := batch_idx * pages_per_batch in
        let end_idx := Z.min (start_idx + pages_per_batch) total_pages in
        let page_nums := map (fun i => i + 1) (range_from start_idx end_idx) in
        let* result :=
          _analyze_single_batch id all_images page_nums batch_idx
            total_batches batch_results context_batch_count in
        plain_batch_loop rest id all_images pages_per_batch total_pages
          total_batches context_batch_count (append_result batch_results result)
  end.

(** The batches of the chapter-aligned branch:
    [[
      for ch_id, page_nums in chapter_page_map.items():
          for i in range(0, len(page_nums), pages_per_batch):
              batch_groups.append((ch_id, page_nums[i:i + pages_per_batch]))
    ]] *)
Fixpoint aligned_batch_groups (chapter_page_map : list (string * list Z))
    (pages_per_batch : Z) : Exn + list (string * list Z) :=
  match chapter_page_map with
  | [] => inr []
  | (ch_id, page_nums) :: rest =>
      match range_step (Z.of_nat (length page_nums)) pages_per_batch with
      | inl e => inl e
      | inr starts =>
          match aligned_batch_groups rest pages_per_batch with
          | inl e => inl e
          | inr more =>
              inr (map (fun i => (ch_id,
                                  slice page_nums (Some i)
                                        (Some (i + pages_per_batch))))
                       starts ++ more)
          end
      end
  end.

(** [_execute_batch_analysis_layer(task, analyzer, all_images,
    pages_per_batch, context_batch_count, align_to_chapter,
    chapter_page_map)] *)
Definition _execute_batch_analysis_layer (id : string)
    (all_images : list ImageInfo) (pages_per_batch context_batch_count : Z)
    (align_to_chapter : bool) (chapter_page_map : list (string * list Z))
  : M World (list Dict) :=
  let total_pages := Z.of_nat (length all_images) in
  let batch_results : list Dict := [] in
  if align_to_chapter && match chapter_page_map with [] => false | _ => true end
  then
    let* batch_groups :=
      lift_exn (aligned_batch_groups chapter_page_map pages_per_batch) in
    let total_batches := Z.of_nat (length batch_groups) in
    aligned_batch_loop batch_groups 0 id all_images total_batches
      context_batch_count batch_results
  else
    let* total_batches :=
      lift_exn (floordiv (total_pages + pages_per_batch - 1) pages_per_batch) in
    plain_batch_loop (range total_batches) id all_images pages_per_batch
      total_pages total_batches context_batch_count batch_results.

(** [f"layer{layer_idx}_seg_{group_idx:03d}"] *)
Definition layer_segment_id (layer_idx group_idx : Z) : string :=
  "layer" +:+ str_of_Z layer_idx +:+ "_seg_" +:+ format_03d group_idx.

(** The loop of [_execute_summary_layer]. *)
Fixpoint summary_group_loop (groups : list (Z * list Json)) (id : string)
    (total_groups : Z)
    (layer_name : string) (layer_idx : Z) (summary_results : list Json)
  : M World (list Json) :=
  match groups with
  | [] => ret summary_results
  | (group_idx, items) :: rest =>
      let* go := _check_pause_and_cancel id in
      if negb go then ret summary_results
      else
        let segment_id := layer_segment_id layer_idx group_idx in
        let* summary_results :=
          try_except
            (on_an (log INFO (LayerGroupStart layer_name segment_id
                                (group_idx + 1) total_groups));;
             let* result :=
               on_an (generate_segment_summary segment_id items true) in
             ret (summary_results ++ [result]))
            (fun e =>
             on_an (log ERROR (LayerGroupFailed layer_name segment_id e));;
             ret summary_results) in
        _notify_progress id;;
        summary_group_loop rest id total_groups
          layer_name layer_idx summary_results
  end.

(** [_execute_summary_layer(task, analyzer, input_results, units_per_group,
    layer_name, layer_idx)] *)
Definition _execute_summary_layer (id : string) (input_results : list Json)
    (units_per_group : Z) (layer_name : string) (layer_idx : Z)
  : M World (list Json) :=
  match input_results with
  | [] =>
      on_an (log WARNING (LayerInputEmpty layer_name));;
      ret []
  | _ :: _ =>
      let units_per_group :=
        if units_per_group <=? 0 then Z.of_nat (length input_results)
        else units_per_group in
      let* total_groups :=
        lift_exn (floordiv (Z.of_nat (length input_results)
                            + units_per_group - 1) units_per_group) in
      summary_group_loop
        (indexed_groups input_results units_per_group total_groups) id
        total_groups layer_name layer_idx []
  end.

(** The end of [_execute_task]: what happens to the task once the analysis
    of its type has returned, raised, or never come back.  [Raise e] is an
    exception caught by [except Exception].  The branch
    [except asyncio.CancelledError] (status Cancelled, no error message) is
    not modelled: that exception is none of [Exn], and the worker is stopped
    through its cancel flag, never by cancelling its asyncio task.
    [_build_timeline_on_complete] catches its own errors and touches no
    task; the timeline file it saves is not among the files of the
    model. *)
Definition finish_task (id : string) (outcome : Res unit) : M World unit :=
  match outcome with
  | Hang => hang
  | Val _ =>
      let* w := gets (fun w => w) in
      (if cancel_flag w id then update_task id (with_status CANCELLED)
       else
         update_task id (with_status COMPLETED);;
         let* t := on_an tick in
         update_task id (fun task =>
           with_times (started_at task) (Some t) (error_message task) task));;
      on_mgr (with_running (fun r => r ∖ {[id]}))
  | Raise e =>
      update_task id (with_status FAILED);;
      update_task id (fun task =>
        with_times (started_at task) (completed_at task) (Some e) task);;
      on_mgr (with_running (fun r => r ∖ {[id]}))
  end.

(** [_execute_task(task)], the body of the worker thread; [analysis] is the
    analysis of the task's type. *)
Definition _execute_task (id : string) (analysis : M World unit) : M World unit :=
  fun w => let (outcome, w') := analysis w in finish_task id outcome w'.

End WithCollaborators.
End TaskManager.

(* ================================================================== *)
(** * Vocabulary of the properties *)
(* ================================================================== *)

Module Vocabulary.
Import Py Eff Env Storage Analyzer TaskManager.

(** Whether a character occurs in a text. *)
Fixpoint occurs (c : ascii) (s : string) : bool :=
  match s with
  | EmptyString => false
  | String a s' => Ascii.eqb a c || occurs c s'
  end.

(** A character that is no decimal digit does not occur in a number. *)
Definition not_a_digit (c : ascii) : Prop :=
  Forall (fun d => Ascii.eqb d c = false)
         ["0"; "1"; "2"; "3"; "4"; "5"; "6"; "7"; "8"; "9"]%char.

(** The identity of a persisted batch record: every record found in a
    range file carries that range as its [page_range]. *)
Definition batch_store_consistent (s : AState) : Prop :=
  forall (start_page end_page : Z) (d : Dict),
    files s !! batch_filename start_page end_page = Some (FJson (JDict d)) ->
    d !! "page_range" = Some (JDict (page_range_dict start_page end_page)).

(** The inputs of positions [a] (included) to [b] (excluded). *)
Definition span {A} (l : list A) (a b : Z) : list A :=
  take (Z.to_nat (b - a)) (drop (Z.to_nat a) l).

(** The groups [_execute_summary_layer] forms, in the order it walks them:
    none for an empty input; otherwise [units_per_group <= 0] becomes
    [len(input_results)], and the group of every index below
    [(len(input_results) + units_per_group - 1) // units_per_group]. *)
Definition summary_layer_groups {A} (input_results : list A)
    (units_per_group : Z) : list (list A) :=
  match input_results with
  | [] => []
  | _ :: _ =>
      let n := Z.of_nat (length input_results) in
      let units_per_group :=
        if units_per_group <=? 0 then n else units_per_group in
      map snd (indexed_groups input_results units_per_group
                 ((n + units_per_group - 1) / units_per_group))
  end.

(** The groups one middle tier of [analyze_chapter_with_segments] forms:
    [units_per_group <= 0] becomes [max(len(current_results), 1)], and an
    empty input is skipped. *)
Definition chapter_layer_groups {A} (current_results : list A)
    (units_per_group : Z) : list (list A) :=
  let n := Z.of_nat (length current_results) in
  let units_per_group :=
    if units_per_group <=? 0 then Z.max n 1 else units_per_group in
  match current_results with
  | [] => []
  | _ :: _ =>
      map snd (indexed_groups current_results units_per_group
                 ((n + units_per_group - 1) / units_per_group))
  end.

(** The groups with their indices, as the loops receive them. *)
Definition enumerate {A} (groups : list A) : list (Z * A) :=
  imap (fun g items => (Z.of_nat g, items)) groups.

(** What the specification asks of the groups of a tier over [n] inputs. *)
Definition tier_partition {A} (input_results : list A) (units_per_group : Z)
    (groups : list (list A)) : Prop :=
  let n := Z.of_nat (length input_results) in
  (n = 0 -> groups = [])
  /\ (0 < n -> units_per_group <= 0 -> groups = [input_results])
  /\ (0 < n -> 0 < units_per_group ->
      exists c : Z,
        Z.of_nat (length groups) = c
        /\ (c - 1) * units_per_group < n <= c * units_per_group
        /\ forall g : Z, 0 <= g < c ->
             groups !! Z.to_nat g
             = Some (span input_results (g * units_per_group)
                          (Z.min ((g + 1) * units_per_group) n)))
  /\ concat groups = input_results.

(** ** The task state machine *)

(** The terminal states of a task. *)
Definition terminal (s : TaskStatus) : Prop :=
  s = CANCELLED \/ s = COMPLETED \/ s = FAILED.

(** The tables of a manager as [create_task] builds them: a task is stored
    under its own id, and the ids of a book list it. *)
Definition wf_manager (m : Manager) : Prop :=
  forall (id : string) (t : AnalysisTask),
    tasks m !! id = Some t ->
    task_id t = id /\ id ∈ default [] (book_tasks m !! book_id t).

(** An event that is a worker being launched. *)
Definition is_thread_start (e : Event) : bool :=
  match e with EvThreadStart _ => true | _ => false end.

(** Requests that neither start the task [id] again nor create a task
    under its id. *)
Definition foreign (id : string) (r : Request) : Prop :=
  match r with
  | ReqCreate new_id _ _ => new_id <> id
  | ReqStart i => i <> id
  | ReqPause _ | ReqResume _ | ReqCancel _ => True
  end.

Definition foreign_interference (id : string) (i : Interference) : Prop :=
  Forall (foreign id) (at_entry i) /\ Forall (foreign id) (before_wait i)
  /\ Forall (foreign id) (while_blocked i) /\ Forall (foreign id) (after_wake i).

(** The failed-pages list of the task [id]. *)
Definition failed_pages_of (w : World) (id : string) : list Z :=
  default [] (failed_pages <$> tasks (mgr w) !! id).

(** Page numbers that are positions of [all_images] (pages count from 1). *)
Definition valid_pages (all_images : list ImageInfo) (page_nums : list Z) : Prop :=
  page_nums <> []
  /\ Forall (fun p => 1 <= p <= Z.of_nat (length all_images)) page_nums.

(** A storage state with more events in its trace. *)
Definition record_events (a : AState) (events : list Event) : AState :=
  {| files := files a; image_files := image_files a; clock := clock a;
     trace := trace a ++ events |}.

(** The storage state in which [_analyze_single_batch] calls
    [analyze_batch]: the info line of the batch has been logged. *)
Definition at_batch_call (a : AState) (first last batch_idx total_batches : Z)
    (context_count : nat) : AState :=
  {| files := files a; image_files := image_files a; clock := clock a;
     trace := trace a ++ [EvLog INFO (TierBatchStart first last (batch_idx + 1)
                                        total_batches context_count)] |}.

(** The page numbers of the batch of index [batch_idx] when the pages are
    cut without regard to chapters:
    [[i + 1 for i in range(start_idx, end_idx)]]. *)
Definition plain_batch_pages (pages_per_batch total_pages batch_idx : Z) : list Z :=
  let start_idx := batch_idx * pages_per_batch in
  let end_idx := Z.min (start_idx + pages_per_batch) total_pages in
  map (fun i => i + 1) (range_from start_idx end_idx).

(** A chapter page map whose pages are positions of [all_images]. *)
Definition valid_page_map (all_images : list ImageInfo)
    (chapter_page_map : list (string * list Z)) : Prop :=
  Forall (fun entry : string * list Z =>
            Forall (fun p => 1 <= p <= Z.of_nat (length all_images)) entry.2)
         chapter_page_map.

(** Nobody interferes with the worker of [id]: no request is to come, the
    task is not cancelled and its gate is not cleared. *)
Definition quiet (id : string) (w : World) : Prop :=
  inbox w = [] /\ cancel_flag w id = false
  /\ _pause_events (mgr w) !! id <> Some false.

(** What a run of the tier without interference accounts for: every batch
    either added a result or had its pages recorded as failed. *)
Definition accounted (id : string) (w : World) (batches : list (list Z))
    (n_before : nat) (run : Res (list Dict) * World) : Prop :=
  match run with
  | (Val results, w') =>
      exists failed : list (list Z),
        failed `sublist_of` batches
        /\ failed_pages_of w' id = failed_pages_of w id ++ concat failed
        /\ (length results + length failed = n_before + length batches)%nat
        /\ quiet id w'
  | (Raise _, _) => False
  | (Hang, _) => True
  end.

(** A computation that keeps a property of the state, however it ends. *)
Definition preserves {S A} (I : S -> Prop) (c : M S A) : Prop :=
  forall s : S, I s -> I (c s).2.

(** A computation that never lets an exception escape. *)
Definition never_raises {S A} (c : M S A) : Prop :=
  forall (s : S) (e : Exn), (c s).1 <> Raise e.

(** The task [id] has reached a terminal state with its cancel flag set. *)
Definition settled (id : string) (w : World) : Prop :=
  (exists t, tasks (mgr w) !! id = Some t /\ terminal (status t))
  /\ _cancel_flags (mgr w) !! id = Some true.

(** No request still to come starts [id] again or reuses its id. *)
Definition inbox_foreign (id : string) (w : World) : Prop :=
  Forall (foreign_interference id) (inbox w).

(** The invariant of a task that was cancelled and is not started again. *)
Definition cancelled_for_good (id : string) (w : World) : Prop :=
  settled id w /\ inbox_foreign id w.

Section WithCollaborators.
Context `{Collaborators}.

(** What one batch of the tier comes to, by what [analyze_batch] does when
    [_analyze_single_batch] calls it: a result is handed on and the failed
    pages stay as they are; an exception is caught and logged, the pages
    of the batch are appended to the failed pages and [None] is handed on.
    Either way the flags, the gates and the inbox are untouched. *)
Definition single_batch_contract (id : string) (all_images : list ImageInfo)
    (page_nums : list Z) (batch_idx total_batches : Z)
    (batch_results : list Dict) (context_batch_count : Z) (w : World) : Prop :=
  exists (infos : list ImageInfo) (first last : Z),
    images_of_pages all_images page_nums = inr infos
    /\ index page_nums 0 = inr first
    /\ index page_nums (-1) = inr last
    /\ let previous_results := context_window batch_results context_batch_count in
       let single := _analyze_single_batch id all_images page_nums batch_idx
                       total_batches batch_results context_batch_count w in
       match analyze_batch page_nums None (map Some infos) true previous_results
               (at_batch_call (an w) first last batch_idx total_batches
                  (length previous_results)) with
       | (Val result, a') =>
           single.1 = Val (Some result)
           /\ failed_pages_of single.2 id = failed_pages_of w id
           /\ trace (an single.2) = trace a' ++ [EvNotify id]
       | (Raise e, a') =>
           single.1 = Val None
           /\ failed_pages_of single.2 id = failed_pages_of w id ++ page_nums
           /\ status_of single.2 id = status_of w id
           /\ trace (an single.2)
              = trace a' ++ [EvLog ERROR (TierBatchFailed first last e);
                             EvNotify id]
       | (Hang, _) => single.1 = Hang
       end
       /\ _cancel_flags (mgr single.2) = _cancel_flags (mgr w)
       /\ _pause_events (mgr single.2) = _pause_events (mgr w)
       /\ inbox single.2 = inbox w
       /\ is_Some (tasks (mgr single.2) !! id).

(** The batches [_execute_batch_analysis_layer] goes through, in order. *)
Definition batch_layer_batches (all_images : list ImageInfo)
    (pages_per_batch : Z) (align_to_chapter : bool)
    (chapter_page_map : list (string * list Z)) : list (list Z) :=
  let total_pages := Z.of_nat (length all_images) in
  if align_to_chapter && match chapter_page_map with [] => false | _ => true end
  then match aligned_batch_groups chapter_page_map pages_per_batch with
       | inr batch_groups => map snd batch_groups
       | inl _ => []
       end
  else map (plain_batch_pages pages_per_batch total_pages)
           (range ((total_pages + pages_per_batch - 1) / pages_per_batch)).

(** What one group of [_execute_summary_layer] comes to once its checkpoint
    has let the worker go on, by what [generate_segment_summary] does: a
    returned summary is appended to the results; an exception is logged
    and the group adds nothing; either way the loop goes on with the
    remaining groups. *)
Definition group_contract (id : string) (group_idx : Z) (items : list Json)
    (rest : list (Z * list Json)) (total_groups : Z) (layer_name : string)
    (layer_idx : Z) (summary_results : list Json) (w : World) : Prop :=
  forall w1 : World,
    _check_pause_and_cancel id w = (Val true, w1) ->
    let segment_id := layer_segment_id layer_idx group_idx in
    let loop := summary_group_loop ((group_idx, items) :: rest) id total_groups
                  layer_name layer_idx summary_results w in
    match generate_segment_summary segment_id items true
            (record_events (an w1)
               [EvLog INFO (LayerGroupStart layer_name segment_id
                              (group_idx + 1) total_groups)]) with
    | (Val result, a') =>
        loop = summary_group_loop rest id total_groups layer_name layer_idx
                 (summary_results ++ [result])
                 (set_an (record_events a' [EvNotify id]) w1)
    | (Raise e, a') =>
        loop = summary_group_loop rest id total_groups layer_name layer_idx
                 summary_results
                 (set_an (record_events a'
                            [EvLog ERROR (LayerGroupFailed layer_name segment_id e);
                             EvNotify id]) w1)
    | (Hang, _) => loop.1 = Hang
    end.

(** What [generate_segment_summary] does when the chat model raises: no
    exception, a warning, the first three batch summaries as the synopsis,
    and the segment saved and returned. *)
Definition llm_failure_contract (segment_id : string) (batch_results : list Json)
    (a : AState) : Prop :=
  forall (c : Collected) (e : Exn),
    batch_results <> [] ->
    collect nothing_collected batch_results = inr c ->
    let prompt := segment_prompt segment_id (length batch_results)
                    (default 0 (c_start_page c)) (c_end_page c)
                    (batch_summaries c) in
    chat_generate (clock a) prompt analysis_system_prompt = inl e ->
    exists (segment : Dict) (a' : AState) (outcome : WriteOutcome),
      generate_segment_summary segment_id batch_results true a
        = (Val (JDict segment), a')
      /\ segment !! "summary"
         = Some (JStr (join nl (take 3 (batch_summaries c))))
      /\ segment !! "segment_id" = Some (JStr segment_id)
      /\ segment !! "batch_count"
         = Some (JInt (Z.of_nat (length batch_results)))
      /\ trace a'
         = trace a ++ [EvChat prompt analysis_system_prompt;
                       EvLog WARNING (SegmentGenerationFailed e);
                       EvWrite (segment_filename segment_id) outcome]
                 ++ match outcome with
                    | Written => []
                    | _ => [EvLog ERROR (SaveJsonFailed (segment_filename segment_id))]
                    end
      /\ (outcome = Written ->
          files a' !! segment_filename segment_id = Some (FJson (JDict segment))).

(** What can happen to the world of a task [id] that is not started again:
    requests served by the controller, checkpoints and ends of workers
    (of any task), storage traffic, and workers updating the progress, the
    failed pages or the time stamps of their task. *)
Inductive step (id : string) : World -> World -> Prop :=
| step_request (r : Request) (w : World) :
    foreign id r -> step id w (serve r w).2
| step_schedule (i : list Interference) (w : World) :
    Forall (foreign_interference id) i -> step id w (set_inbox i w)
| step_checkpoint (worker : string) (w : World) :
    step id w (_check_pause_and_cancel worker w).2
| step_finish (worker : string) (outcome : Res unit) (w : World) :
    step id w (finish_task worker outcome w).2
| step_storage (a : AState) (w : World) :
    step id w (set_an a w)
| step_task_update (worker : string) (f : AnalysisTask -> AnalysisTask)
    (w : World) :
    (forall t, status (f t) = status t) ->
    step id w (update_task worker f w).2.

Inductive steps (id : string) : World -> World -> Prop :=
| steps_refl (w : World) : steps id w w
| steps_next (w1 w2 w3 : World) :
    step id w1 w2 -> steps id w2 w3 -> steps id w1 w3.

End WithCollaborators.

End Vocabulary.

(* ================================================================== *)
(** * A small book, for examples *)
(* ================================================================== *)

Module Demo.
Import Py Eff Env Storage Analyzer TaskManager Vocabulary.

(** Collaborators of a bad day: the VLM client fails on the batch that
    starts at page 6 and answers every other batch; the chat model is down;
    the disk works. *)
Definition collaborators : Collaborators :=
  {| vlm_analyze_batch := fun _ _ start_page _ =>
       if start_page =? 6 then inl (ExternalError "vlm timeout")
       else inr (<["batch_summary" := JStr "a summary"]>
                 (<["key_events" := JList [JStr "an event"]]> ∅));
     chat_generate := fun _ _ _ => inl (ExternalError "llm down");
     chat_close := fun _ => None;
     json_loads := fun _ => None;
     isoformat := fun t => "t" +:+ str_of_Z (Z.of_nat t);
     disk_write := fun _ _ => Written;
     str_container := fun _ => "...";
     update_from_iterable := fun d _ => (d, Some TypeError);
     segment_summary_prompt :=
       "{segment_id}: {batch_count} batches, pages {start_page}-{end_page}"
       +:+ nl +:+ "{batch_summaries}";
     analysis_system_prompt := "system" |}.

(** The record of the batch of pages 1 to 5. *)
Definition first_record : Dict :=
  <["batch_summary" := JStr "the hero leaves home"]>
    (<["page_range" := JDict (page_range_dict 1 5)]> ∅).

Definition empty_store : AState :=
  {| files := ∅; image_files := ∅; clock := 0; trace := [] |}.

Definition store_with_first_record : AState :=
  {| files := {[ batch_filename 1 5 := FJson (JDict first_record) ]};
     image_files := ∅; clock := 0; trace := [] |}.

(** Twelve pages of one chapter. *)
Definition book_images : list ImageInfo :=
  map (fun i => {| img_chapter_id := "ch1"; img_index := Z.of_nat i;
                   img_path := "img/" +:+ str_of_Z (Z.of_nat i) |})
      (seq 0 12).

(** The storage of the book before any analysis: the twelve images, no
    record. *)
Definition book_store : AState :=
  {| files := ∅;
     image_files := list_to_map (map (fun i => (img_path i, "bytes")) book_images);
     clock := 0; trace := [] |}.

Definition task_in (s : TaskStatus) (id : string) : AnalysisTask :=
  with_status s (new_task id "book" FULL_BOOK None None false).

(** One task of the book, in the given status, its gate set and its cancel
    flag down. *)
Definition world_with (s : TaskStatus) : World :=
  {| mgr := {| tasks := {[ "t1" := task_in s "t1" ]};
               running_tasks := ∅;
               book_tasks := {[ "book" := ["t1"] ]};
               _pause_events := {[ "t1" := true ]};
               _cancel_flags := {[ "t1" := false ]} |};
     an := book_store;
     inbox := [] |}.

(** Two tasks of the book: ["t1"] is Running, ["t2"] is Pending. *)
Definition world_with_two_tasks : World :=
  {| mgr := {| tasks := <["t2" := task_in PENDING "t2"]>
                          {[ "t1" := task_in RUNNING "t1" ]};
               running_tasks := {[ "t1" ]};
               book_tasks := {[ "book" := ["t1"; "t2"] ]};
               _pause_events := <["t2" := true]> {[ "t1" := true ]};
               _cancel_flags := <["t2" := false]> {[ "t1" := false ]} |};
     an := empty_store;
     inbox := [] |}.

End Demo.

(* ================================================================== *)
(** * A journal for the remaining functions *)
(* ================================================================== *)

Module Journal.
Import Py Eff Env.

(** The log lines of the functions modelled below, by call site, with the
    values they interpolate. *)
Inductive Message :=
| DeleteBatchFailed (e : Exn)
| ReanalysisBatchDone (batch_no total_batches first last : Z)
| ReanalysisBatchFailed (first last : Z) (e : Exn)
| EmbeddingStart
| EmbeddingDone
| EmbeddingFailed (e : Exn)
| OverviewStart
| OverviewDone
| OverviewFailed (e : Exn).

(** What the journal records: the log lines above, and the files taken
    off the disk. *)
Inductive Note :=
| NoteLog (lvl : Level) (msg : Message)
| NoteRemoved (filename : string).

(** A state together with the journal of what these functions did to it,
    oldest first. *)
Record Logged (S : Type) := {
  under : S;
  journal : list Note;
}.
Arguments under {S} l.
Arguments journal {S} l.

Definition set_under {S} (s : S) (l : Logged S) : Logged S :=
  {| under := s; journal := journal l |}.

(** A computation on the state proper, leaving the journal alone. *)
Definition on_under {S A} (c : M S A) : M (Logged S) A :=
  zoom under set_under c.

Definition note {S} (n : Note) : M (Logged S) unit :=
  modify (fun l => {| under := under l; journal := journal l ++ [n] |}).

Definition note_log {S} (lvl : Level) (msg : Message) : M (Logged S) unit :=
  note (NoteLog lvl msg).

End Journal.

(* ================================================================== *)
(** * storage.py: lookups, listings, removal, continuation data *)
(* ================================================================== *)

Module StorageQueries.
Import Py Eff Env Storage Analyzer Journal.

(** [os.remove]: [None] when the file is gone afterwards, the error
    otherwise. *)
Class Removal := {
  disk_remove : nat -> string -> option Exn;
}.

(** [sorted(pages)] for integers. *)
Fixpoint insert_int (x : Z) (l : list Z) : list Z :=
  match l with
  | [] => [x]
  | y :: rest => if x <? y then x :: l else y :: insert_int x rest
  end.

Definition sorted_ints (l : list Z) : list Z := foldr insert_int [] l.

(** [x >= j] and [x <= j] for an integer [x] and a value [j] read from a
    record: integers (and booleans) compare, anything else raises. *)
Definition int_ge (x : Z) (j : Json) : Exn + bool :=
  match as_int j with
  | Some v => inr (v <=? x)
  | None => inl TypeError
  end.

Definition int_le (x : Z) (j : Json) : Exn + bool :=
  match as_int j with
  | Some v => inr (x <=? v)
  | None => inl TypeError
  end.

Definition drop_file (filename : string) : M AState unit :=
  modify (fun s => {| files := delete filename (files s);
                      image_files := image_files s;
                      clock := clock s; trace := trace s |}).

Section WithCollaborators.
Context `{Collaborators} `{Removal}.

(** The loop of [find_batch_for_page]. *)
Fixpoint find_batch_loop (batches : list BatchInfo) (page_num : Z)
  : M AState Json :=
  match batches with
  | [] => ret JNull
  | batch :: rest =>
      if (bi_start_page batch <=? page_num) && (page_num <=? bi_end_page batch)
      then load_batch_analysis (bi_start_page batch) (bi_end_page batch)
      else find_batch_loop rest page_num
  end.

(** [find_batch_for_page(page_num)]; [None] is [JNull]. *)
Definition find_batch_for_page (page_num : Z) : M AState Json :=
  let* batches := list_batches in
  find_batch_loop batches page_num.

(** The body shared by the [delete_...] functions:
    [[
      try:
          if os.path.exists(filepath):
              os.remove(filepath)
          return True
      except Exception as e:
          logger.error(...)
          return False
    ]] *)
Definition delete_file (filename : string) (failed : Exn -> Message)
  : M (Logged AState) bool :=
  let* fs := on_under (gets files) in
  match fs !! filename with
  | None => ret true
  | Some _ =>
      let* t := on_under tick in
      match disk_remove t filename with
      | None =>
          on_under (drop_file filename);;
          note (NoteRemoved filename);;
          ret true
      | Some e => note_log ERROR (failed e);; ret false
      end
  end.

(** [delete_batch_analysis(start_page, end_page)] *)
Definition delete_batch_analysis (start_page end_page : Z)
  : M (Logged AState) bool :=
  delete_file (batch_filename start_page end_page) DeleteBatchFailed.

(** [list_pages()]: the page number is read off three characters of the
    file name, [filename[5:8]]. *)
Definition list_pages : M AState (list Z) :=
  let* names := listdir "pages" in
  let pages :=
    omap (fun filename =>
            if starts_with "page_" filename && ends_with ".json" filename
            then int_of_str (str_take 3 (str_drop 5 filename))
            else None) names in
  ret (sorted_ints pages).

(** [load_continuation_script()], [load_continuation_pages()],
    [load_continuation_config()] *)
Definition load_continuation_script : M AState Json :=
  _load_json "continuation/script.json" None.

Definition load_continuation_pages : M AState Json :=
  _load_json "continuation/pages.json" None.

Definition load_continuation_config : M AState Json :=
  _load_json "continuation/config.json" None.

(** [save_continuation_pages(pages)] *)
Definition save_continuation_pages (pages : list Json) : M AState bool :=
  let* stamp := now in
  let data : Dict :=
    <["saved_at" := JStr stamp]> (<["pages" := JList pages]> ∅) in
  _save_json "continuation/pages.json" (JDict data).

(** [load_continuation_all()] *)
Definition load_continuation_all : M AState Dict :=
  let* script := load_continuation_script in
  let* pages_data := load_continuation_pages in
  let* config := load_continuation_config in
  (* "pages": pages_data.get("pages", []) if pages_data else [] *)
  let* pages :=
    if truthy pages_data then lift_exn (get pages_data "pages" (JList []))
    else ret (JList []) in
  (* "has_data": script is not None or
                 (pages_data is not None and len(pages_data.get("pages", [])) > 0) *)
  let* has_data :=
    match script with
    | JNull =>
        match pages_data with
        | JNull => ret false
        | _ =>
            let* stored := lift_exn (get pages_data "pages" (JList [])) in
            let* n := lift_exn (len stored) in
            ret (0 <? n)
        end
    | _ => ret true
    end in
  ret (<["has_data" := JBool has_data]> (
       <["config" := config]> (
       <["pages" := pages]> (
       <["script" := script]> ∅)))).

End WithCollaborators.
End StorageQueries.

(* ================================================================== *)
(** * analyzer.py: analysing again *)
(* ================================================================== *)

Module Reanalysis.
Import Py Eff Env Storage Analyzer Journal StorageQueries.

Section WithCollaborators.
Context `{Collaborators} `{Removal}.

(** [reanalyze_batch(start_page, end_page)]: the stored record is deleted,
    then [analyze_batch(page_nums, force=True)] is called with neither
    images nor image information. *)
Definition reanalyze_batch (start_page end_page : Z) : M (Logged AState) Dict :=
  delete_batch_analysis start_page end_page;;
  let page_nums := range_from start_page (end_page + 1) in
  on_under (analyze_batch page_nums None [] true []).

(** The loop of [reanalyze_segment] over the listed batches; the bounds
    are what the stored summary holds. *)
Fixpoint batches_in_range (batches : list BatchInfo) (start_page end_page : Json)
    (batch_results : list Json) : M AState (list Json) :=
  match batches with
  | [] => ret batch_results
  | batch :: rest =>
      let* from_start := lift_exn (int_ge (bi_start_page batch) start_page) in
      let* inside :=
        if from_start then lift_exn (int_le (bi_end_page batch) end_page)
        else ret false in
      if inside then
        let* batch_data :=
          load_batch_analysis (bi_start_page batch) (bi_end_page batch) in
        if truthy batch_data
        then batches_in_range rest start_page end_page
               (batch_results ++ [batch_data])
        else batches_in_range rest start_page end_page batch_results
      else batches_in_range rest start_page end_page batch_results
  end.

(** [reanalyze_segment(segment_id)] *)
Definition reanalyze_segment (segment_id : string) : M AState Json :=
  let* existing := load_segment_summary segment_id in
  if negb (truthy existing)
  then raise (ValueError ("未找到小总结: " +:+ segment_id))
  else
    let* page_range := lift_exn (get existing "page_range" (JDict ∅)) in
    let* start_page := lift_exn (get page_range "start" (JInt 0)) in
    let* end_page := lift_exn (get page_range "end" (JInt 0)) in
    let* batches := list_batches in
    let* batch_results := batches_in_range batches start_page end_page [] in
    generate_segment_summary segment_id batch_results true.

End WithCollaborators.
End Reanalysis.

(* ================================================================== *)
(** * task_manager.py: the reanalysis of chosen pages *)
(* ================================================================== *)

Module ReanalysisTask.
Import Py Eff Env Storage Analyzer TaskManager Journal StorageQueries.

(** What a task does once its pages are analysed: [build_embeddings] and
    [generate_overview] of the analyzer.  They work on the vector store
    and on the chat model; here they are computations on the storage
    state about which nothing is assumed. *)
Class PostProcessing := {
  build_embeddings : M AState unit;
  generate_overview : M AState unit;
}.

Definition set_total_pages (n : Z) (g : AnalysisProgress) : AnalysisProgress :=
  {| total_pages := n; analyzed_pages := analyzed_pages g;
     current_page := current_page g; current_phase := current_phase g |}.
Definition set_current_phase (phase : string) (g : AnalysisProgress)
  : AnalysisProgress :=
  {| total_pages := total_pages g; analyzed_pages := analyzed_pages g;
     current_page := current_page g; current_phase := phase |}.

(** The image information of the pages of a batch:
    [[
      for page_num in batch_pages:
          image_info = all_images[page_num - 1] if page_num <= len(all_images) else None
          batch_image_infos.append(image_info)
    ]] *)
Fixpoint reanalysis_image_infos (all_images : list ImageInfo)
    (batch_pages : list Z) : Exn + list (option ImageInfo) :=
  match batch_pages with
  | [] => inr []
  | page_num :: rest =>
      let image_info :=
        if page_num <=? Z.of_nat (length all_images)
        then match index all_images (page_num - 1) with
             | inl e => inl e
             | inr img => inr (Some img)
             end
        else inr None in
      match image_info with
      | inl e => inl e
      | inr info =>
          match reanalysis_image_infos all_images rest with
          | inl e => inl e
          | inr infos => inr (info :: infos)
          end
      end
  end.

Section WithCollaborators.
Context `{Collaborators} `{PostProcessing}.

(** [_post_analysis_processing(task, analyzer)] *)
Definition _post_analysis_processing (id : string) : M (Logged World) unit :=
  note_log INFO EmbeddingStart;;
  on_under (update_task id (with_progress (set_current_phase "embedding")));;
  try_except
    (on_under (on_an build_embeddings);;
     note_log INFO EmbeddingDone)
    (fun e => note_log ERROR (EmbeddingFailed e));;
  note_log INFO OverviewStart;;
  on_under (update_task id (with_progress (set_current_phase "overview")));;
  try_except
    (on_under (on_an generate_overview);;
     note_log INFO OverviewDone)
    (fun e => note_log ERROR (OverviewFailed e)).

(** The loop of [_execute_reanalysis] over [range(0, len(pages),
    pages_per_batch)]; the answer is [false] when the loop was left by
    [return], at a checkpoint that said stop. *)
Fixpoint reanalysis_loop (starts : list Z) (batch_idx : Z) (id : string)
    (pages : list Z) (all_images : list ImageInfo)
    (pages_per_batch total_batches : Z) : M (Logged World) bool :=
  match starts with
  | [] => ret true
  | i :: rest =>
      let* go := on_under (_check_pause_and_cancel id) in
      if negb go then ret false
      else
        let batch_pages := slice pages (Some i) (Some (i + pages_per_batch)) in
        let* batch_image_infos :=
          lift_exn (reanalysis_image_infos all_images batch_pages) in
        let* first := lift_exn (index batch_pages 0) in
        on_under (update_task id (with_progress (set_current_page first)));;
        try_except
          (on_under (on_an (analyze_batch batch_pages None batch_image_infos
                              true []));;
           on_under (update_task id
                       (with_progress
                          (set_analyzed_pages
                             (Z.min (i + pages_per_batch)
                                    (Z.of_nat (length pages))))));;
           let* first := lift_exn (index batch_pages 0) in
           let* last := lift_exn (index batch_pages (-1)) in
           note_log INFO
             (ReanalysisBatchDone (batch_idx + 1) total_batches first last))
          (fun e =>
           let* first := lift_exn (index batch_pages 0) in
           let* last := lift_exn (index batch_pages (-1)) in
           note_log ERROR (ReanalysisBatchFailed first last e);;
           on_under (update_task id
                       (with_failed_pages (fun fp => fp ++ batch_pages))));;
        on_under (_notify_progress id);;
        reanalysis_loop rest (batch_idx + 1) id pages all_images
          pages_per_batch total_batches
  end.

(** [_execute_reanalysis(task, analyzer)].  [all_images] is what
    [analyzer.get_book_info()] answers under ["all_images"],
    [pages_per_batch] the setting of the configuration. *)
Definition _execute_reanalysis (id : string) (all_images : list ImageInfo)
    (pages_per_batch : Z) : M (Logged World) unit :=
  let* w := on_under (gets (fun w => w)) in
  let pages := default [] (tasks (mgr w) !! id ≫= target_pages) in
  match pages with
  | [] => ret tt
  | _ :: _ =>
      let pages := sorted_ints pages in
      let n := Z.of_nat (length pages) in
      on_under (update_task id (with_progress (set_total_pages n)));;
      let* total_batches :=
        lift_exn (floordiv (n + pages_per_batch - 1) pages_per_batch) in
      let* starts := lift_exn (range_step n pages_per_batch) in
      let* finished :=
        reanalysis_loop starts 0 id pages all_images pages_per_batch
          total_batches in
      if finished then _post_analysis_processing id else ret tt
  end.

End WithCollaborators.
End ReanalysisTask.

(* ================================================================== *)
(** * More vocabulary *)
(* ================================================================== *)

Module Terms.
Import Py Eff Env Storage Analyzer TaskManager Vocabulary Journal StorageQueries.
Import Reanalysis ReanalysisTask.

(** A list of integers in ascending order. *)
Definition ascending (l : list Z) : Prop :=
  forall (i j : nat) (a b : Z),
    (i < j)%nat -> l !! i = Some a -> l !! j = Some b -> a <= b.

(** The entry of [list_batches] for the file of a page range. *)
Definition batch_entry (start_page end_page : Z) : BatchInfo :=
  {| bi_start_page := start_page; bi_end_page := end_page;
     bi_filename := "batch_" +:+ format_03d start_page +:+ "_" +:+
                    format_03d end_page +:+ ".json" |}.

(** The number [list_pages] reads off the file of page [n]: the three
    characters [filename[5:8]]. *)
Definition listed_page (n : Z) : option Z :=
  int_of_str (str_take 3 (str_drop 5 ("page_" +:+ format_03d n +:+ ".json"))).

(** A computation on the store that writes no file and returns or
    raises. *)
Definition reads_only {A} (c : M AState A) : Prop :=
  forall s : AState, files (c s).2 = files s /\ (c s).1 <> Hang.

(** The page range of a batch record as the collecting loop of
    [generate_segment_summary] reads it: a missing [page_range] is [{}],
    a missing bound is 0. *)
Definition batch_span (batch : Json) : option (Z * Z) :=
  match batch with
  | JDict b =>
      match dget b "page_range" (JDict ∅) with
      | JDict page_range =>
          match as_int (dget page_range "start" (JInt 0)),
                as_int (dget page_range "end" (JInt 0)) with
          | Some batch_start, Some batch_end => Some (batch_start, batch_end)
          | _, _ => None
          end
      | _ => None
      end
  | _ => None
  end.

(** A computation that leaves alone every file whose name is not in
    [names], however it ends. *)
Definition writes_only {A} (names : string -> Prop) (c : M AState A) : Prop :=
  forall (s : AState) (f : string),
    ~ names f -> files (c s).2 !! f = files s !! f.

(** The names of the page files. *)
Definition is_page_file (f : string) : Prop :=
  exists page_num : Z, f = page_filename page_num.

(** A computation on the store that writes no file and raises. *)
Definition raises_dry {A} (c : M AState A) : Prop :=
  forall s : AState, files (c s).2 = files s /\ exists e, (c s).1 = Raise e.

(** An event that is a call of the VLM client, of the chat model. *)
Definition is_vlm_call (e : Event) : bool :=
  match e with EvVlm _ _ _ => true | _ => false end.

Definition is_chat_call (e : Event) : bool :=
  match e with EvChat _ _ => true | _ => false end.

(** Page [p] (pages count from 1) is an image of the chapter [ch]. *)
Definition page_of_chapter (all_images : list ImageInfo) (ch : string) (p : Z)
  : Prop :=
  1 <= p
  /\ exists img, all_images !! Z.to_nat (p - 1) = Some img
                 /\ img_chapter_id img = ch.

(** The chapter page map once the first [k] images have been gone
    through: every entry is a named chapter with pages of that chapter
    among them, no page is there twice, and every page among them whose
    image names a chapter is there. *)
Definition page_map_upto (all_images : list ImageInfo) (k : nat)
    (m : list (string * list Z)) : Prop :=
  Forall (fun entry : string * list Z =>
            entry.1 <> "" /\ entry.2 <> []
            /\ Forall (fun p => p <= Z.of_nat k
                                /\ page_of_chapter all_images entry.1 p)
                      entry.2) m
  /\ NoDup (concat (map snd m))
  /\ forall p img,
       1 <= p <= Z.of_nat k ->
       all_images !! Z.to_nat (p - 1) = Some img ->
       img_chapter_id img <> "" ->
       p ∈ concat (map snd m).

(** The calls of the models a storage state has seen, oldest first. *)
Definition model_calls (a : AState) : list Event :=
  List.filter (fun e => is_vlm_call e || is_chat_call e) (trace a).

(** What [analyze_batch] leaves on a page entry with a page number: the
    mark, the range of the batch and the time of the analysis. *)
Definition page_marked (start_page end_page : Z) (stamp : string) (page : Json)
  : Prop :=
  match page with
  | JDict pd =>
      truthy (dget pd "page_number" JNull) = true ->
      pd !! "from_batch" = Some (JBool true)
      /\ pd !! "batch_range" = Some (JDict (page_range_dict start_page end_page))
      /\ pd !! "analyzed_at" = Some (JStr stamp)
  | _ => False
  end.

(** The batches of a reanalysis: the target pages in ascending order, in
    runs of [pages_per_batch]. *)
Definition reanalysis_batches (pages : list Z) (pages_per_batch : Z)
  : list (list Z) :=
  let sorted := sorted_ints pages in
  map (fun k : nat =>
         slice sorted (Some (Z.of_nat k * pages_per_batch))
               (Some (Z.of_nat k * pages_per_batch + pages_per_batch)))
      (seq 0 (Z.to_nat ((Z.of_nat (length sorted) + pages_per_batch - 1)
                        / pages_per_batch))).

(** The batches a journal reports as analysed again. *)
Definition is_batch_done (n : Note) : bool :=
  match n with
  | NoteLog INFO (ReanalysisBatchDone _ _ _ _) => true
  | _ => false
  end.

Definition done_batches (j : list Note) : nat :=
  length (List.filter is_batch_done j).

End Terms.

(* ================================================================== *)
(** * More of the small book *)
(* ================================================================== *)

Module Fixtures.
Import Py Eff Env Storage Analyzer TaskManager Vocabulary Demo.
Import Journal StorageQueries ReanalysisTask Terms.

(** A disk that removes what it is asked to. *)
Definition removal : Removal :=
  {| disk_remove := fun _ _ => None |}.

(** The store of the first record, with an empty journal. *)
Definition logged_store : Logged AState :=
  {| under := store_with_first_record; journal := [] |}.

(** A segment of the first record, as a summary tier leaves it. *)
Definition first_segment : Dict :=
  <["summary" := JStr "the hero leaves home"]>
    (<["page_range" := JDict (page_range_dict 1 5)]>
       (<["segment_id" := JStr "seg_L1_000"]> ∅)).

(** A store that holds the segment and none of its batch records. *)
Definition store_with_first_segment : AState :=
  {| files := {[ segment_filename "seg_L1_000" := FJson (JDict first_segment) ]};
     image_files := ∅; clock := 0; trace := [] |}.

(** The task of the small book after its cancellation: Cancelled, the
    cancel flag up, no request waiting. *)
Definition cancelled_world : World :=
  {| mgr := {| tasks := {[ "t1" := task_in CANCELLED "t1" ]};
               running_tasks := ∅;
               book_tasks := {[ "book" := ["t1"] ]};
               _pause_events := {[ "t1" := true ]};
               _cancel_flags := {[ "t1" := true ]} |};
     an := book_store;
     inbox := [] |}.

(** The post-processing of a bad day: no vector store, an overview that
    works. *)
Definition post_processing : PostProcessing :=
  {| build_embeddings := raise (ExternalError "no vector store");
     generate_overview := ret tt |}.

(** The small book with one Running task that analyses the given pages
    again, nobody interfering, and an empty journal. *)
Definition reanalysis_world (pages : list Z) : Logged World :=
  {| under :=
       {| mgr := {| tasks :=
                      {[ "t1" := with_status RUNNING
                                   (new_task "t1" "book" REANALYZE None
                                      (Some pages) false) ]};
                    running_tasks := {[ "t1" ]};
                    book_tasks := {[ "book" := ["t1"] ]};
                    _pause_events := {[ "t1" := true ]};
                    _cancel_flags := {[ "t1" := false ]} |};
          an := book_store;
          inbox := [] |};
     journal := [] |}.

End Fixtures.

(* ================================================================== *)
(** * Tactics *)
(* ================================================================== *)

Module Tactics.
Import Py Eff Env Storage Analyzer TaskManager.

(** Run the controller operations down to their effect on the tables. *)
Ltac run_op :=
  unfold start_task, pause_task, resume_task, cancel_task, create_task,
    update_task, on_mgr, on_an, zoom, log, emit, tick, bind, gets, modify, ret,
    raise in *;
  cbn [fst snd mgr an inbox set_mgr set_an tasks running_tasks book_tasks
       _pause_events _cancel_flags with_tasks with_running with_book_tasks
       with_pause_events with_cancel_flags files image_files clock trace] in *.

(** Run the bookkeeping of a worker around a batch. *)
Ltac run_tier :=
  unfold update_task, _notify_progress, on_mgr, on_an, zoom, log, emit,
    modify, ret, raise, lift_exn;
  cbn [fst snd mgr an inbox set_mgr set_an tasks running_tasks book_tasks
       _pause_events _cancel_flags with_tasks files image_files clock trace].

End Tactics.

(* ================================================================== *)
(** * Laws of the effect monad *)
(* ================================================================== *)

Module EffProps.
Import Py Eff.

Lemma bind_ret {S A B} (a : A) (k : A -> M S B) : bind (ret a) k = k a.
Proof. reflexivity. Qed.

Lemma bind_lift_inr {S A B} (a : A) (k : A -> M S B) :
  bind (lift_exn (inr a)) k = k a.
Proof. reflexivity. Qed.

Lemma bind_lift_inl {S A B} (e : Exn) (k : A -> M S B) :
  bind (lift_exn (inl e)) k = raise e.
Proof. reflexivity. Qed.

Lemma bind_run {S A B} (c : M S A) (k : A -> M S B) (s : S) :
  bind c k s = match c s with
               | (Val a, s') => k a s'
               | (Raise e, s') => (Raise e, s')
               | (Hang, s') => (Hang, s')
               end.
Proof. reflexivity. Qed.

Lemma bind_val_inv {S A B} (c : M S A) (k : A -> M S B) (s s' : S) (b : B) :
  bind c k s = (Val b, s') ->
  exists (a : A) (s1 : S), c s = (Val a, s1) /\ k a s1 = (Val b, s').
Proof.
  rewrite bind_run. destruct (c s) as [[a|e|] s1]; intros E;
    [eauto|discriminate..].
Qed.

End EffProps.

(* ================================================================== *)
(** * Properties of the batch cache ([analyze_batch], storage) *)
(* ================================================================== *)

Module CacheProps.
Import Py Eff Env Storage Analyzer Vocabulary EffProps.

Section WithCollaborators.
Context `{Collaborators}.

Lemma dict_truthy_nonempty (d : Dict) : d ≠ ∅ -> dict_truthy d = true.
Proof.
  intros Hne. unfold dict_truthy.
  destruct (map_to_list d) as [|kv l] eqn:E; [|reflexivity].
  apply map_to_list_empty_iff in E. contradiction.
Qed.

Lemma dict_truthy_insert (d : Dict) k v : dict_truthy (<[k := v]> d) = true.
Proof.
  apply dict_truthy_nonempty. intros E.
  apply (f_equal (fun m : Dict => m !! k)) in E.
  rewrite lookup_insert_eq, lookup_empty in E. discriminate.
Qed.

(** C9.  [analyze_batch] on an empty page list returns the empty dict at
    once: the world is untouched (no file read or written, no clock tick,
    no event at all, hence no call of the VLM client). *)
Theorem analyze_batch_empty_pages :
  forall (images : option (list Image)) (image_infos : list (option ImageInfo))
         (force : bool) (previous_results : list Dict) (s : AState),
    analyze_batch [] images image_infos force previous_results s = (Val ∅, s).
Proof. reflexivity. Qed.

(** C1.  A non-forced [analyze_batch] on a non-empty page list whose range
    file holds a record (a JSON object other than the empty one that
    [_load_json] also answers for a missing file) without a truthy
    [parse_error] returns that record as it is; the files and the clock are
    as before, and the only events are the read of the range file and the
    debug line of the cache hit: the VLM client is not called and nothing
    is written. *)
Theorem analyze_batch_cache_hit :
  forall (p : Z) (ps : list Z) (images : option (list Image))
         (image_infos : list (option ImageInfo)) (previous_results : list Dict)
         (s : AState) (cached : Dict),
    let start_page := list_min p ps in
    let end_page := list_max p ps in
    files s !! batch_filename start_page end_page = Some (FJson (JDict cached)) ->
    cached ≠ ∅ ->
    parse_error_flag cached = false ->
    exists s',
      analyze_batch (p :: ps) images image_infos false previous_results s
        = (Val cached, s')
      /\ files s' = files s
      /\ image_files s' = image_files s
      /\ clock s' = clock s
      /\ trace s' = trace s ++ [EvRead (batch_filename start_page end_page);
                                EvLog DEBUG (BatchCacheHit start_page end_page)].
Proof.
  intros p ps images image_infos previous_results s cached start_page end_page
         Hfile Hne Hflag.
  unfold analyze_batch. fold start_page end_page.
  unfold load_batch_analysis, _load_json, bind, emit, modify, gets, log, ret, emit.
  cbn. rewrite Hfile. cbn.
  rewrite (dict_truthy_nonempty _ Hne).
  unfold parse_error_flag in Hflag. rewrite Hflag. cbn.
  eexists. split; [reflexivity|]. cbn.
  repeat split. rewrite <- app_assoc. reflexivity.
Qed.

(** What [save_batch_analysis] hands back, whatever the disk does. *)
Lemma save_batch_analysis_result start_page end_page (analysis : Dict) (s : AState) :
  exists (ok : bool) (s' : AState),
    save_batch_analysis start_page end_page analysis s
    = (Val (ok, <["page_range" := JDict (page_range_dict start_page end_page)]>
                  (<["saved_at" := JStr (isoformat (clock s))]> analysis)), s').
Proof.
  unfold save_batch_analysis, _save_json, now, tick, bind, ret, emit, log, emit,
    set_file, modify. cbn.
  destruct (disk_write (S (clock s)) (batch_filename start_page end_page));
    cbn; eauto.
Qed.

(** A forced [analyze_batch] on a non-empty page list returns a dict that
    is not empty. *)
Lemma analyze_batch_forced_truthy p ps images image_infos previous_results
    (s s' : AState) (result : Dict) :
  analyze_batch (p :: ps) images image_infos true previous_results s
    = (Val result, s') ->
  dict_truthy result = true.
Proof.
  unfold analyze_batch. cbn [negb].
  intros E.
  repeat (apply bind_val_inv in E as (? & ? & ? & E)).
  match goal with
  | Hsave : save_batch_analysis ?a ?b ?c ?d = (Val ?r, _) |- _ =>
      destruct (save_batch_analysis_result a b c d) as (ok' & s1' & Hsave');
      rewrite Hsave' in Hsave; injection Hsave as <- _
  end.
  cbn [snd] in E.
  destruct (truthy _) in E.
  - repeat (apply bind_val_inv in E as (? & ? & _ & E)).
    injection E as <- _. apply dict_truthy_insert.
  - injection E as <- _. apply dict_truthy_insert.
Qed.

End WithCollaborators.
End CacheProps.

(* ================================================================== *)
(** * Properties of the file names and of [save_batch_analysis] *)
(* ================================================================== *)

Module StorageProps.
Import Py Eff Env Storage Analyzer Vocabulary EffProps.

Lemma append_cons x a b : String x a +:+ b = String x (a +:+ b).
Proof. reflexivity. Qed.

Lemma append_nil b : "" +:+ b = b.
Proof. reflexivity. Qed.

Lemma occurs_app c a b : occurs c (a +:+ b) = occurs c a || occurs c b.
Proof.
  induction a as [|x a IH]; [reflexivity|].
  rewrite append_cons. cbn. rewrite IH. apply orb_assoc.
Qed.

Lemma occurs_zeros c n : Ascii.eqb "0" c = false -> occurs c (zeros n) = false.
Proof.
  intros Hc. induction n as [|n IH]; [reflexivity|].
  change (occurs c (zeros (S n))) with (Ascii.eqb "0" c || occurs c (zeros n)).
  now rewrite Hc, IH.
Qed.

Lemma occurs_cons c a s : occurs c (String a s) = Ascii.eqb a c || occurs c s.
Proof. reflexivity. Qed.

Lemma occurs_string_of_uint c d :
  not_a_digit c -> occurs c (NilEmpty.string_of_uint d) = false.
Proof.
  unfold not_a_digit. intros Hc.
  repeat match goal with
         | H : Forall _ (_ :: _) |- _ => apply Forall_cons_1 in H as [? H]
         end.
  induction d; [reflexivity|..]; simpl NilEmpty.string_of_uint;
    rewrite occurs_cons, IHd, orb_false_r; assumption.
Qed.

Lemma occurs_format_03d c z :
  not_a_digit c -> Ascii.eqb "-" c = false -> occurs c (format_03d z) = false.
Proof.
  intros Hd Hm. unfold format_03d, zfill, digits.
  assert (H0 : Ascii.eqb "0" c = false).
  { unfold not_a_digit in Hd. now apply Forall_cons_1 in Hd as [Hd _]. }
  destruct (z <? 0); rewrite ?occurs_cons, ?Hm, occurs_app, occurs_zeros,
    occurs_string_of_uint by assumption; reflexivity.
Qed.

Lemma not_a_digit_underscore : not_a_digit "_".
Proof. unfold not_a_digit. repeat constructor. Qed.

Lemma not_a_digit_dot : not_a_digit ".".
Proof. unfold not_a_digit. repeat constructor. Qed.

(** Two texts that agree after a separator neither prefix contains agree
    before and after it. *)
Lemma split_at_separator c a a' r r' :
  occurs c a = false -> occurs c a' = false ->
  a +:+ String c r = a' +:+ String c r' -> a = a' /\ r = r'.
Proof.
  revert a'. induction a as [|x a IH]; intros [|y a'] Ha Ha' E;
    rewrite ?append_cons, ?append_nil in E; cbn in *.
  - now inversion E.
  - inversion E; subst. rewrite Ascii.eqb_refl in Ha'. discriminate.
  - inversion E; subst. rewrite Ascii.eqb_refl in Ha. discriminate.
  - inversion E; subst.
    apply orb_false_elim in Ha as [_ Ha]. apply orb_false_elim in Ha' as [_ Ha'].
    destruct (IH a' Ha Ha' H1) as [-> ->]. split; reflexivity.
Qed.

(** Reading a zero-padded number back. *)
Lemma parse_zeros k s d :
  NilEmpty.uint_of_string s = Some d ->
  exists d', NilEmpty.uint_of_string (zeros k +:+ s) = Some d'
             /\ N.of_uint d' = N.of_uint d.
Proof.
  intros Hs. induction k as [|k [d' [Hk Hd']]]; cbn;
    rewrite ?append_cons, ?append_nil; cbn.
  - exists d. split; [assumption|reflexivity].
  - rewrite Hk. cbn. exists (Decimal.D0 d'). split; [reflexivity|]. exact Hd'.
Qed.

Lemma parse_zfill w n :
  N.of_uint <$> NilEmpty.uint_of_string (zfill w (digits n)) = Some n.
Proof.
  unfold zfill, digits.
  destruct (parse_zeros (w - String.length (NilEmpty.string_of_uint (N.to_uint n)))
              _ _ (NilEmpty.usu (N.to_uint n))) as [d' [-> Hd']].
  cbn. rewrite Hd'. now rewrite DecimalN.Unsigned.of_to.
Qed.

Lemma digits_cons n : exists c s, digits n = String c s /\ Ascii.eqb c "-" = false.
Proof.
  unfold digits.
  assert (Hn : N.to_uint n <> Decimal.Nil).
  { destruct n; cbn; [discriminate|apply Unsigned.to_uint_nonnil]. }
  destruct (N.to_uint n); try contradiction; cbn; eauto.
Qed.

Lemma zfill_cons w n :
  exists c s, zfill w (digits n) = String c s /\ Ascii.eqb c "-" = false.
Proof.
  unfold zfill. destruct (digits_cons n) as [c [s [E Hc]]].
  destruct (w - String.length (digits n))%nat; cbn;
    rewrite ?append_cons, ?append_nil.
  - rewrite E. eauto.
  - eauto.
Qed.

(** [int(format(z, "03d")) == z] *)
Lemma int_of_format_03d z : int_of_str (format_03d z) = Some z.
Proof.
  unfold format_03d. destruct (z <? 0) eqn:Hz.
  - cbn. destruct (zfill_cons 2 (Z.to_N (- z))) as [c [s [E _]]].
    rewrite E, <- E, parse_zfill. cbn. f_equal. lia.
  - destruct (zfill_cons 3 (Z.to_N z)) as [c [s [E Hc]]].
    unfold int_of_str. rewrite E, Hc, <- E, parse_zfill. cbn. f_equal. lia.
Qed.

Lemma format_03d_inj z z' : format_03d z = format_03d z' -> z = z'.
Proof.
  intros E. apply (f_equal int_of_str) in E.
  rewrite !int_of_format_03d in E. congruence.
Qed.

(** Distinct page ranges live in distinct files. *)
Lemma batch_filename_inj s e s' e' :
  batch_filename s e = batch_filename s' e' -> s = s' /\ e = e'.
Proof.
  unfold batch_filename. intros E. rewrite !append_cons, !append_nil in E.
  repeat match type of E with String ?c _ = String ?c _ => injection E as E end.
  apply split_at_separator in E as [Es E];
    [|apply occurs_format_03d; [apply not_a_digit_underscore|reflexivity]..].
  change (format_03d e +:+ ".json") with (format_03d e +:+ String "." "json") in E.
  change (format_03d e' +:+ ".json") with (format_03d e' +:+ String "." "json") in E.
  apply split_at_separator in E as [Ee _];
    [|apply occurs_format_03d; [apply not_a_digit_dot|reflexivity]..].
  split; [exact (format_03d_inj _ _ Es)|exact (format_03d_inj _ _ Ee)].
Qed.

Section WithCollaborators.
Context `{Collaborators}.

(** ** The whole analyzer keeps the batch store consistent *)

Lemma preserves_ret {S A} (I : S -> Prop) (a : A) : preserves I (ret a).
Proof. intros s Hs. exact Hs. Qed.

Lemma preserves_raise {S A} (I : S -> Prop) (e : Exn) :
  preserves I (raise e : M S A).
Proof. intros s Hs. exact Hs. Qed.

Lemma preserves_lift_exn {S A} (I : S -> Prop) (r : Exn + A) :
  preserves I (lift_exn r).
Proof. destruct r; intros s Hs; exact Hs. Qed.

Lemma preserves_bind {S A B} (I : S -> Prop) (c : M S A) (k : A -> M S B) :
  preserves I c -> (forall a, preserves I (k a)) -> preserves I (bind c k).
Proof.
  intros Hc Hk s Hs. rewrite bind_run. specialize (Hc s Hs).
  destruct (c s) as [[a|e|] s']; cbn in *; [now apply Hk|assumption..].
Qed.

Lemma preserves_same_files {A} (c : M AState A) :
  (forall s, files (c s).2 = files s) -> preserves batch_store_consistent c.
Proof.
  intros Hc s Hs start_page end_page d Hd. rewrite Hc in Hd. now apply Hs.
Qed.

Lemma preserves_emit e : preserves batch_store_consistent (emit e).
Proof. now apply preserves_same_files. Qed.

Lemma preserves_log lvl site : preserves batch_store_consistent (log lvl site).
Proof. now apply preserves_same_files. Qed.

Lemma preserves_tick : preserves batch_store_consistent tick.
Proof. now apply preserves_same_files. Qed.

Lemma preserves_gets {A} (f : AState -> A) :
  preserves batch_store_consistent (gets f).
Proof. now apply preserves_same_files. Qed.

Lemma preserves_now : preserves batch_store_consistent now.
Proof. now apply preserves_same_files. Qed.

Lemma preserves_load_json filename dflt :
  preserves batch_store_consistent (_load_json filename dflt).
Proof.
  apply preserves_same_files. intros s.
  unfold _load_json, bind, emit, log, emit, modify, gets, ret. cbn.
  destruct (files s !! filename) as [[j|]|]; reflexivity.
Qed.

(** A file that is no batch file: writing it leaves the batch store as
    consistent as it was. *)
Lemma preserves_save_elsewhere filename data :
  (forall start_page end_page, filename <> batch_filename start_page end_page) ->
  preserves batch_store_consistent (_save_json filename data).
Proof.
  intros Hne s Hs start_page end_page d Hd. apply (Hs start_page end_page).
  revert Hd. unfold _save_json, tick, bind, ret, emit, log, emit, set_file, modify.
  cbn. destruct (disk_write (clock s) filename); cbn;
    rewrite ?lookup_insert_ne by apply Hne; auto.
Qed.

Lemma page_filename_not_batch page_num start_page end_page :
  page_filename page_num <> batch_filename start_page end_page.
Proof. unfold page_filename, batch_filename. rewrite !append_cons. discriminate. Qed.

Lemma segment_filename_not_batch segment_id start_page end_page :
  segment_filename segment_id <> batch_filename start_page end_page.
Proof. unfold segment_filename, batch_filename. rewrite !append_cons. discriminate. Qed.

Lemma preserves_save_batch start_page end_page analysis :
  preserves batch_store_consistent
    (save_batch_analysis start_page end_page analysis).
Proof.
  intros s Hinv s0 e0 d. 
  unfold save_batch_analysis, _save_json, now, tick, bind, ret, emit, log, emit,
    set_file, modify. cbn.
  destruct (disk_write (S (clock s)) (batch_filename start_page end_page));
    cbn [snd files]; [|apply Hinv|]; intros Hd;
    (destruct (decide (batch_filename start_page end_page = batch_filename s0 e0))
      as [E|NE];
     [rewrite E, lookup_insert_eq in Hd
     |rewrite lookup_insert_ne in Hd by exact NE; exact (Hinv _ _ _ Hd)]).
  - injection Hd as <-. apply batch_filename_inj in E as [<- <-].
    apply lookup_insert_eq.
  - discriminate Hd.
Qed.


(** C10.  [save_batch_analysis(start, end, analysis)] overwrites
    [page_range] with [{start, end}] before it persists (only [saved_at]
    and [page_range] change); when the save goes through, the range file
    holds exactly that record; and whatever the disk does, a store in which
    every batch record carries the range of its file stays such a store
    (distinct ranges have distinct files). *)
Theorem save_batch_analysis_page_range :
  forall (start_page end_page : Z) (analysis : Dict) (s : AState),
    exists (ok : bool) (analysis' : Dict) (s' : AState),
      save_batch_analysis start_page end_page analysis s
        = (Val (ok, analysis'), s')
      /\ analysis' !! "page_range"
          = Some (JDict (page_range_dict start_page end_page))
      /\ (forall k, k <> "page_range" -> k <> "saved_at" ->
                    analysis' !! k = analysis !! k)
      /\ (ok = true ->
          files s' !! batch_filename start_page end_page
            = Some (FJson (JDict analysis')))
      /\ (batch_store_consistent s -> batch_store_consistent s').
Proof.
  intros start_page end_page analysis s.
  pose proof (preserves_save_batch start_page end_page analysis s) as Hkeep.
  revert Hkeep.
  unfold save_batch_analysis, _save_json, now, tick, bind, ret, emit, log, emit,
    set_file, modify. cbn.
  set (analysis' := <["page_range" := _]> (<["saved_at" := _]> analysis)).
  intros Hkeep.
  assert (Hpr : analysis' !! "page_range"
                = Some (JDict (page_range_dict start_page end_page)))
    by apply lookup_insert_eq.
  assert (Hother : forall k, k <> "page_range" -> k <> "saved_at" ->
                             analysis' !! k = analysis !! k).
  { intros k H1 H2. unfold analysis'. now rewrite !lookup_insert_ne by congruence. }
  destruct (disk_write (S (clock s)) (batch_filename start_page end_page)) eqn:Hw;
    cbn in *; do 3 eexists; (split; [reflexivity|]); cbn;
    (split; [exact Hpr|]); (split; [exact Hother|]);
    (split; [|exact Hkeep]); try discriminate.
  intros _. apply lookup_insert_eq.
Qed.

Lemma preserves_save_page page_num analysis :
  preserves batch_store_consistent (save_page_analysis page_num analysis).
Proof.
  unfold save_page_analysis.
  apply preserves_bind; [apply preserves_now|intros stamp].
  apply preserves_bind; [|intros ok; apply preserves_ret].
  apply preserves_save_elsewhere. intros. apply page_filename_not_batch.
Qed.

Lemma preserves_save_segment segment_id summary :
  preserves batch_store_consistent (save_segment_summary segment_id summary).
Proof.
  unfold save_segment_summary.
  apply preserves_bind; [apply preserves_now|intros stamp].
  apply preserves_bind; [|intros ok; apply preserves_ret].
  apply preserves_save_elsewhere. intros. apply segment_filename_not_batch.
Qed.

Lemma preserves_save_pages pages start_page end_page analyzed_at :
  preserves batch_store_consistent
    (save_pages pages start_page end_page analyzed_at).
Proof.
  induction pages as [|page_data rest IH]; cbn [save_pages];
    [apply preserves_ret|].
  apply preserves_bind.
  - destruct page_data; try apply preserves_raise.
    destruct (truthy _); [|apply preserves_ret].
    destruct (dget d "page_number" JNull); cbn [as_int];
      try apply preserves_raise;
      (apply preserves_bind; [apply preserves_save_page|intros; apply preserves_ret]).
  - intros page_data'.
    apply preserves_bind; [exact IH|intros; apply preserves_ret].
Qed.

Lemma preserves_get_image page_num image_info :
  preserves batch_store_consistent (_get_image_from_info page_num image_info).
Proof.
  apply preserves_same_files. intros s. unfold _get_image_from_info.
  destruct image_info as [info|]; [|reflexivity].
  unfold bind, gets, log, emit, modify, ret, raise. cbn.
  destruct (image_files s !! img_path info); [|reflexivity].
  destruct (negb _); reflexivity.
Qed.

Lemma preserves_load_images page_nums i image_infos :
  preserves batch_store_consistent (load_images page_nums i image_infos).
Proof.
  revert i. induction page_nums as [|p rest IH]; intros i; cbn [load_images];
    [apply preserves_ret|].
  apply preserves_bind; [apply preserves_get_image|intros img].
  apply preserves_bind; [apply IH|intros; apply preserves_ret].
Qed.

Lemma preserves_list_batches : preserves batch_store_consistent list_batches.
Proof.
  apply preserves_same_files. intros s. reflexivity.
Qed.

Lemma preserves_build_batch_context start_page previous_results :
  preserves batch_store_consistent
    (_build_batch_context start_page previous_results).
Proof.
  unfold _build_batch_context. destruct previous_results as [|r rs].
  - destruct (1 <? start_page); [|apply preserves_ret].
    apply preserves_bind; [apply preserves_list_batches|intros batches].
    destruct (List.find _ _); [|apply preserves_ret].
    apply preserves_bind; [apply preserves_load_json|intros batch_data].
    destruct (truthy batch_data); [|apply preserves_ret].
    apply preserves_bind; [apply preserves_lift_exn|intros; apply preserves_ret].
  - apply preserves_bind; [apply preserves_lift_exn|intros; apply preserves_ret].
Qed.

Ltac preserves_step :=
  first
    [ apply preserves_ret | apply preserves_raise | apply preserves_lift_exn
    | apply preserves_log | apply preserves_emit | apply preserves_tick
    | apply preserves_now | apply preserves_load_json
    | apply preserves_save_batch | apply preserves_save_pages
    | apply preserves_save_segment | apply preserves_load_images
    | apply preserves_build_batch_context
    | apply preserves_bind; [|intros ?]
    | match goal with
      | |- preserves _ (match ?x with _ => _ end) => destruct x
      end ].

(** X28.  Every batch record found in the store carries the range of its file,
    before and after any [analyze_batch]. *)
Lemma analyze_batch_keeps_store_consistent page_nums images image_infos force
    previous_results :
  preserves batch_store_consistent
    (analyze_batch page_nums images image_infos force previous_results).
Proof.
  unfold analyze_batch, load_batch_analysis.
  destruct page_nums as [|p ps]; [apply preserves_ret|]. cbv zeta.
  repeat preserves_step.
Qed.

Lemma preserves_summarize_with_llm segment_id n_batches start_page end_page
    summaries segment_data :
  preserves batch_store_consistent
    (summarize_with_llm segment_id n_batches start_page end_page summaries
       segment_data).
Proof. unfold summarize_with_llm. cbv zeta. repeat preserves_step. Qed.

(** X29.  Every batch record found in the store carries the range of its file,
    before and after any [generate_segment_summary]. *)
Lemma generate_segment_summary_keeps_store_consistent segment_id batch_results
    force :
  preserves batch_store_consistent
    (generate_segment_summary segment_id batch_results force).
Proof.
  unfold generate_segment_summary, load_segment_summary.
  destruct batch_results as [|b bs]; [apply preserves_ret|]. cbv zeta.
  repeat first [apply preserves_summarize_with_llm | preserves_step].
Qed.

End WithCollaborators.
End StorageProps.

(* ================================================================== *)
(** * Properties of the context window *)
(* ================================================================== *)

Module WindowProps.
Import Py Eff Env Storage Analyzer Vocabulary.

(** [l[-c:]] for a positive [c] drops all but the last [c] elements. *)
Lemma slice_last {A} (l : list A) (c : Z) :
  0 < c ->
  slice l (Some (- c)) None = drop (length l - Z.to_nat c) l.
Proof.
  intros Hc. unfold slice, clip.
  assert ((- c <? 0) = true) as -> by lia.
  rewrite take_ge by (rewrite length_drop; lia).
  f_equal. lia.
Qed.

(** C4.  With [context_batch_count > 0] the previous results handed to
    [analyze_batch] are at most [context_batch_count], none of them is
    flagged [parse_error], and they are the last
    [min(context_batch_count, number of unflagged results)] unflagged
    results, in the order of [batch_results] (oldest first). *)
Theorem context_window_most_recent_valid :
  forall (batch_results : list Dict) (context_batch_count : Z),
    0 < context_batch_count ->
    let window := context_window batch_results context_batch_count in
    let valid := filter (fun r => parse_error_flag r = false) batch_results in
    Z.of_nat (length window) <= context_batch_count
    /\ Forall (fun r => parse_error_flag r = false) window
    /\ (exists older, valid = older ++ window)
    /\ length window = Nat.min (Z.to_nat context_batch_count) (length valid)
    /\ window `sublist_of` batch_results.
Proof.
  intros batch_results c Hc window valid.
  assert (Hw : window = drop (length valid - Z.to_nat c) valid).
  { unfold window, context_window.
    assert ((0 <? c) = true) as -> by lia.
    apply slice_last, Hc. }
  assert (Hvalid : Forall (fun r => parse_error_flag r = false) valid).
  { apply Forall_forall. intros r Hr.
    apply list_elem_of_filter in Hr as [Hr _]. exact Hr. }
  assert (Hlen : length window = Nat.min (Z.to_nat c) (length valid)).
  { rewrite Hw, length_drop. lia. }
  repeat split.
  - lia.
  - rewrite Hw. apply Forall_drop, Hvalid.
  - exists (take (length valid - Z.to_nat c) valid).
    rewrite Hw. symmetry. apply take_drop.
  - exact Hlen.
  - rewrite Hw. etransitivity; [apply sublist_drop|apply sublist_filter].
Qed.

End WindowProps.

(* ================================================================== *)
(** * Properties of the grouping of an aggregation tier *)
(* ================================================================== *)

Module GroupProps.
Import Py Eff Env Storage Analyzer TaskManager Vocabulary EffProps.

Lemma range_length n : length (range n) = Z.to_nat n.
Proof. unfold range. now rewrite length_map, length_seq. Qed.

Lemma range_lookup n (g : nat) :
  (g < Z.to_nat n)%nat -> range n !! g = Some (Z.of_nat g).
Proof.
  intros Hg. unfold range. rewrite list_lookup_fmap.
  rewrite lookup_seq_lt by exact Hg. reflexivity.
Qed.

(** [(n + u - 1) // u] is the ceiling of [n / u]. *)
Lemma ceil_bounds n u :
  0 < u -> 0 <= n ->
  ((n + u - 1) / u - 1) * u < n <= (n + u - 1) / u * u.
Proof.
  intros Hu Hn.
  pose proof (Z.div_mod (n + u - 1) u ltac:(lia)) as Hdm.
  pose proof (Z.mod_pos_bound (n + u - 1) u Hu) as Hb.
  nia.
Qed.

Lemma group_items_span {A} (input : list A) (u g : Z) :
  0 < u -> 0 <= g -> g * u < Z.of_nat (length input) ->
  group_items input u g
  = span input (g * u) (Z.min ((g + 1) * u) (Z.of_nat (length input))).
Proof.
  intros Hu Hg Hlt. unfold group_items, slice, clip, span.
  assert ((g * u <? 0) = false) as -> by nia.
  assert ((Z.min (g * u + u) (Z.of_nat (length input)) <? 0) = false) as -> by nia.
  f_equal; [f_equal; nia|f_equal; nia].
Qed.

Section Groups.
Context {A : Type} (input : list A) (u : Z) (Hu : 0 < u).

Abbreviation n := (Z.of_nat (length input)).
Abbreviation groups := (map snd (indexed_groups input u ((n + u - 1) / u))).

Lemma groups_length : Z.of_nat (length groups) = (n + u - 1) / u.
Proof.
  unfold indexed_groups. rewrite !length_map, range_length.
  pose proof (ceil_bounds n u Hu ltac:(lia)). nia.
Qed.

Lemma groups_lookup g :
  0 <= g < (n + u - 1) / u ->
  groups !! Z.to_nat g = Some (span input (g * u) (Z.min ((g + 1) * u) n)).
Proof.
  intros Hg. unfold indexed_groups.
  rewrite !list_lookup_fmap, range_lookup by lia. cbn.
  rewrite Z2Nat.id by lia. f_equal. apply group_items_span; try lia.
  pose proof (ceil_bounds n u Hu ltac:(lia)). nia.
Qed.

Lemma groups_prefix (k : nat) :
  (k <= Z.to_nat ((n + u - 1) / u))%nat ->
  concat (map (fun g => group_items input u g) (map Z.of_nat (seq 0 k)))
  = take (Z.to_nat (Z.min (Z.of_nat k * u) n)) input.
Proof.
  pose proof (ceil_bounds n u Hu ltac:(lia)) as Hc.
  induction k as [|k IH]; intros Hk.
  - cbn [seq map concat].
    replace (Z.to_nat _) with 0%nat by lia. reflexivity.
  - rewrite seq_S, !map_app, concat_app, IH by lia. cbn [map concat Nat.add].
    rewrite app_nil_r, group_items_span by nia. unfold span.
    replace (Z.to_nat (Z.min (Z.of_nat k * u) n))
      with (Z.to_nat (Z.of_nat k * u)) by nia.
    rewrite take_take_drop. f_equal. nia.
Qed.

Lemma groups_concat : concat groups = input.
Proof.
  unfold indexed_groups. rewrite <- list_fmap_compose.
  unfold range.
  etransitivity; [apply (groups_prefix _ (le_n _))|].
  pose proof (ceil_bounds n u Hu ltac:(lia)).
  apply take_ge. nia.
Qed.

Lemma groups_enumerate :
  indexed_groups input u ((n + u - 1) / u) = enumerate groups.
Proof.
  unfold enumerate, indexed_groups. apply list_eq. intros i.
  rewrite list_lookup_imap, !list_lookup_fmap. unfold range.
  rewrite list_lookup_fmap.
  destruct (seq 0 (Z.to_nat ((n + u - 1) / u)) !! i) as [j|] eqn:E; [|reflexivity].
  apply lookup_seq in E as [-> _]. reflexivity.
Qed.

End Groups.

(** One group holding everything, when the group size is the input size. *)
Lemma one_group {A} (input : list A) :
  input <> [] ->
  let n := Z.of_nat (length input) in
  map snd (indexed_groups input n ((n + n - 1) / n)) = [input].
Proof.
  intros Hne n.
  assert (Hn : 0 < n) by (destruct input; [contradiction|cbn in *; lia]).
  assert (Hc : (n + n - 1) / n = 1).
  { symmetry. apply (Z.div_unique_pos _ _ 1 (n - 1)); lia. }
  rewrite Hc. unfold indexed_groups. change (range 1) with [0].
  cbn [map snd]. f_equal.
  rewrite group_items_span by lia. unfold span.
  replace (Z.to_nat (0 * n)) with 0%nat by lia. rewrite drop_0.
  apply take_ge. lia.
Qed.

Lemma partition_of_groups {A} (input : list A) (upg : Z) :
  input <> [] ->
  let n := Z.of_nat (length input) in
  let u := if upg <=? 0 then n else upg in
  tier_partition input upg (map snd (indexed_groups input u ((n + u - 1) / u))).
Proof.
  intros Hne n u.
  assert (Hn : 0 < n) by (destruct input; [contradiction|cbn in *; lia]).
  unfold tier_partition. fold n. repeat split.
  - lia.
  - intros _ Hle. subst u. assert ((upg <=? 0) = true) as -> by lia.
    apply one_group, Hne.
  - intros _ Hpos. subst u. assert ((upg <=? 0) = false) as -> by lia.
    exists ((n + upg - 1) / upg). split; [apply groups_length, Hpos|].
    split; [apply ceil_bounds; lia|].
    intros g Hg. apply groups_lookup; assumption.
  - apply groups_concat. subst u. destruct (upg <=? 0) eqn:E; lia.
Qed.

Lemma summary_layer_groups_partition {A} (input : list A) (upg : Z) :
  tier_partition input upg (summary_layer_groups input upg).
Proof.
  destruct (decide (input = [])) as [->|Hne].
  - unfold tier_partition. cbn. repeat split; try lia; reflexivity.
  - replace (summary_layer_groups input upg)
      with (let n := Z.of_nat (length input) in
            let u := if upg <=? 0 then n else upg in
            map snd (indexed_groups input u ((n + u - 1) / u)))
      by (destruct input; [contradiction|reflexivity]).
    apply partition_of_groups, Hne.
Qed.

Lemma chapter_layer_groups_partition {A} (input : list A) (upg : Z) :
  tier_partition input upg (chapter_layer_groups input upg).
Proof.
  destruct (decide (input = [])) as [->|Hne].
  - unfold tier_partition. cbn. repeat split; try lia; reflexivity.
  - assert (Hn : 0 < Z.of_nat (length input))
      by (destruct input; [contradiction|cbn; lia]).
    replace (chapter_layer_groups input upg)
      with (let n := Z.of_nat (length input) in
            let u := if upg <=? 0 then n else upg in
            map snd (indexed_groups input u ((n + u - 1) / u))).
    + apply partition_of_groups, Hne.
    + unfold chapter_layer_groups. rewrite Z.max_l by lia.
      destruct input; [contradiction|reflexivity].
Qed.

Section WithCollaborators.
Context `{Collaborators}.

(** The middle tier of [analyze_chapter_with_segments] walks the groups of
    [chapter_layer_groups], or skips an empty input. *)
Lemma chapter_layer_walks_groups
    (layer_idx : Z) (rest : list Z) (layers : list Layer) (layer : Layer)
    (chapter_id : string) (progress_callback : bool)
    (current_results : list Json) :
  index layers layer_idx = inr layer ->
  let groups := chapter_layer_groups current_results
                  (default 5 (layer_units_per_group layer)) in
  chapter_layer_loop (layer_idx :: rest) layers chapter_id progress_callback
    current_results
  = match current_results with
    | [] => chapter_layer_loop rest layers chapter_id progress_callback []
    | _ :: _ =>
        let* segment_results :=
          chapter_group_loop (enumerate groups) chapter_id layer_idx
            (default ("层级" +:+ str_of_Z layer_idx) (layer_name layer))
            (Z.of_nat (length groups)) progress_callback [] in
        chapter_layer_loop rest layers chapter_id progress_callback
          segment_results
    end.
Proof.
  intros Hl groups. cbn [chapter_layer_loop]. rewrite Hl.
  destruct current_results as [|x xs] eqn:E; [reflexivity|]. rewrite <- E.
  set (n := Z.of_nat (length current_results)).
  assert (Hn : 0 < n) by (subst n; rewrite E; cbn; lia).
  set (u := if default 5 (layer_units_per_group layer) <=? 0
            then Z.max n 1 else default 5 (layer_units_per_group layer)).
  assert (Hu : 0 < u) by (subst u; destruct (_ <=? 0) eqn:?; lia).
  assert (Hg : groups = map snd (indexed_groups current_results u ((n + u - 1) / u))).
  { subst groups. unfold chapter_layer_groups. fold n. fold u.
    subst current_results. reflexivity. }
  rewrite bind_lift_inr. fold u.
  unfold floordiv. assert ((u =? 0) = false) as -> by lia.
  rewrite bind_lift_inr.
  rewrite Hg. unfold n.
  rewrite <- (groups_enumerate current_results u).
  rewrite (groups_length current_results u Hu). reflexivity.
Qed.

(** C2.  An aggregation tier over [n] inputs: with [n = 0] the tier returns
    the empty list; otherwise it walks, in order, the groups of
    [summary_layer_groups], which are one group holding every input when
    [units_per_group <= 0], and otherwise [ceil(n / units_per_group)]
    groups ([c] groups with [(c - 1) * units_per_group < n <= c *
    units_per_group]), the group [g] holding the inputs of positions
    [g * units_per_group] to [min((g + 1) * units_per_group, n)], all of
    them together being the input in its order.  The middle tiers of
    [analyze_chapter_with_segments] form their groups the same way. *)
Theorem aggregation_tier_groups :
  forall (id : string) (input_results : list Json) (units_per_group : Z)
         (layer_name : string) (layer_idx : Z),
    let groups := summary_layer_groups input_results units_per_group in
    (input_results = [] ->
     forall w : World,
       (_execute_summary_layer id input_results units_per_group layer_name
          layer_idx w).1 = Val [])
    /\ (input_results <> [] ->
        _execute_summary_layer id input_results units_per_group layer_name
          layer_idx
        = summary_group_loop (enumerate groups) id (Z.of_nat (length groups))
            layer_name layer_idx [])
    /\ tier_partition input_results units_per_group groups
    /\ tier_partition input_results units_per_group
         (chapter_layer_groups input_results units_per_group).
Proof.
  intros id input_results upg layer_name layer_idx groups.
  split; [|split; [|split]].
  - intros -> w. reflexivity.
  - intros Hne. unfold _execute_summary_layer.
    destruct input_results as [|x xs] eqn:E; [contradiction|]. rewrite <- E.
    set (n := Z.of_nat (length input_results)).
    assert (Hn : 0 < n) by (subst n; rewrite E; cbn; lia).
    set (u := if upg <=? 0 then n else upg).
    assert (Hu : 0 < u) by (subst u; destruct (upg <=? 0) eqn:?; lia).
    assert (Hg : groups = map snd (indexed_groups input_results u ((n + u - 1) / u))).
    { subst groups. subst input_results. reflexivity. }
    fold u. unfold floordiv. assert ((u =? 0) = false) as -> by lia.
    rewrite bind_lift_inr.
    rewrite Hg. unfold n.
    rewrite <- (groups_enumerate input_results u).
    rewrite (groups_length input_results u Hu). reflexivity.
  - apply summary_layer_groups_partition.
  - apply chapter_layer_groups_partition.
Qed.

End WithCollaborators.
End GroupProps.

(* ================================================================== *)
(** * Properties of the task lifecycle controller *)
(* ================================================================== *)

Module ControllerProps.
Import Py Eff Env Storage Analyzer TaskManager Vocabulary EffProps Tactics.

Section WithCollaborators.
Context `{Collaborators}.

(** C7.  [start_task] on a task that is Running, or whose book has another
    task that is Running, returns [False]; the tables of the manager, the
    files and the inbox are as before and the only event is a warning: the
    status is unchanged and no worker is launched. *)
Theorem start_task_rejected :
  forall (w : World) (id : string) (task : AnalysisTask),
    wf_manager (mgr w) ->
    tasks (mgr w) !! id = Some task ->
    (status task = RUNNING
     \/ exists (other : string) (o : AnalysisTask),
          other <> id /\ tasks (mgr w) !! other = Some o
          /\ book_id o = book_id task /\ status o = RUNNING) ->
    exists (w' : World) (site : LogSite),
      start_task id w = (Val false, w')
      /\ mgr w' = mgr w
      /\ inbox w' = inbox w
      /\ files (an w') = files (an w)
      /\ trace (an w') = trace (an w) ++ [EvLog WARNING site].
Proof.
  intros w id task Hwf Hid Hrun.
  unfold start_task. rewrite bind_run. cbn [gets]. rewrite Hid.
  destruct (bool_decide (status task = RUNNING)) eqn:Hst.
  - run_op. do 2 eexists. repeat split.
  - apply bool_decide_eq_false in Hst.
    destruct Hrun as [Hrun|(other & o & Hne & Ho & Hbook & Hso)]; [contradiction|].
    destruct (running_sibling (mgr w) id (book_id task)) as [tid|] eqn:Hsib.
    + run_op. do 2 eexists. repeat split.
    + exfalso. unfold running_sibling in Hsib.
      destruct (Hwf other o Ho) as [Hoid Hin].
      rewrite Hbook in Hin. apply list_elem_of_In in Hin.
      pose proof (find_none _ _ Hsib other Hin) as Hf. cbn in Hf.
      rewrite Ho, Hoid in Hf.
      rewrite (bool_decide_eq_true_2 _ Hso), andb_true_r in Hf.
      apply negb_false_iff, String.eqb_eq in Hf. contradiction.
Qed.

(** Requests on a terminal task other than [start_task] change nothing. *)
Lemma pause_task_terminal w id task :
  tasks (mgr w) !! id = Some task -> terminal (status task) ->
  pause_task id w = (Val false, w).
Proof.
  intros Hid [Hs|[Hs|Hs]]; unfold pause_task; rewrite bind_run; cbn [gets];
    rewrite Hid, Hs; reflexivity.
Qed.

Lemma resume_task_terminal w id task :
  tasks (mgr w) !! id = Some task -> terminal (status task) ->
  resume_task id w = (Val false, w).
Proof.
  intros Hid [Hs|[Hs|Hs]]; unfold resume_task; rewrite bind_run; cbn [gets];
    rewrite Hid, Hs; reflexivity.
Qed.

Lemma cancel_task_terminal w id task :
  tasks (mgr w) !! id = Some task -> terminal (status task) ->
  cancel_task id w = (Val false, w).
Proof.
  intros Hid [Hs|[Hs|Hs]]; unfold cancel_task; rewrite bind_run; cbn [gets];
    rewrite Hid, Hs; reflexivity.
Qed.

(** [start_task] on a task that is not Running and has no Running sibling
    goes through, whatever the status is. *)
Lemma start_task_accepted w id task :
  tasks (mgr w) !! id = Some task ->
  status task <> RUNNING ->
  running_sibling (mgr w) id (book_id task) = None ->
  exists w',
    start_task id w = (Val true, w')
    /\ status_of w' id = Some RUNNING
    /\ id ∈ running_tasks (mgr w')
    /\ trace (an w') = trace (an w) ++ [EvThreadStart id; EvLog INFO (TaskStarted id)].
Proof.
  intros Hid Hs Hsib. unfold start_task. rewrite bind_run. cbn [gets].
  rewrite Hid, (bool_decide_eq_false_2 _ Hs), Hsib.
  run_op. eexists. split; [reflexivity|]. cbn. repeat split.
  - unfold status_of. cbn. rewrite !lookup_alter_eq, Hid. reflexivity.
  - set_solver.
  - now rewrite <- app_assoc.
Qed.

(** C3 (as the code has it).  For a task in a terminal state, [pause_task],
    [resume_task] and [cancel_task] return [False] and leave the world as
    it is.  [start_task] has no check for terminal states: unless another
    task of the book is Running, it returns [True], the status becomes
    Running and a worker is launched. *)
Theorem terminal_task_requests :
  forall (w : World) (id : string) (task : AnalysisTask),
    tasks (mgr w) !! id = Some task ->
    terminal (status task) ->
    pause_task id w = (Val false, w)
    /\ resume_task id w = (Val false, w)
    /\ cancel_task id w = (Val false, w)
    /\ (running_sibling (mgr w) id (book_id task) = None ->
        exists w',
          start_task id w = (Val true, w')
          /\ status_of w' id = Some RUNNING
          /\ id ∈ running_tasks (mgr w')
          /\ trace (an w')
             = trace (an w) ++ [EvThreadStart id; EvLog INFO (TaskStarted id)]).
Proof.
  intros w id task Hid Hterm.
  split; [eapply pause_task_terminal; eassumption|].
  split; [eapply resume_task_terminal; eassumption|].
  split; [eapply cancel_task_terminal; eassumption|].
  apply start_task_accepted; [assumption|].
  destruct Hterm as [Hs|[Hs|Hs]]; rewrite Hs; discriminate.
Qed.

(** ** Cancelled for good *)

Lemma settled_intro id w t :
  tasks (mgr w) !! id = Some t -> terminal (status t) ->
  _cancel_flags (mgr w) !! id = Some true -> settled id w.
Proof. intros. split; eauto. Qed.

Lemma serve_inbox r w : inbox (serve r w).2 = inbox w.
Proof.
  destruct r; cbn [serve snd]; run_op;
    repeat (case_match; simplify_eq; cbn [fst snd inbox set_mgr set_an]);
    reflexivity.
Qed.

Lemma serve_settled id r w :
  foreign id r -> settled id w -> settled id (serve r w).2.
Proof.
  intros Hf [(t & Ht & Hterm) Hflag].
  destruct r as [new_id book ty|i|i|i|i]; cbn [serve snd foreign] in *.
  - (* create *)
    run_op. apply (settled_intro _ _ t); cbn; [|assumption|];
      now rewrite lookup_insert_ne by assumption.
  - (* start *)
    unfold start_task. rewrite bind_run. cbn [gets].
    destruct (tasks (mgr w) !! i) as [ti|] eqn:Hi;
      [|run_op; apply (settled_intro _ _ t); assumption].
    destruct (bool_decide (status ti = RUNNING));
      [run_op; apply (settled_intro _ _ t); assumption|].
    destruct (running_sibling (mgr w) i (book_id ti));
      [run_op; apply (settled_intro _ _ t); assumption|].
    run_op. apply (settled_intro _ _ t); cbn; [|assumption..].
    now rewrite !lookup_alter_ne by assumption.
  - (* pause *)
    destruct (decide (i = id)) as [->|Hne].
    + rewrite (pause_task_terminal _ _ _ Ht Hterm). now apply (settled_intro _ _ t).
    + unfold pause_task. rewrite bind_run. cbn [gets].
      destruct (tasks (mgr w) !! i) as [ti|] eqn:Hi;
        [|apply (settled_intro _ _ t); assumption].
      destruct (bool_decide (status ti = RUNNING)); cbn [negb];
        [|apply (settled_intro _ _ t); assumption].
      run_op. destruct (_pause_events (mgr w) !! i);
        apply (settled_intro _ _ t); cbn; try assumption;
        now rewrite lookup_alter_ne by assumption.
  - (* resume *)
    destruct (decide (i = id)) as [->|Hne].
    + rewrite (resume_task_terminal _ _ _ Ht Hterm). now apply (settled_intro _ _ t).
    + unfold resume_task. rewrite bind_run. cbn [gets].
      destruct (tasks (mgr w) !! i) as [ti|] eqn:Hi;
        [|apply (settled_intro _ _ t); assumption].
      destruct (bool_decide (status ti = PAUSED)); cbn [negb];
        [|apply (settled_intro _ _ t); assumption].
      run_op. destruct (_pause_events (mgr w) !! i);
        apply (settled_intro _ _ t); cbn; try assumption;
        now rewrite lookup_alter_ne by assumption.
  - (* cancel *)
    destruct (decide (i = id)) as [->|Hne].
    + rewrite (cancel_task_terminal _ _ _ Ht Hterm). now apply (settled_intro _ _ t).
    + unfold cancel_task. rewrite bind_run. cbn [gets].
      destruct (tasks (mgr w) !! i) as [ti|] eqn:Hi;
        [|apply (settled_intro _ _ t); assumption].
      destruct (bool_decide (status ti ∈ [PENDING; RUNNING; PAUSED])); cbn [negb];
        [|apply (settled_intro _ _ t); assumption].
      run_op. destruct (_pause_events (mgr w) !! i);
        apply (settled_intro _ _ t); cbn; try assumption;
        rewrite ?lookup_alter_ne, ?lookup_insert_ne by assumption; assumption.
Qed.

Lemma serve_all_run id rs w :
  exists w',
    serve_all rs w = (Val tt, w')
    /\ inbox w' = inbox w
    /\ (Forall (foreign id) rs -> settled id w -> settled id w').
Proof.
  revert w. induction rs as [|r rs IH]; intros w.
  - exists w. split; [reflexivity|]. split; [reflexivity|]. auto.
  - destruct (IH (serve r w).2) as (w' & Hrun & Hin & Hset).
    exists w'. unfold serve_all in *. cbn [for_each]. rewrite bind_run.
    replace (serve r w) with (Val tt, (serve r w).2) by (destruct r; reflexivity).
    split; [exact Hrun|]. split; [now rewrite Hin, serve_inbox|].
    intros Hf Hs. apply Forall_cons_1 in Hf as [Hr Hrs].
    apply Hset; [exact Hrs|]. apply serve_settled; assumption.
Qed.

Lemma cancel_flag_settled id w : settled id w -> cancel_flag w id = true.
Proof. intros [_ Hf]. unfold cancel_flag. now rewrite Hf. Qed.

Lemma settled_same_mgr id w w' : mgr w' = mgr w -> settled id w -> settled id w'.
Proof. unfold settled. now intros ->. Qed.

(** A checkpoint of any worker keeps the invariant; a checkpoint of the
    cancelled task itself answers "stop" at its first look at the flag. *)
Lemma checkpoint_cancelled id worker w :
  cancelled_for_good id w ->
  cancelled_for_good id (_check_pause_and_cancel worker w).2
  /\ (worker = id ->
      exists w', _check_pause_and_cancel worker w = (Val false, w')).
Proof.
  intros [Hset Hin]. unfold _check_pause_and_cancel.
  rewrite bind_run. cbn [gets].
  set (i := default _ (head (inbox w))).
  assert (Hi : foreign_interference id i).
  { unfold inbox_foreign in Hin. subst i. destruct (inbox w) as [|x l]; cbn.
    - repeat split; constructor.
    - now apply Forall_cons_1 in Hin as [Hx _]. }
  destruct Hi as (Ha & Hb & Hc & Hd).
  rewrite bind_run. cbn [modify].
  set (w0 := set_inbox (tail (inbox w)) w).
  assert (Hin0 : inbox_foreign id w0).
  { unfold inbox_foreign in *. subst w0. cbn.
    destruct (inbox w); cbn; [constructor|]. now apply Forall_cons_1 in Hin as [_ ?]. }
  assert (Hset0 : settled id w0) by (apply (settled_same_mgr _ w); auto).
  rewrite bind_run.
  destruct (serve_all_run id (at_entry i) w0) as (w1 & -> & Hin1 & Hs1).
  assert (Hg1 : cancelled_for_good id w1)
    by (split; [auto|unfold inbox_foreign; now rewrite Hin1]).
  rewrite bind_run. cbn [gets].
  destruct (cancel_flag w1 worker) eqn:Hflag1.
  { cbn [ret snd]. split; [exact Hg1|]. intros _. eauto. }
  split; [|intros ->; rewrite (cancel_flag_settled _ _ (proj1 Hg1)) in Hflag1;
           discriminate].
  rewrite bind_run.
  destruct (serve_all_run id (before_wait i) w1) as (w2 & -> & Hin2 & Hs2).
  assert (Hg2 : cancelled_for_good id w2).
  { destruct Hg1. split; [auto|unfold inbox_foreign; now rewrite Hin2]. }
  rewrite bind_run. cbn [gets]. rewrite bind_run.
  assert (Hgate : exists w3,
            cancelled_for_good id w3
            /\ ((match _pause_events (mgr w2) !! worker with
                 | Some true => ret tt
                 | Some false =>
                     serve_all (while_blocked i);;
                     let* w := gets (fun w => w) in
                     match _pause_events (mgr w) !! worker with
                     | Some false => hang
                     | _ => ret tt
                     end
                 | None => ret tt
                 end) w2 = (Val tt, w3)
                \/ (match _pause_events (mgr w2) !! worker with
                    | Some true => ret tt
                    | Some false =>
                        serve_all (while_blocked i);;
                        let* w := gets (fun w => w) in
                        match _pause_events (mgr w) !! worker with
                        | Some false => hang
                        | _ => ret tt
                        end
                    | None => ret tt
                    end) w2 = (Hang, w3))).
  { destruct (_pause_events (mgr w2) !! worker) as [[|]|]; [exists w2; auto| |exists w2; auto].
    rewrite bind_run.
    destruct (serve_all_run id (while_blocked i) w2) as (w3 & -> & Hin3 & Hs3).
    exists w3. split.
    - destruct Hg2. split; [auto|unfold inbox_foreign; now rewrite Hin3].
    - rewrite bind_run. cbn [gets].
      destruct (_pause_events (mgr w3) !! worker) as [[|]|]; auto. }
  destruct Hgate as (w3 & Hg3 & [-> | ->]); [|exact Hg3].
  rewrite bind_run.
  destruct (serve_all_run id (after_wake i) w3) as (w4 & -> & Hin4 & Hs4).
  assert (Hg4 : cancelled_for_good id w4).
  { destruct Hg3. split; [auto|unfold inbox_foreign; now rewrite Hin4]. }
  rewrite bind_run. cbn [gets].
  destruct (cancel_flag w4 worker); exact Hg4.
Qed.

Lemma update_task_cancelled id worker f w :
  (forall t, status (f t) = status t) ->
  cancelled_for_good id w ->
  cancelled_for_good id (update_task worker f w).2.
Proof.
  intros Hf [[(t & Ht & Hterm) Hflag] Hin]. run_op.
  split; [|exact Hin].
  destruct (decide (worker = id)) as [->|Hne].
  - apply (settled_intro _ _ (f t)); cbn; [|now rewrite Hf|assumption].
    now rewrite lookup_alter_eq, Ht.
  - apply (settled_intro _ _ t); cbn; [|assumption..].
    now rewrite lookup_alter_ne.
Qed.

Lemma finish_task_cancelled id worker outcome w :
  cancelled_for_good id w ->
  cancelled_for_good id (finish_task worker outcome w).2.
Proof.
  intros Hg. pose proof Hg as [[(t & Ht & Hterm) Hflag] Hin].
  destruct (decide (worker = id)) as [->|Hne].
  - destruct outcome as [[]|e|]; cbn [finish_task]; [| |exact Hg].
    + rewrite bind_run. cbn [gets].
      rewrite (cancel_flag_settled _ _ (proj1 Hg)). run_op.
      split; [|exact Hin].
      apply (settled_intro _ _ (with_status CANCELLED t)); cbn;
        [|left; reflexivity|assumption].
      now rewrite lookup_alter_eq, Ht.
    + run_op. split; [|exact Hin].
      eapply settled_intro; cbn;
        [rewrite !lookup_alter_eq, Ht; reflexivity
        |right; right; reflexivity|assumption].
  - destruct outcome as [[]|e|]; cbn [finish_task]; [| |exact Hg].
    + rewrite bind_run. cbn [gets].
      destruct (cancel_flag w worker); run_op; (split; [|exact Hin]);
        apply (settled_intro _ _ t); cbn; try assumption;
        now rewrite !lookup_alter_ne by assumption.
    + run_op. split; [|exact Hin].
      apply (settled_intro _ _ t); cbn; try assumption;
        now rewrite !lookup_alter_ne by assumption.
Qed.

Lemma step_cancelled id w w' :
  step id w w' -> cancelled_for_good id w -> cancelled_for_good id w'.
Proof.
  intros Hstep Hg. destruct Hstep as [r w Hr|i w Hi|worker w|worker o w|a w|worker f w Hf].
  - destruct Hg as [Hs Hin]. split; [now apply serve_settled|].
    unfold inbox_foreign. now rewrite serve_inbox.
  - destruct Hg as [Hs _]. split; [exact Hs|exact Hi].
  - now apply checkpoint_cancelled.
  - now apply finish_task_cancelled.
  - exact Hg.
  - now apply update_task_cancelled.
Qed.

Lemma steps_cancelled id w w' :
  steps id w w' -> cancelled_for_good id w -> cancelled_for_good id w'.
Proof. induction 1; eauto using step_cancelled. Qed.

Lemma cancelled_not_running id w :
  cancelled_for_good id w -> status_of w id <> Some RUNNING.
Proof.
  intros [[(t & Ht & Hterm) _] _]. unfold status_of. rewrite Ht. cbn.
  destruct Hterm as [E|[E|E]]; rewrite E; discriminate.
Qed.

Lemma pause_task_running w id task gate :
  tasks (mgr w) !! id = Some task -> status task = RUNNING ->
  _pause_events (mgr w) !! id = Some gate ->
  exists w1,
    pause_task id w = (Val true, w1)
    /\ tasks (mgr w1) !! id = Some (with_status PAUSED task)
    /\ _pause_events (mgr w1) !! id = Some false
    /\ _cancel_flags (mgr w1) = _cancel_flags (mgr w)
    /\ inbox w1 = inbox w.
Proof.
  intros Hid Hs Hgate. unfold pause_task. rewrite bind_run. cbn [gets].
  rewrite Hid, Hs. cbn [bool_decide negb]. run_op. rewrite Hgate.
  eexists. split; [reflexivity|]. cbn. repeat split.
  - now rewrite lookup_alter_eq, Hid.
  - apply lookup_insert_eq.
Qed.

Lemma cancel_task_paused w id task gate :
  tasks (mgr w) !! id = Some task -> status task = PAUSED ->
  _pause_events (mgr w) !! id = Some gate ->
  exists w2,
    cancel_task id w = (Val true, w2)
    /\ tasks (mgr w2) !! id = Some (with_status CANCELLED task)
    /\ _pause_events (mgr w2) !! id = Some true
    /\ _cancel_flags (mgr w2) !! id = Some true
    /\ inbox w2 = inbox w.
Proof.
  intros Hid Hs Hgate. unfold cancel_task. rewrite bind_run. cbn [gets].
  rewrite Hid, Hs. cbn [negb]. run_op. rewrite Hgate.
  eexists. split; [reflexivity|]. cbn. repeat split.
  - now rewrite lookup_alter_eq, Hid.
  - apply lookup_insert_eq.
  - apply lookup_insert_eq.
Qed.

(** C5 (as the code has it).  Pausing a Running task and then cancelling
    it: both requests are accepted; after the pause the gate is cleared;
    after the cancel the status is Cancelled, the cancel flag is set and
    the gate is signalled.  From then on, as long as no request starts the
    task anew or reuses its id ([inbox_foreign], and the requests of
    [steps]), whatever else the controller serves, whatever the workers do
    and however the requests interleave with their checkpoints, the status
    is never Running again, and every checkpoint of the task's worker
    returns [False] (it neither blocks nor resumes work).  In particular a
    worker that blocks on the gate after the pause is woken by the cancel
    and leaves its checkpoint with [False].  Without the condition the
    status does return to Running: [start_task] accepts the cancelled
    task. *)
Theorem pause_then_cancel :
  forall (w : World) (id : string) (task : AnalysisTask) (gate : bool),
    tasks (mgr w) !! id = Some task ->
    status task = RUNNING ->
    _pause_events (mgr w) !! id = Some gate ->
    inbox_foreign id w ->
    exists w1 w2 : World,
      pause_task id w = (Val true, w1)
      /\ status_of w1 id = Some PAUSED
      /\ _pause_events (mgr w1) !! id = Some false
      /\ cancel_task id w1 = (Val true, w2)
      /\ status_of w2 id = Some CANCELLED
      /\ _cancel_flags (mgr w2) !! id = Some true
      /\ _pause_events (mgr w2) !! id = Some true
      /\ (forall w3 : World,
            steps id w2 w3 ->
            status_of w3 id <> Some RUNNING
            /\ exists w4, _check_pause_and_cancel id w3 = (Val false, w4))
      /\ (forall rest : list Interference,
            cancel_flag w id = false ->
            exists w',
              _check_pause_and_cancel id
                (set_inbox ({| at_entry := [ReqPause id]; before_wait := [];
                               while_blocked := [ReqCancel id];
                               after_wake := [] |} :: rest) w)
              = (Val false, w')
              /\ status_of w' id = Some CANCELLED).
Proof.
  intros w id task gate Hid Hs Hgate Hin.
  destruct (pause_task_running w id task gate Hid Hs Hgate)
    as (w1 & Hp & Ht1 & Hg1 & Hc1 & Hi1).
  destruct (cancel_task_paused w1 id _ false Ht1 eq_refl Hg1)
    as (w2 & Hc & Ht2 & Hg2 & Hf2 & Hi2).
  exists w1, w2.
  split; [exact Hp|]. split; [unfold status_of; now rewrite Ht1|].
  split; [exact Hg1|]. split; [exact Hc|].
  split; [unfold status_of; now rewrite Ht2|].
  split; [exact Hf2|]. split; [exact Hg2|]. split.
  - assert (Hgood : cancelled_for_good id w2).
    { split; [eapply settled_intro; [exact Ht2|left; reflexivity|exact Hf2]|].
      unfold inbox_foreign. now rewrite Hi2, Hi1. }
    intros w3 Hsteps.
    pose proof (steps_cancelled _ _ _ Hsteps Hgood) as Hgood3. split.
    + now apply cancelled_not_running.
    + now apply (checkpoint_cancelled id id w3 Hgood3).
  - intros rest Hflag.
    set (w0 := set_inbox rest w).
    destruct (pause_task_running w0 id task gate Hid Hs Hgate)
      as (v1 & Hp' & Hu1 & Hga1 & Hca1 & _).
    destruct (cancel_task_paused v1 id _ false Hu1 eq_refl Hga1)
      as (v2 & Hc' & Hu2 & Hga2 & Hfa2 & _).
    exists v2. split; [|unfold status_of; now rewrite Hu2].
    unfold _check_pause_and_cancel. rewrite bind_run. cbn [gets].
    rewrite bind_run.
    cbn [modify inbox set_inbox head tail default from_option Datatypes.id].
    change (set_inbox rest _) with w0.
    assert (Hcf1 : cancel_flag v1 id = false)
      by (unfold cancel_flag in *; now rewrite Hca1).
    assert (Hcf2 : cancel_flag v2 id = true)
      by (unfold cancel_flag; now rewrite Hfa2).
    unfold serve_all.
    repeat (progress (rewrite ?bind_run;
                      cbn [serve ret gets hang snd fst for_each at_entry
                           before_wait while_blocked after_wake];
                      rewrite ?Hp', ?Hc', ?Hga1, ?Hga2, ?Hcf1, ?Hcf2)).
    reflexivity.
Qed.

End WithCollaborators.
End ControllerProps.

(* ================================================================== *)
(** * Properties of the batch tier *)
(* ================================================================== *)

Module BatchTierProps.
Import Py Eff Env Storage Analyzer TaskManager Vocabulary EffProps Tactics.

Lemma index_in_range {A} (l : list A) (i : Z) :
  0 <= i < Z.of_nat (length l) -> exists x, index l i = inr x.
Proof.
  intros Hi. unfold index.
  assert ((i <? 0) = false) as -> by lia.
  assert (((i <? 0) || (Z.of_nat (length l) <=? i)) = false) as -> by lia.
  destruct (l !! Z.to_nat i) as [x|] eqn:E; [eauto|].
  apply lookup_ge_None in E. lia.
Qed.

Lemma index_first {A} (l : list A) :
  l <> [] -> exists x, index l 0 = inr x.
Proof.
  intros Hne. apply index_in_range.
  destruct l; [contradiction|cbn; lia].
Qed.

Lemma index_last {A} (l : list A) :
  l <> [] -> exists x, index l (-1) = inr x.
Proof.
  intros Hne. unfold index.
  assert (Hlen : (0 < length l)%nat) by (destruct l; [contradiction|cbn; lia]).
  assert ((-1 <? 0) = true) as -> by reflexivity.
  assert (((-1 + Z.of_nat (length l) <? 0)
           || (Z.of_nat (length l) <=? -1 + Z.of_nat (length l))) = false) as -> by lia.
  destruct (l !! Z.to_nat (-1 + Z.of_nat (length l))) as [x|] eqn:E; [eauto|].
  apply lookup_ge_None in E. lia.
Qed.

Lemma images_of_valid_pages all_images page_nums :
  Forall (fun p => 1 <= p <= Z.of_nat (length all_images)) page_nums ->
  exists infos, images_of_pages all_images page_nums = inr infos.
Proof.
  induction 1 as [|p ps Hp _ [infos IH]]; cbn [images_of_pages]; [eauto|].
  destruct (index_in_range all_images (p - 1)) as [img ->]; [lia|].
  rewrite IH. eauto.
Qed.

Section WithCollaborators.
Context `{Collaborators}.

Lemma single_batch_outcome (id : string) (task : AnalysisTask)
    (all_images : list ImageInfo) (page_nums : list Z)
    (batch_idx total_batches : Z) (batch_results : list Dict)
    (context_batch_count : Z) (w : World) :
  tasks (mgr w) !! id = Some task ->
  valid_pages all_images page_nums ->
  single_batch_contract id all_images page_nums batch_idx total_batches
    batch_results context_batch_count w.
Proof.
  intros Hid [Hne Hvalid]. unfold single_batch_contract.
  destruct (images_of_valid_pages _ _ Hvalid) as [infos Hinfos].
  destruct (index_first _ Hne) as [first Hfirst].
  destruct (index_last _ Hne) as [last Hlast].
  exists infos, first, last. repeat (split; [assumption|]).
  cbv zeta. unfold _analyze_single_batch.
  rewrite Hinfos, Hfirst, Hlast. rewrite !bind_lift_inr.
  rewrite bind_run. run_tier. unfold try_except.
  rewrite !bind_run. run_tier.
  unfold at_batch_call.
  destruct (analyze_batch page_nums None (map Some infos) true
              (context_window batch_results context_batch_count) _)
    as [[result|e|] a'] eqn:Hcall; cbn.
  all: unfold failed_pages_of, status_of; cbn;
    rewrite ?lookup_alter_eq, ?Hid; cbn; repeat split; eauto.
  now rewrite <- app_assoc.
Qed.

Lemma never_raises_bind {S A B} (c : M S A) (k : A -> M S B) :
  never_raises c -> (forall a, never_raises (k a)) -> never_raises (bind c k).
Proof.
  intros Hc Hk s e. rewrite bind_run.
  destruct (c s) as [[a|e'|] s'] eqn:E; cbn.
  - apply Hk.
  - specialize (Hc s e'). rewrite E in Hc. contradiction.
  - discriminate.
Qed.

Lemma never_raises_ret {S A} (a : A) : never_raises (ret a : M S A).
Proof. intros s e. discriminate. Qed.

Lemma never_raises_try {S A} (c : M S A) (h : Exn -> M S A) :
  (forall e, never_raises (h e)) -> never_raises (try_except c h).
Proof.
  intros Hh s e. unfold try_except.
  destruct (c s) as [[a|e'|] s'] eqn:E; cbn; try discriminate. apply Hh.
Qed.

Lemma never_raises_update_task id f : never_raises (update_task id f).
Proof. intros s e. discriminate. Qed.

Lemma never_raises_on_an_log lvl site : never_raises (on_an (log lvl site)).
Proof. intros s e. discriminate. Qed.

Lemma never_raises_notify id : never_raises (_notify_progress id).
Proof. intros s e. discriminate. Qed.

Lemma never_raises_checkpoint id : never_raises (_check_pause_and_cancel id).
Proof.
  intros w e. unfold _check_pause_and_cancel.
  rewrite bind_run. cbn [gets]. rewrite bind_run. cbn [modify].
  set (i := default _ (head (inbox w))).
  rewrite bind_run.
  destruct (ControllerProps.serve_all_run id (at_entry i)
              (set_inbox (tail (inbox w)) w)) as (w1 & -> & _).
  rewrite bind_run. cbn [gets].
  destruct (cancel_flag w1 id); [discriminate|].
  rewrite bind_run.
  destruct (ControllerProps.serve_all_run id (before_wait i) w1) as (w2 & -> & _).
  rewrite bind_run. cbn [gets]. rewrite bind_run.
  destruct (_pause_events (mgr w2) !! id) as [[|]|]; cbn [ret].
  2: { rewrite bind_run.
       destruct (ControllerProps.serve_all_run id (while_blocked i) w2)
         as (w3 & -> & _).
       rewrite bind_run. cbn [gets].
       destruct (_pause_events (mgr w3) !! id) as [[|]|]; cbn [ret hang];
         try discriminate.
       all: rewrite bind_run;
         destruct (ControllerProps.serve_all_run id (after_wake i) w3)
           as (w4 & -> & _);
         rewrite bind_run; cbn [gets]; destruct (cancel_flag w4 id); discriminate. }
  all: rewrite bind_run;
    destruct (ControllerProps.serve_all_run id (after_wake i) w2) as (w4 & -> & _);
    rewrite bind_run; cbn [gets]; destruct (cancel_flag w4 id); discriminate.
Qed.

(** A batch with valid pages never lets an exception escape. *)
Lemma single_batch_never_raises id all_images page_nums batch_idx total_batches
    batch_results context_batch_count :
  valid_pages all_images page_nums ->
  never_raises (_analyze_single_batch id all_images page_nums batch_idx
                  total_batches batch_results context_batch_count).
Proof.
  intros [Hne Hvalid].
  destruct (images_of_valid_pages _ _ Hvalid) as [infos Hinfos].
  destruct (index_first _ Hne) as [first Hfirst].
  destruct (index_last _ Hne) as [last Hlast].
  unfold _analyze_single_batch. rewrite Hinfos, Hfirst, Hlast.
  rewrite !bind_lift_inr.
  apply never_raises_bind; [apply never_raises_update_task|intros _].
  apply never_raises_try. intros e. rewrite ?bind_lift_inr.
  apply never_raises_bind; [apply never_raises_on_an_log|intros _].
  apply never_raises_bind; [apply never_raises_update_task|intros _].
  rewrite ?bind_lift_inr.
  apply never_raises_bind; [apply never_raises_update_task|intros _].
  apply never_raises_bind; [apply never_raises_notify|intros _].
  apply never_raises_ret.
Qed.

Lemma slice_Forall {A} (P : A -> Prop) (l : list A) a b :
  Forall P l -> Forall P (slice l a b).
Proof. intros Hl. unfold slice. now apply Forall_take, Forall_drop. Qed.

Lemma slice_window_nonempty {A} (l : list A) (i n : Z) :
  0 < n -> 0 <= i < Z.of_nat (length l) ->
  slice l (Some i) (Some (i + n)) <> [].
Proof.
  intros Hn Hi Hnil. apply (f_equal length) in Hnil.
  unfold slice, clip in Hnil.
  assert ((i <? 0) = false) as Hi0 by lia.
  assert ((i + n <? 0) = false) as Hin0 by lia.
  rewrite Hi0, Hin0, length_take, length_drop in Hnil. cbn in Hnil. lia.
Qed.

Lemma range_from_length a b : length (range_from a b) = Z.to_nat (b - a).
Proof. unfold range_from. now rewrite length_map, length_seq. Qed.

Lemma plain_batch_pages_valid all_images pages_per_batch batch_idx :
  0 < pages_per_batch -> 0 <= batch_idx ->
  batch_idx * pages_per_batch < Z.of_nat (length all_images) ->
  valid_pages all_images
    (plain_batch_pages pages_per_batch (Z.of_nat (length all_images)) batch_idx).
Proof.
  intros Hp Hb Hlt. unfold plain_batch_pages. split.
  - intros Hnil. apply (f_equal length) in Hnil.
    rewrite length_map, range_from_length in Hnil. cbn in Hnil. nia.
  - apply Forall_forall. intros p Hin.
    apply list_elem_of_fmap in Hin as (i & -> & Hin).
    unfold range_from in Hin. apply list_elem_of_fmap in Hin as (k & -> & Hk).
    apply elem_of_seq in Hk. nia.
Qed.

Lemma range_elem n idx : idx ∈ range n -> 0 <= idx < n.
Proof.
  unfold range. intros Hin. apply list_elem_of_fmap in Hin as (k & -> & Hk).
  apply elem_of_seq in Hk. lia.
Qed.

Lemma plain_loop_never_raises id all_images pages_per_batch total_batches
    context_batch_count :
  0 < pages_per_batch ->
  forall batch_idxs batch_results,
    Forall (fun idx => 0 <= idx
                       /\ idx * pages_per_batch < Z.of_nat (length all_images))
           batch_idxs ->
    never_raises (plain_batch_loop batch_idxs id all_images pages_per_batch
                    (Z.of_nat (length all_images)) total_batches
                    context_batch_count batch_results).
Proof.
  intros Hp batch_idxs.
  induction batch_idxs as [|idx rest IH]; intros acc Hall; cbn [plain_batch_loop].
  - apply never_raises_ret.
  - apply Forall_cons_1 in Hall as [[H0 Hlt] Hrest].
    apply never_raises_bind; [apply never_raises_checkpoint|intros go].
    destruct go; cbn [negb]; [|apply never_raises_ret].
    apply never_raises_bind; [|intros r; apply IH, Hrest].
    apply single_batch_never_raises.
    apply (plain_batch_pages_valid all_images pages_per_batch idx); assumption.
Qed.

Lemma aligned_loop_never_raises id all_images total_batches context_batch_count :
  forall batch_groups batch_idx batch_results,
    Forall (fun g : string * list Z => valid_pages all_images g.2) batch_groups ->
    never_raises (aligned_batch_loop batch_groups batch_idx id all_images
                    total_batches context_batch_count batch_results).
Proof.
  intros batch_groups.
  induction batch_groups as [|[ch_id page_nums] rest IH]; intros idx acc Hall;
    cbn [aligned_batch_loop].
  - apply never_raises_ret.
  - apply Forall_cons_1 in Hall as [Hv Hrest].
    apply never_raises_bind; [apply never_raises_checkpoint|intros go].
    destruct go; cbn [negb]; [|apply never_raises_ret].
    apply never_raises_bind; [|intros r; apply IH, Hrest].
    apply single_batch_never_raises, Hv.
Qed.

Lemma aligned_groups_valid all_images chapter_page_map pages_per_batch :
  0 < pages_per_batch ->
  valid_page_map all_images chapter_page_map ->
  exists groups,
    aligned_batch_groups chapter_page_map pages_per_batch = inr groups
    /\ Forall (fun g : string * list Z => valid_pages all_images g.2) groups.
Proof.
  intros Hp. unfold valid_page_map.
  induction 1 as [|[ch_id page_nums] rest Hpages _ (more & Hmore & Hvalid)];
    cbn [aligned_batch_groups].
  - exists []. split; [reflexivity|constructor].
  - unfold range_step.
    assert ((pages_per_batch =? 0) = false) as -> by lia.
    assert ((pages_per_batch <? 0) = false) as -> by lia.
    rewrite Hmore. eexists. split; [reflexivity|].
    apply Forall_app. split; [|exact Hvalid].
    apply Forall_forall. intros g Hg.
    apply list_elem_of_fmap in Hg as (i & -> & Hi).
    apply list_elem_of_fmap in Hi as (k & -> & Hk).
    apply elem_of_seq in Hk. cbn [snd] in *.
    pose proof (GroupProps.ceil_bounds (Z.of_nat (length page_nums))
                  pages_per_batch Hp ltac:(lia)) as Hc.
    split.
    + apply slice_window_nonempty; [exact Hp|]. nia.
    + apply slice_Forall, Hpages.
Qed.

(** With a positive batch size and pages that exist, the batch tier never
    lets an exception escape: it returns its results, or waits on the pause
    gate. *)
Lemma batch_layer_never_raises id all_images pages_per_batch
    context_batch_count align_to_chapter chapter_page_map :
  0 < pages_per_batch ->
  valid_page_map all_images chapter_page_map ->
  never_raises (_execute_batch_analysis_layer id all_images pages_per_batch
                  context_batch_count align_to_chapter chapter_page_map).
Proof.
  intros Hp Hmap. unfold _execute_batch_analysis_layer.
  destruct (align_to_chapter && _).
  - destruct (aligned_groups_valid _ _ _ Hp Hmap) as (groups & -> & Hvalid).
    rewrite bind_lift_inr. now apply aligned_loop_never_raises.
  - unfold floordiv. assert ((pages_per_batch =? 0) = false) as -> by lia.
    rewrite bind_lift_inr. apply plain_loop_never_raises; [exact Hp|].
    apply Forall_forall. intros idx Hidx. apply range_elem in Hidx.
    pose proof (GroupProps.ceil_bounds (Z.of_nat (length all_images))
                  pages_per_batch Hp ltac:(lia)). nia.
Qed.

(** With nobody interfering, a checkpoint lets the worker go on and leaves
    the world as it is. *)
Lemma checkpoint_quiet id w :
  quiet id w -> _check_pause_and_cancel id w = (Val true, w).
Proof.
  intros (Hin & Hflag & Hgate). unfold _check_pause_and_cancel.
  rewrite bind_run. cbn [gets]. rewrite Hin.
  cbn [head tail default from_option Datatypes.id at_entry before_wait
       while_blocked after_wake].
  assert (Hw : set_inbox [] w = w) by (destruct w; cbn in *; now subst).
  unfold serve_all.
  repeat (progress (rewrite ?bind_run;
                    cbn [modify ret gets for_each fst snd]; rewrite ?Hw, ?Hflag)).
  destruct (_pause_events (mgr w) !! id) as [[|]|]; [|contradiction|];
    repeat (progress (rewrite ?bind_run;
                      cbn [modify ret gets for_each fst snd]; rewrite ?Hflag));
    reflexivity.
Qed.

Lemma quiet_same id w w' :
  _cancel_flags (mgr w') = _cancel_flags (mgr w) ->
  _pause_events (mgr w') = _pause_events (mgr w) ->
  inbox w' = inbox w ->
  quiet id w -> quiet id w'.
Proof.
  unfold quiet, cancel_flag. intros -> -> ->. auto.
Qed.

Lemma accounted_step id (task : AnalysisTask) all_images page_nums batch_idx
    total_batches acc context_batch_count w
    (next : option Dict -> M World (list Dict)) (rest : list (list Z))
    (n_after : option Dict -> nat) :
  tasks (mgr w) !! id = Some task ->
  quiet id w ->
  valid_pages all_images page_nums ->
  (forall r, dict_truthy r = true -> n_after (Some r) = S (length acc)) ->
  n_after None = length acc ->
  (forall result w' task',
      tasks (mgr w') !! id = Some task' -> quiet id w' ->
      accounted id w' rest (n_after result) (next result w')) ->
  accounted id w (page_nums :: rest) (length acc)
    (bind (_analyze_single_batch id all_images page_nums batch_idx
             total_batches acc context_batch_count) next w).
Proof.
  intros Hid Hq Hvalid Hsome Hnone Hnext.
  destruct (single_batch_outcome id task all_images page_nums batch_idx
              total_batches acc context_batch_count w Hid Hvalid)
    as (infos & first & last & _ & _ & _ & Hout).
  cbv zeta in Hout. rewrite bind_run.
  destruct (_analyze_single_batch id all_images page_nums batch_idx
              total_batches acc context_batch_count w) as [r ws] eqn:Hsingle.
  cbn [fst snd] in Hout.
  destruct Hout as (Hcase & Hcf & Hpe & Hinb & [task' Htask']).
  assert (Hq' : quiet id ws) by (eapply quiet_same; eassumption).
  destruct (analyze_batch page_nums None (map Some infos) true _ _)
    as [[result|e|] a'] eqn:Hcall.
  - destruct Hcase as (-> & Hfp & _).
    specialize (Hnext (Some result) ws task' Htask' Hq').
    assert (Htruthy : dict_truthy result = true).
    { destruct page_nums as [|p ps]; [destruct Hvalid; contradiction|].
      eapply CacheProps.analyze_batch_forced_truthy, Hcall. }
    unfold accounted in *.
    destruct (next (Some result) ws) as [[results|e|] w'']; [|exact Hnext|exact I].
    destruct Hnext as (failed & Hsub & Hfailed & Hlen & Hq'').
    exists failed. split; [now apply sublist_cons|].
    split; [now rewrite Hfailed, Hfp|]. split; [|exact Hq''].
    rewrite (Hsome _ Htruthy) in Hlen. cbn in *. lia.
  - destruct Hcase as (-> & Hfp & _).
    specialize (Hnext None ws task' Htask' Hq').
    unfold accounted in *.
    destruct (next None ws) as [[results|e'|] w'']; [|exact Hnext|exact I].
    destruct Hnext as (failed & Hsub & Hfailed & Hlen & Hq'').
    exists (page_nums :: failed). split; [now apply sublist_skip|].
    split; [rewrite Hfailed, Hfp; cbn; now rewrite app_assoc|].
    split; [|exact Hq'']. rewrite Hnone in Hlen. cbn in *. lia.
  - rewrite Hcase. exact I.
Qed.

Lemma accounted_done id w (acc : list Dict) :
  quiet id w -> accounted id w [] (length acc) (Val acc, w).
Proof.
  intros Hq. exists []. split; [constructor|].
  split; [cbn; now rewrite app_nil_r|]. split; [cbn; lia|exact Hq].
Qed.

Lemma length_append_result acc (r : Dict) :
  dict_truthy r = true -> length (append_result acc (Some r)) = S (length acc).
Proof. intros Hr. cbn. rewrite Hr, length_app. cbn. lia. Qed.

Lemma plain_loop_accounted id all_images pages_per_batch total_batches
    context_batch_count :
  0 < pages_per_batch ->
  forall batch_idxs batch_results w task,
    Forall (fun idx => 0 <= idx
                       /\ idx * pages_per_batch < Z.of_nat (length all_images))
           batch_idxs ->
    tasks (mgr w) !! id = Some task ->
    quiet id w ->
    accounted id w
      (map (plain_batch_pages pages_per_batch (Z.of_nat (length all_images)))
           batch_idxs)
      (length batch_results)
      (plain_batch_loop batch_idxs id all_images pages_per_batch
         (Z.of_nat (length all_images)) total_batches context_batch_count
         batch_results w).
Proof.
  intros Hp batch_idxs.
  induction batch_idxs as [|idx rest IH]; intros acc w task Hall Hid Hq;
    cbn [plain_batch_loop map].
  - now apply accounted_done.
  - apply Forall_cons_1 in Hall as [[H0 Hlt] Hrest].
    rewrite bind_run, (checkpoint_quiet _ _ Hq). cbn [negb].
    apply (accounted_step id task) with
      (n_after := fun r => length (append_result acc r)); try assumption.
    + now apply plain_batch_pages_valid.
    + intros r Hr. now apply length_append_result.
    + reflexivity.
    + intros result w' task' Hid' Hq'. now apply (IH _ _ task').
Qed.

Lemma aligned_loop_accounted id all_images total_batches context_batch_count :
  forall batch_groups batch_idx batch_results w task,
    Forall (fun g : string * list Z => valid_pages all_images g.2) batch_groups ->
    tasks (mgr w) !! id = Some task ->
    quiet id w ->
    accounted id w (map snd batch_groups) (length batch_results)
      (aligned_batch_loop batch_groups batch_idx id all_images total_batches
         context_batch_count batch_results w).
Proof.
  intros batch_groups.
  induction batch_groups as [|[ch_id page_nums] rest IH];
    intros idx acc w task Hall Hid Hq; cbn [aligned_batch_loop map snd].
  - now apply accounted_done.
  - apply Forall_cons_1 in Hall as [Hv Hrest].
    rewrite bind_run, (checkpoint_quiet _ _ Hq). cbn [negb].
    apply (accounted_step id task) with
      (n_after := fun result =>
         length (append_result acc
                   ((fun r : Dict => <["chapter_id" := JStr ch_id]> r) <$>
                    match result with
                    | Some r => if dict_truthy r then Some r else None
                    | None => None
                    end))); try assumption.
    + intros r Hr. rewrite Hr. cbn [fmap option_fmap option_map].
      apply length_append_result, CacheProps.dict_truthy_insert.
    + reflexivity.
    + intros result w' task' Hid' Hq'. now apply (IH _ _ _ task').
Qed.

(** The page map [_build_chapter_page_map] builds holds pages that exist. *)
Lemma page_map_add_valid (bound : Z) ch_id page m :
  1 <= page <= bound ->
  Forall (fun entry : string * list Z =>
            Forall (fun p => 1 <= p <= bound) entry.2) m ->
  Forall (fun entry : string * list Z =>
            Forall (fun p => 1 <= p <= bound) entry.2)
         (page_map_add ch_id page m).
Proof.
  intros Hp. induction 1 as [|[k pages] rest Hk Hrest IH]; cbn [page_map_add].
  - repeat constructor; cbn; lia.
  - cbn [snd] in Hk. destruct (String.eqb k ch_id).
    + constructor; [|exact Hrest]. cbn [snd].
      apply Forall_app. split; [exact Hk|]. repeat constructor; lia.
    + constructor; [exact Hk|exact IH].
Qed.

Lemma chapter_page_map_from_valid (bound : Z) imgs idx m :
  0 <= idx -> idx + Z.of_nat (length imgs) <= bound ->
  Forall (fun entry : string * list Z =>
            Forall (fun p => 1 <= p <= bound) entry.2) m ->
  Forall (fun entry : string * list Z =>
            Forall (fun p => 1 <= p <= bound) entry.2)
         (chapter_page_map_from imgs idx m).
Proof.
  revert idx m. induction imgs as [|img rest IH]; intros idx m H0 Hb Hm;
    cbn [chapter_page_map_from]; [exact Hm|].
  cbn [length] in Hb. apply IH; [lia|lia|].
  destruct (truthy _); [|exact Hm]. apply page_map_add_valid; [lia|exact Hm].
Qed.

Lemma build_chapter_page_map_valid all_images :
  valid_page_map all_images (_build_chapter_page_map all_images).
Proof.
  unfold valid_page_map, _build_chapter_page_map.
  apply chapter_page_map_from_valid; [lia|lia|constructor].
Qed.

(** C8.  In the batch tier (positive batch size, pages that exist): no
    exception escapes the tier; a batch whose [analyze_batch] raises has
    the error logged and all its pages appended to the task's failed pages,
    hands on [None] and changes neither status, flags nor gates; and with
    nobody pausing or cancelling, the tier returns or waits with every one
    of its batches either counted among the results or recorded as failed,
    the failed pages being the old ones followed by the pages of the failed
    batches in order. *)
Theorem batch_failure_is_local :
  forall (id : string) (task : AnalysisTask) (all_images : list ImageInfo)
         (pages_per_batch context_batch_count : Z) (align_to_chapter : bool)
         (chapter_page_map : list (string * list Z)) (w : World),
    0 < pages_per_batch ->
    valid_page_map all_images chapter_page_map ->
    tasks (mgr w) !! id = Some task ->
    let tier := _execute_batch_analysis_layer id all_images pages_per_batch
                  context_batch_count align_to_chapter chapter_page_map in
    never_raises tier
    /\ (forall (page_nums : list Z) (batch_idx total_batches : Z)
               (batch_results : list Dict),
          valid_pages all_images page_nums ->
          single_batch_contract id all_images page_nums batch_idx total_batches
            batch_results context_batch_count w)
    /\ (quiet id w ->
        accounted id w
          (batch_layer_batches all_images pages_per_batch align_to_chapter
             chapter_page_map)
          0 (tier w)).
Proof.
  intros id task all_images ppb cbc align cpm w Hp Hmap Hid tier.
  split; [now apply batch_layer_never_raises|].
  split; [intros; now apply (single_batch_outcome id task)|].
  intros Hq. subst tier.
  unfold _execute_batch_analysis_layer, batch_layer_batches.
  destruct (align && _).
  - destruct (aligned_groups_valid _ _ _ Hp Hmap) as (groups & -> & Hvalid).
    rewrite bind_lift_inr.
    now apply (aligned_loop_accounted id all_images _ cbc groups 0 [] w task).
  - unfold floordiv. assert ((ppb =? 0) = false) as -> by lia.
    rewrite bind_lift_inr.
    apply (plain_loop_accounted id all_images ppb _ cbc Hp _ [] w task);
      [|assumption..].
    apply Forall_forall. intros idx Hidx. apply range_elem in Hidx.
    pose proof (GroupProps.ceil_bounds (Z.of_nat (length all_images))
                  ppb Hp ltac:(lia)). nia.
Qed.

End WithCollaborators.
End BatchTierProps.

(* ================================================================== *)
(** * Properties of the aggregation tier *)
(* ================================================================== *)

Module SummaryTierProps.
Import Py Eff Env Storage Analyzer TaskManager Vocabulary EffProps.

Section WithCollaborators.
Context `{Collaborators}.

Lemma generate_segment_summary_llm_failure
    (segment_id : string) (batch_results : list Json) (a : AState) :
  llm_failure_contract segment_id batch_results a.
Proof.
  intros c e Hne Hcollect prompt Hchat. subst prompt.
  unfold generate_segment_summary.
  destruct batch_results as [|b bs] eqn:E; [contradiction|]. rewrite <- E in *.
  cbn [negb]. rewrite Hcollect, bind_lift_inr.
  unfold summarize_with_llm.
  rewrite bind_run, bind_run. cbn [tick]. rewrite bind_run.
  unfold emit at 1. cbn [modify clock trace files image_files].
  rewrite Hchat. cbn [ret snd fst].
  unfold save_segment_summary, _save_json, now, tick, bind, ret, emit, log, emit,
    set_file, modify. cbn.
  destruct (disk_write _ (segment_filename segment_id)) eqn:Hw; cbn;
    do 2 eexists; exists (disk_write (S (S (S (clock a)))) (segment_filename segment_id));
    rewrite Hw; (split; [reflexivity|]); cbn;
    repeat split; try discriminate;
    rewrite ?lookup_insert_eq; try reflexivity;
    repeat (rewrite lookup_insert_ne by discriminate);
    rewrite ?lookup_insert_eq; try reflexivity.
  all: repeat rewrite <- app_assoc; reflexivity.
Qed.

Lemma group_outcome id group_idx items rest total_groups layer_name layer_idx
    summary_results w :
  group_contract id group_idx items rest total_groups layer_name layer_idx
    summary_results w.
Proof.
  intros w1 Hgo segment_id loop. subst loop.
  cbn [summary_group_loop]. rewrite bind_run, Hgo. cbn [negb].
  fold segment_id.
  unfold _notify_progress, try_except, on_an, zoom, log, emit, modify, bind, ret,
    record_events.
  cbn [fst snd an set_an mgr inbox files image_files clock trace].
  destruct (generate_segment_summary segment_id items true _)
    as [[result|e|] a'] eqn:Hgen;
    cbn [fst snd an set_an mgr inbox files image_files clock trace].
  - reflexivity.
  - rewrite <- app_assoc. reflexivity.
  - reflexivity.
Qed.

Lemma summary_loop_never_raises id total_groups layer_name layer_idx :
  forall groups summary_results,
    never_raises (summary_group_loop groups id total_groups layer_name
                    layer_idx summary_results).
Proof.
  intros groups. induction groups as [|[group_idx items] rest IH]; intros acc;
    cbn [summary_group_loop].
  - apply BatchTierProps.never_raises_ret.
  - apply BatchTierProps.never_raises_bind;
      [apply BatchTierProps.never_raises_checkpoint|intros go].
    destruct go; cbn [negb]; [|apply BatchTierProps.never_raises_ret].
    apply BatchTierProps.never_raises_bind.
    + apply BatchTierProps.never_raises_try. intros e.
      apply BatchTierProps.never_raises_bind;
        [apply BatchTierProps.never_raises_on_an_log|intros _].
      apply BatchTierProps.never_raises_ret.
    + intros acc'.
      apply BatchTierProps.never_raises_bind;
        [apply BatchTierProps.never_raises_notify|intros _]. apply IH.
Qed.

Lemma summary_layer_never_raises id input_results units_per_group layer_name
    layer_idx :
  never_raises (_execute_summary_layer id input_results units_per_group
                  layer_name layer_idx).
Proof.
  unfold _execute_summary_layer.
  destruct input_results as [|x xs] eqn:E.
  - intros w e. discriminate.
  - rewrite <- E.
    assert (Hn : 0 < Z.of_nat (length input_results)) by (subst; cbn; lia).
    unfold floordiv.
    destruct (units_per_group <=? 0) eqn:Hu.
    + assert ((Z.of_nat (length input_results) =? 0) = false) as -> by lia.
      rewrite bind_lift_inr. apply summary_loop_never_raises.
    + assert ((units_per_group =? 0) = false) as -> by lia.
      rewrite bind_lift_inr. apply summary_loop_never_raises.
Qed.

(** C6 (as the code has it).  No exception escapes an aggregation tier.  A
    group whose text-generation call raises is not dropped:
    [generate_segment_summary] catches the error, logs a warning, falls back
    to the first three batch summaries as the synopsis, saves the segment
    and returns it, and the tier appends it to its results like any other.
    Only an exception that escapes [generate_segment_summary] makes the tier
    log an error and add nothing for the group; in either case the loop
    goes on with the remaining groups. *)
Theorem failed_group_handling :
  forall (id : string) (input_results : list Json) (units_per_group : Z)
         (layer_name : string) (layer_idx : Z),
    never_raises (_execute_summary_layer id input_results units_per_group
                    layer_name layer_idx)
    /\ (forall (segment_id : string) (batch_results : list Json) (a : AState),
          llm_failure_contract segment_id batch_results a)
    /\ (forall (group_idx : Z) (items : list Json) (rest : list (Z * list Json))
               (total_groups : Z) (summary_results : list Json) (w : World),
          group_contract id group_idx items rest total_groups layer_name
            layer_idx summary_results w).
Proof.
  intros. split; [apply summary_layer_never_raises|].
  split; [apply generate_segment_summary_llm_failure|].
  intros. apply group_outcome.
Qed.

End WithCollaborators.
End SummaryTierProps.

(* ================================================================== *)
(** * Properties of the listings and lookups of the store *)
(* ================================================================== *)

Module ListingProps.
Import Py Eff Env Storage Analyzer Vocabulary EffProps StorageProps.
Import Journal StorageQueries Terms.

(** ** Texts *)

Lemma append_assoc a b c : (a +:+ b) +:+ c = a +:+ (b +:+ c).
Proof.
  induction a as [|x a IH]; [reflexivity|].
  now rewrite !append_cons, IH.
Qed.

Lemma append_empty a : a +:+ "" = a.
Proof.
  induction a as [|x a IH]; [reflexivity|]. now rewrite append_cons, IH.
Qed.

Lemma length_append a b :
  String.length (a +:+ b) = (String.length a + String.length b)%nat.
Proof.
  induction a as [|x a IH]; [reflexivity|].
  rewrite append_cons. cbn. now rewrite IH.
Qed.

Lemma starts_with_append p r : starts_with p (p +:+ r) = true.
Proof.
  induction p as [|x p IH]; [reflexivity|].
  rewrite append_cons. cbn. now rewrite Ascii.eqb_refl, IH.
Qed.

Lemma starts_with_inv p s :
  starts_with p s = true -> s = p +:+ str_drop (String.length p) s.
Proof.
  revert s. induction p as [|x p IH]; intros s Hs; [reflexivity|].
  destruct s as [|y s]; [discriminate|]. cbn in Hs.
  apply andb_true_iff in Hs as [Hxy Hs]. apply Ascii.eqb_eq in Hxy as ->.
  rewrite append_cons. cbn. f_equal. now apply IH.
Qed.

Lemma str_drop_append p r : str_drop (String.length p) (p +:+ r) = r.
Proof.
  induction p as [|x p IH]; [now destruct r|]. rewrite append_cons. exact IH.
Qed.

Lemma str_take_append a b : str_take (String.length a) (a +:+ b) = a.
Proof.
  induction a as [|x a IH]; [now destruct b|].
  rewrite append_cons. cbn. now rewrite IH.
Qed.

Lemma list_ascii_append a b :
  list_ascii_of_string (a +:+ b)
  = (list_ascii_of_string a ++ list_ascii_of_string b)%list.
Proof.
  induction a as [|x a IH]; [reflexivity|].
  rewrite append_cons. cbn. now rewrite IH.
Qed.

Lemma string_of_list_app l1 l2 :
  string_of_list_ascii (l1 ++ l2)
  = string_of_list_ascii l1 +:+ string_of_list_ascii l2.
Proof.
  induction l1 as [|x l1 IH]; [reflexivity|].
  cbn. now rewrite append_cons, IH.
Qed.

Lemma str_rev_append a b : str_rev (a +:+ b) = str_rev b +:+ str_rev a.
Proof.
  unfold str_rev. now rewrite list_ascii_append, rev_app_distr, string_of_list_app.
Qed.

Lemma str_rev_cons x a : str_rev (String x a) = str_rev a +:+ String x "".
Proof.
  change (String x a) with (String x "" +:+ a). now rewrite str_rev_append.
Qed.

Lemma ends_with_append a p : ends_with p (a +:+ p) = true.
Proof. unfold ends_with. rewrite str_rev_append. apply starts_with_append. Qed.

(** A text without the separator is one field. *)
Lemma split_from_field sep cur s :
  occurs sep s = false -> split_from sep cur s = [str_rev cur +:+ s].
Proof.
  revert cur. induction s as [|x s IH]; intros cur Hs; cbn.
  - now rewrite append_empty.
  - rewrite occurs_cons in Hs. apply orb_false_iff in Hs as [Hx Hs].
    rewrite Hx, IH by exact Hs.
    now rewrite str_rev_cons, append_assoc, append_cons, append_nil.
Qed.

Lemma split_field sep s : occurs sep s = false -> split sep s = [s].
Proof. intros Hs. unfold split. now rewrite split_from_field. Qed.

Lemma split_from_first sep cur a r :
  occurs sep a = false ->
  split_from sep cur (a +:+ String sep r)
  = (str_rev cur +:+ a) :: split_from sep "" r.
Proof.
  revert cur. induction a as [|x a IH]; intros cur Ha.
  - rewrite append_nil, append_empty. cbn. now rewrite Ascii.eqb_refl.
  - rewrite occurs_cons in Ha. apply orb_false_iff in Ha as [Hx Ha].
    rewrite append_cons. cbn. rewrite Hx, IH by exact Ha.
    now rewrite str_rev_cons, append_assoc, append_cons, append_nil.
Qed.

Lemma split_first sep a r :
  occurs sep a = false -> split sep (a +:+ String sep r) = a :: split sep r.
Proof. intros Ha. unfold split. now rewrite split_from_first. Qed.

(** ** Sorting *)

Lemma ascending_nil : ascending [].
Proof. intros i j a b _ Hi. now rewrite lookup_nil in Hi. Qed.

Lemma ascending_cons x l :
  ascending (x :: l) <-> Forall (fun y => x <= y) l /\ ascending l.
Proof.
  split.
  - intros Hl. split.
    + apply Forall_lookup. intros j y Hj.
      apply (Hl 0%nat (S j) x y); [lia|reflexivity|exact Hj].
    + intros i j a b Hij Hi Hj. apply (Hl (S i) (S j) a b); [lia|exact Hi|exact Hj].
  - intros [Hx Hl] i j a b Hij Hi Hj.
    destruct j as [|j]; [lia|]. cbn in Hj.
    destruct i as [|i]; cbn in Hi.
    + injection Hi as <-. rewrite Forall_lookup in Hx. exact (Hx j b Hj).
    + apply (Hl i j a b); [lia|exact Hi|exact Hj].
Qed.

Lemma insert_by_start_elem b' b l :
  b' ∈ insert_by_start b l <-> b' = b \/ b' ∈ l.
Proof.
  induction l as [|x l IH]; cbn.
  - rewrite list_elem_of_singleton, elem_of_nil. tauto.
  - destruct (bi_start_page b <=? bi_start_page x).
    + now rewrite elem_of_cons.
    + rewrite !elem_of_cons, IH. tauto.
Qed.

Lemma sorted_by_start_elem b l : b ∈ sorted_by_start l <-> b ∈ l.
Proof.
  induction l as [|x l IH]; cbn; [reflexivity|].
  rewrite insert_by_start_elem, elem_of_cons, IH. reflexivity.
Qed.

Lemma insert_by_start_ascending b l :
  ascending (map bi_start_page l) ->
  ascending (map bi_start_page (insert_by_start b l)).
Proof.
  induction l as [|x l IH]; cbn; intros Hl.
  - apply ascending_cons. split; [constructor|apply ascending_nil].
  - destruct (bi_start_page b <=? bi_start_page x) eqn:Hbx.
    + cbn. apply ascending_cons. split; [|exact Hl].
      apply ascending_cons in Hl as [Hx _].
      constructor; [lia|]. eapply Forall_impl; [exact Hx|]. cbn. lia.
    + cbn. apply ascending_cons in Hl as [Hx Hl].
      apply ascending_cons. split; [|now apply IH].
      apply Forall_forall. intros y Hy.
      apply list_elem_of_fmap in Hy as (b' & -> & Hb').
      apply insert_by_start_elem in Hb' as [->|Hb']; [lia|].
      rewrite Forall_forall in Hx. apply Hx.
      apply list_elem_of_fmap. eauto.
Qed.

Lemma sorted_by_start_ascending l :
  ascending (map bi_start_page (sorted_by_start l)).
Proof.
  induction l as [|x l IH]; cbn; [apply ascending_nil|].
  now apply insert_by_start_ascending.
Qed.

Lemma insert_int_elem y x l : y ∈ insert_int x l <-> y = x \/ y ∈ l.
Proof.
  induction l as [|z l IH]; cbn.
  - rewrite list_elem_of_singleton, elem_of_nil. tauto.
  - destruct (x <? z).
    + now rewrite elem_of_cons.
    + rewrite !elem_of_cons, IH. tauto.
Qed.

Lemma sorted_ints_elem y l : y ∈ sorted_ints l <-> y ∈ l.
Proof.
  induction l as [|x l IH]; cbn; [reflexivity|].
  rewrite insert_int_elem, elem_of_cons, IH. reflexivity.
Qed.

Lemma insert_int_ascending x l : ascending l -> ascending (insert_int x l).
Proof.
  induction l as [|z l IH]; cbn; intros Hl.
  - apply ascending_cons. split; [constructor|apply ascending_nil].
  - destruct (x <? z) eqn:Hxz.
    + apply ascending_cons. split; [|exact Hl].
      apply ascending_cons in Hl as [Hz _].
      constructor; [lia|]. eapply Forall_impl; [exact Hz|]. cbn. lia.
    + apply ascending_cons in Hl as [Hz Hl].
      apply ascending_cons. split; [|now apply IH].
      apply Forall_forall. intros y Hy.
      apply insert_int_elem in Hy as [->|Hy]; [lia|].
      rewrite Forall_forall in Hz. now apply Hz.
Qed.

Lemma sorted_ints_ascending l : ascending (sorted_ints l).
Proof.
  induction l as [|x l IH]; cbn; [apply ascending_nil|].
  now apply insert_int_ascending.
Qed.

(** ** The names of the batch files *)

Lemma not_a_digit_slash : not_a_digit "/".
Proof. unfold not_a_digit. repeat constructor. Qed.

(** The name below [batches/] of the file of a page range. *)
Lemma batch_filename_base start_page end_page :
  batch_filename start_page end_page
  = "batches/" +:+ bi_filename (batch_entry start_page end_page).
Proof. unfold batch_filename, batch_entry. cbn [bi_filename]. reflexivity. Qed.

Lemma occurs_slash_batch_base start_page end_page :
  occurs "/" (bi_filename (batch_entry start_page end_page)) = false.
Proof.
  cbn [bi_filename batch_entry]. rewrite !occurs_app.
  rewrite !occurs_format_03d by (apply not_a_digit_slash || reflexivity).
  reflexivity.
Qed.

(** What the loop of [list_batches] reads off the name of a range file. *)
Lemma batch_name_parsed start_page end_page :
  let filename := bi_filename (batch_entry start_page end_page) in
  starts_with "batch_" filename && ends_with ".json" filename = true
  /\ split "_" (str_take (String.length filename - 11) (str_drop 6 filename))
     = [format_03d start_page; format_03d end_page].
Proof.
  cbn [bi_filename batch_entry]. split.
  - rewrite starts_with_append. cbn [andb].
    rewrite <- !append_assoc. apply ends_with_append.
  - change 6%nat with (String.length "batch_"). rewrite str_drop_append.
    replace (String.length _ - 11)%nat
      with (String.length (format_03d start_page +:+ "_" +:+ format_03d end_page)).
    2:{ rewrite !length_append. cbn [String.length]. lia. }
    rewrite <- !append_assoc, str_take_append.
    rewrite append_assoc.
    change ("_" +:+ format_03d end_page) with (String "_" (format_03d end_page)).
    rewrite split_first
      by (apply occurs_format_03d; [apply not_a_digit_underscore|reflexivity]).
    rewrite split_field
      by (apply occurs_format_03d; [apply not_a_digit_underscore|reflexivity]).
    reflexivity.
Qed.

Section WithCollaborators.
Context `{Collaborators} `{Removal}.

(** What [os.listdir] answers: the names of the files directly below the
    directory. *)
Lemma listdir_spec dir s :
  exists names,
    listdir dir s = (Val names, record_events s [EvListDir dir])
    /\ (forall base, occurs "/" base = false ->
          is_Some (files s !! (dir +:+ "/" +:+ base)) -> base ∈ names)
    /\ (forall base, base ∈ names -> is_Some (files s !! (dir +:+ "/" +:+ base))).
Proof.
  assert (Hname : forall base, dir +:+ "/" +:+ base = (dir +:+ "/") +:+ base).
  { intros base. symmetry. apply append_assoc. }
  unfold listdir, bind, emit, modify, gets, ret. cbn.
  eexists. split; [reflexivity|]. cbn [files]. split.
  - intros base Hbase [c Hc]. apply list_elem_of_omap.
    exists (dir +:+ "/" +:+ base, c). split.
    + now apply elem_of_map_to_list.
    + cbn [fst]. rewrite Hname, starts_with_append, str_drop_append.
      now rewrite split_field.
  - intros base Hbase. apply list_elem_of_omap in Hbase as ([name c] & Hin & Hbase).
    cbn [fst] in Hbase. apply elem_of_map_to_list in Hin.
    destruct (starts_with _ name) eqn:Hs; [|discriminate].
    apply starts_with_inv in Hs.
    destruct (split _ _) as [|? [|? ?]]; try discriminate.
    injection Hbase as <-. rewrite Hname, <- Hs. eauto.
Qed.

(** What [list_batches] answers, entry by entry. *)
Lemma list_batches_entries (s : AState) :
  exists batches : list BatchInfo,
    list_batches s = (Val batches, record_events s [EvListDir "batches"])
    /\ (forall start_page end_page,
          is_Some (files s !! batch_filename start_page end_page) ->
          batch_entry start_page end_page ∈ batches)
    /\ (forall b, b ∈ batches ->
          is_Some (files s !! ("batches/" +:+ bi_filename b))).
Proof.
  destruct (listdir_spec "batches" s) as (names & Hrun & Hall & Hfile).
  unfold list_batches. rewrite bind_run, Hrun. unfold ret.
  eexists. split; [reflexivity|]. split.
  - intros start_page end_page Hstored.
    apply sorted_by_start_elem, list_elem_of_omap.
    exists (bi_filename (batch_entry start_page end_page)). split.
    + apply Hall; [apply occurs_slash_batch_base|].
      change (is_Some (files s !! batch_filename start_page end_page)).
      exact Hstored.
    + destruct (batch_name_parsed start_page end_page) as [-> ->].
      now rewrite !int_of_format_03d.
  - intros b Hb. apply sorted_by_start_elem, list_elem_of_omap in Hb
      as (filename & Hin & Hb).
    destruct (_ && _); [|discriminate].
    destruct (split _ _) as [|p0 [|p1 ?]]; try discriminate.
    destruct (int_of_str p0), (int_of_str p1); try discriminate.
    injection Hb as <-. cbn [bi_filename]. exact (Hfile _ Hin).
Qed.

Lemma list_batches_ascending (s s' : AState) (batches : list BatchInfo) :
  list_batches s = (Val batches, s') -> ascending (map bi_start_page batches).
Proof.
  unfold list_batches. rewrite bind_run.
  destruct (listdir "batches" s) as [[names|e|] s1]; try discriminate.
  unfold ret. intros [= <- _]. apply sorted_by_start_ascending.
Qed.

(** X1.  [list_batches()] reads the directory and nothing else, and never
    fails.  Its answer is in ascending order of [start_page]; it has the
    entry of every page range whose file is in the store, with the numbers
    read back from the file name; and every entry is a file of the
    store. *)
Theorem list_batches_lists_the_store :
  forall s : AState,
    exists batches : list BatchInfo,
      list_batches s = (Val batches, record_events s [EvListDir "batches"])
      /\ ascending (map bi_start_page batches)
      /\ (forall start_page end_page,
            is_Some (files s !! batch_filename start_page end_page) ->
            batch_entry start_page end_page ∈ batches)
      /\ (forall b, b ∈ batches ->
            is_Some (files s !! ("batches/" +:+ bi_filename b))).
Proof.
  intros s. destruct (list_batches_entries s) as (batches & Hrun & Hall & Hfile).
  exists batches. split; [exact Hrun|]. split; [|split; assumption].
  exact (list_batches_ascending _ _ _ Hrun).
Qed.

(** ** Saving and loading *)

Lemma load_json_run filename dflt (s : AState) :
  exists r s',
    _load_json filename dflt s = (Val r, s')
    /\ files s' = files s /\ image_files s' = image_files s
    /\ clock s' = clock s
    /\ r = match files s !! filename with
           | Some (FJson j) => j
           | _ => default (JDict ∅) dflt
           end.
Proof.
  unfold _load_json, bind, emit, log, emit, modify, gets, ret. cbn.
  destruct (files s !! filename) as [[j|]|]; cbn; eauto 10.
Qed.

(** X2.  A record that was saved is the record that is loaded: when the dump
    goes through, [load_batch_analysis] answers the dict
    [save_batch_analysis] left to its caller, which is never empty; when
    the file could not be opened, the store is as it was; when the dump
    broke off, the range reads as [{}]. *)
Theorem save_then_load_batch :
  forall (start_page end_page : Z) (analysis : Dict) (s : AState),
    let outcome :=
      disk_write (S (clock s)) (batch_filename start_page end_page) in
    exists (analysis' : Dict) (s' : AState),
      save_batch_analysis start_page end_page analysis s
        = (Val (match outcome with Written => true | _ => false end, analysis'),
           s')
      /\ match outcome with
         | Written =>
             (load_batch_analysis start_page end_page s').1 = Val (JDict analysis')
             /\ truthy (JDict analysis') = true
         | NotOpened => files s' = files s
         | Truncated =>
             (load_batch_analysis start_page end_page s').1 = Val (JDict ∅)
         end.
Proof.
  intros start_page end_page analysis s outcome. subst outcome.
  unfold save_batch_analysis, _save_json, now, tick, bind, ret, emit, log, emit,
    set_file, modify. cbn.
  destruct (disk_write (S (clock s)) (batch_filename start_page end_page));
    cbn; do 2 eexists; (split; [reflexivity|]).
  - split.
    + unfold load_batch_analysis, _load_json, bind, emit, log, emit, modify,
        gets, ret. cbn. now rewrite lookup_insert_eq.
    + apply CacheProps.dict_truthy_insert.
  - reflexivity.
  - unfold load_batch_analysis, _load_json, bind, emit, log, emit, modify,
      gets, ret. cbn. now rewrite lookup_insert_eq.
Qed.

(** ** [find_batch_for_page] *)

Lemma find_batch_loop_run batches page_num (s : AState) :
  exists r s',
    find_batch_loop batches page_num s = (Val r, s')
    /\ files s' = files s
    /\ (r = JNull
        \/ exists b, b ∈ batches
             /\ bi_start_page b <= page_num <= bi_end_page b
             /\ r = match files s
                         !! batch_filename (bi_start_page b) (bi_end_page b) with
                    | Some (FJson j) => j
                    | _ => JDict ∅
                    end).
Proof.
  induction batches as [|b rest IH]; cbn [find_batch_loop].
  - exists JNull, s. auto.
  - destruct (_ && _) eqn:Hcover.
    + destruct (load_json_run (batch_filename (bi_start_page b) (bi_end_page b))
                  None s) as (r & s' & Hrun & Hfiles & _ & _ & Hr).
      exists r, s'. split; [exact Hrun|]. split; [exact Hfiles|]. right.
      exists b. split; [apply elem_of_cons; auto|]. split; [lia|exact Hr].
    + destruct IH as (r & s' & Hrun & Hfiles & Hr).
      exists r, s'. split; [exact Hrun|]. split; [exact Hfiles|].
      destruct Hr as [->|(b' & Hb' & Hcov & Hr)]; [auto|].
      right. exists b'. split; [apply elem_of_cons; auto|auto].
Qed.

(** X3.  [find_batch_for_page(page_num)] never fails and never writes.  In a
    store whose batch records carry the range of their file, an answer
    that is a non-empty record is a record whose page range holds
    [page_num]. *)
Theorem find_batch_for_page_covers :
  forall (page_num : Z) (s : AState),
    batch_store_consistent s ->
    exists (r : Json) (s' : AState),
      find_batch_for_page page_num s = (Val r, s')
      /\ files s' = files s
      /\ forall d : Dict,
           r = JDict d -> d ≠ ∅ ->
           exists start_page end_page : Z,
             start_page <= page_num <= end_page
             /\ d !! "page_range"
                = Some (JDict (page_range_dict start_page end_page)).
Proof.
  intros page_num s Hstore.
  destruct (list_batches_entries s) as (batches & Hlist & _ & _).
  destruct (find_batch_loop_run batches page_num
              (record_events s [EvListDir "batches"]))
    as (r & s' & Hrun & Hfiles & Hr).
  exists r, s'. unfold find_batch_for_page. rewrite bind_run, Hlist.
  split; [exact Hrun|]. split; [exact Hfiles|].
  intros d -> Hd. destruct Hr as [Hr|(b & _ & Hcover & Hr)]; [discriminate|].
  exists (bi_start_page b), (bi_end_page b). split; [exact Hcover|].
  cbn [files record_events] in Hr.
  destruct (files s !! batch_filename (bi_start_page b) (bi_end_page b))
    as [[j|]|] eqn:Hfile; try (injection Hr as ->; congruence).
  subst j. exact (Hstore _ _ _ Hfile).
Qed.

(** ** [list_pages] *)

Lemma listed_page_small n : -99 <= n <= 999 -> listed_page n = Some n.
Proof.
  intros Hn.
  assert (Hall : forallb (fun k => bool_decide
                            (listed_page (Z.of_nat k - 99) = Some (Z.of_nat k - 99)))
                         (seq 0 (Z.to_nat 1099)) = true) by (vm_compute; reflexivity).
  rewrite forallb_forall in Hall.
  specialize (Hall (Z.to_nat (n + 99))).
  replace (Z.of_nat (Z.to_nat (n + 99)) - 99) with n in Hall by lia.
  apply bool_decide_eq_true in Hall; [exact Hall|].
  apply in_seq. lia.
Qed.

Lemma listed_page_large n : 1000 <= n <= 9999 -> listed_page n = Some (n / 10).
Proof.
  intros Hn.
  assert (Hall : forallb (fun k => bool_decide
                            (listed_page (Z.of_nat k + 1000)
                             = Some ((Z.of_nat k + 1000) / 10)))
                         (seq 0 (Z.to_nat 9000)) = true) by (vm_compute; reflexivity).
  rewrite forallb_forall in Hall.
  specialize (Hall (Z.to_nat (n - 1000))).
  replace (Z.of_nat (Z.to_nat (n - 1000)) + 1000) with n in Hall by lia.
  apply bool_decide_eq_true in Hall; [exact Hall|].
  apply in_seq. lia.
Qed.

Lemma not_a_digit_slash_page n :
  occurs "/" ("page_" +:+ format_03d n +:+ ".json") = false.
Proof.
  rewrite !occurs_app.
  rewrite occurs_format_03d by (apply not_a_digit_slash || reflexivity).
  reflexivity.
Qed.

Lemma page_listed (s : AState) n :
  is_Some (files s !! page_filename n) ->
  forall v, listed_page n = Some v ->
  exists pages s', list_pages s = (Val pages, s') /\ v ∈ pages.
Proof.
  intros Hfile v Hv.
  destruct (listdir_spec "pages" s) as (names & Hrun & Hall & _).
  unfold list_pages. rewrite bind_run, Hrun. unfold ret.
  do 2 eexists. split; [reflexivity|].
  apply sorted_ints_elem, list_elem_of_omap.
  exists ("page_" +:+ format_03d n +:+ ".json"). split.
  - apply Hall; [apply not_a_digit_slash_page|]. exact Hfile.
  - rewrite starts_with_append. cbn [andb].
    rewrite <- append_assoc, ends_with_append. exact Hv.
Qed.

(** X4.  [list_pages()] never fails and never writes, and answers in ascending
    order.  A stored page from -99 to 999 is listed under its number.  A
    stored page from 1000 to 9999 is listed under its first three digits:
    the number is read off [filename[5:8]]. *)
Theorem list_pages_reads_three_characters :
  forall s : AState,
    exists (pages : list Z) (s' : AState),
      list_pages s = (Val pages, s')
      /\ files s' = files s
      /\ ascending pages
      /\ (forall n, -99 <= n <= 999 ->
            is_Some (files s !! page_filename n) -> n ∈ pages)
      /\ (forall n, 1000 <= n <= 9999 ->
            is_Some (files s !! page_filename n) -> n / 10 ∈ pages).
Proof.
  intros s.
  destruct (listdir_spec "pages" s) as (names & Hrun & _ & _).
  assert (Hlist : exists pages, list_pages s
                    = (Val pages, record_events s [EvListDir "pages"])
                    /\ ascending pages).
  { unfold list_pages. rewrite bind_run, Hrun. unfold ret.
    eexists. split; [reflexivity|]. apply sorted_ints_ascending. }
  destruct Hlist as (pages & Hpages & Hasc).
  exists pages, (record_events s [EvListDir "pages"]).
  split; [exact Hpages|]. split; [reflexivity|]. split; [exact Hasc|].
  split; intros n Hn Hfile.
  - destruct (page_listed s n Hfile n (listed_page_small n Hn))
      as (pages' & s' & Hrun' & Hin).
    rewrite Hpages in Hrun'. now injection Hrun' as <- _.
  - destruct (page_listed s n Hfile (n / 10) (listed_page_large n Hn))
      as (pages' & s' & Hrun' & Hin).
    rewrite Hpages in Hrun'. now injection Hrun' as <- _.
Qed.

(** ** Removal *)

Lemma delete_file_run filename failed (l : Logged AState) :
  exists ok l',
    delete_file filename failed l = (Val ok, l')
    /\ (forall f, f <> filename ->
          files (under l') !! f = files (under l) !! f)
    /\ (ok = true <-> files (under l') !! filename = None)
    /\ (ok = false ->
        files (under l') = files (under l)
        /\ exists e, journal l' = journal l ++ [NoteLog ERROR (failed e)]).
Proof.
  unfold delete_file, on_under, zoom, note_log, note, drop_file, tick, bind,
    gets, modify, ret. cbn.
  destruct (files (under l) !! filename) as [c|] eqn:Hfile; cbn.
  - destruct (disk_remove (clock (under l)) filename) as [e|]; cbn;
      do 2 eexists; (split; [reflexivity|]); cbn.
    + split; [reflexivity|]. split; [|eauto].
      split; [discriminate|]. rewrite Hfile. discriminate.
    + split; [intros f Hf; now rewrite lookup_delete_ne|].
      split; [|discriminate]. split; [|reflexivity].
      intros _. apply lookup_delete_eq.
  - do 2 eexists. split; [reflexivity|]. cbn. split; [reflexivity|].
    split; [tauto|discriminate].
Qed.

(** X5.  [delete_batch_analysis(start_page, end_page)] never fails and touches
    no other file.  Its answer is [True] exactly when the range has no
    file afterwards; the range then reads as [{}] and has left the
    listing.  When it answers [False] the store is as it was and the error
    is logged. *)
Theorem delete_batch_analysis_outcome :
  forall (start_page end_page : Z) (l : Logged AState),
    let filename := batch_filename start_page end_page in
    exists (ok : bool) (l' : Logged AState),
      delete_batch_analysis start_page end_page l = (Val ok, l')
      /\ (forall f, f <> filename ->
            files (under l') !! f = files (under l) !! f)
      /\ (ok = true <-> files (under l') !! filename = None)
      /\ (ok = true ->
          (load_batch_analysis start_page end_page (under l')).1
            = Val (JDict ∅)
          /\ forall batches s',
               list_batches (under l') = (Val batches, s') ->
               batch_entry start_page end_page ∉ batches)
      /\ (ok = false ->
          files (under l') = files (under l)
          /\ exists e,
               journal l' = journal l ++ [NoteLog ERROR (DeleteBatchFailed e)]).
Proof.
  intros start_page end_page l filename.
  destruct (delete_file_run filename DeleteBatchFailed l)
    as (ok & l' & Hrun & Hother & Hok & Hfail).
  exists ok, l'. split; [exact Hrun|]. split; [exact Hother|].
  split; [exact Hok|]. split; [|exact Hfail].
  intros Hgone. apply Hok in Hgone. split.
  - destruct (load_json_run filename None (under l'))
      as (r & s' & Hload & _ & _ & _ & Hr).
    unfold load_batch_analysis. fold filename. rewrite Hload.
    cbn. now rewrite Hr, Hgone.
  - intros batches s' Hlist Hin.
    destruct (list_batches_entries (under l')) as (batches' & Hlist' & _ & Hfile).
    rewrite Hlist in Hlist'. injection Hlist' as <- _.
    apply Hfile in Hin.
    change ("batches/" +:+ bi_filename (batch_entry start_page end_page))
      with filename in Hin.
    rewrite Hgone in Hin. now destruct Hin.
Qed.

(** ** Continuation data *)

(** X6.  [load_continuation_all()] reports data whenever [script.json] does
    not hold [null]: a script that was never saved is loaded as [{}],
    which is not [None].  So on a store without continuation files the
    record is [{script: {}, pages: [], config: {}, has_data: True}].  The
    only failure is an [AttributeError], when [pages.json] holds a value
    that is truthy and no object. *)
Theorem load_continuation_all_has_data :
  forall s : AState,
    files s !! "continuation/script.json" <> Some (FJson JNull) ->
    (exists (s' : AState) (j : Json),
        load_continuation_all s = (Raise AttributeError, s')
        /\ files s !! "continuation/pages.json" = Some (FJson j)
        /\ truthy j = true
        /\ forall pd : Dict, j <> JDict pd)
    \/ (exists (d : Dict) (s' : AState),
          load_continuation_all s = (Val d, s')
          /\ files s' = files s
          /\ d !! "has_data" = Some (JBool true)
          /\ (files s !! "continuation/script.json" = None ->
              d !! "script" = Some (JDict ∅))
          /\ (files s !! "continuation/pages.json" = None ->
              d !! "pages" = Some (JList []))).
Proof.
  intros s Hscript.
  unfold load_continuation_all, load_continuation_script,
    load_continuation_pages, load_continuation_config.
  destruct (load_json_run "continuation/script.json" None s)
    as (script & s1 & Hrun1 & Hf1 & _ & _ & Hr1).
  destruct (load_json_run "continuation/pages.json" None s1)
    as (pages_data & s2 & Hrun2 & Hf2 & _ & _ & Hr2).
  destruct (load_json_run "continuation/config.json" None s2)
    as (config & s3 & Hrun3 & Hf3 & _ & _ & Hr3).
  rewrite bind_run, Hrun1, bind_run, Hrun2, bind_run, Hrun3.
  assert (Hnot_null : script <> JNull).
  { rewrite Hr1. destruct (files s !! _) as [[j|]|]; cbn; congruence. }
  rewrite Hf1 in Hr2.
  assert (Hscript_none : files s !! "continuation/script.json" = None ->
                         script = JDict ∅).
  { intros Hnone. now rewrite Hr1, Hnone. }
  assert (Hpages_none : files s !! "continuation/pages.json" = None ->
                        pages_data = JDict ∅).
  { intros Hnone. now rewrite Hr2, Hnone. }
  assert (Hpages_file : (forall pd, pages_data <> JDict pd) ->
                        files s !! "continuation/pages.json"
                        = Some (FJson pages_data)).
  { intros Hno. rewrite Hr2 in *.
    destruct (files s !! "continuation/pages.json") as [[j|]|];
      cbn in *; [reflexivity|now destruct (Hno ∅)..]. }
  assert (Hfiles : files s3 = files s) by congruence.
  clear Hrun1 Hrun2 Hrun3 Hr1 Hr2 Hr3 Hf1 Hf2 Hf3 Hscript.
  destruct (truthy pages_data) eqn:Htruthy.
  - destruct pages_data as [| | | | |pd]; cbn [get lift_exn];
      try (left; do 2 eexists; split; [reflexivity|];
           split; [apply Hpages_file; discriminate|];
           split; [exact Htruthy|discriminate]).
    right. unfold bind, ret.
    destruct script; try congruence; cbv beta iota; do 2 eexists;
      (split; [reflexivity|]); (split; [exact Hfiles|]);
      (split; [apply lookup_insert_eq|]);
      (split; [intros Hnone; apply Hscript_none in Hnone;
               first [discriminate Hnone|rewrite Hnone];
               repeat (rewrite lookup_insert_ne by (intros [=]));
               apply lookup_insert_eq|]);
      intros Hnone; apply Hpages_none in Hnone; injection Hnone as ->;
      discriminate Htruthy.
  - right. unfold bind, ret.
    destruct script; try congruence; cbv beta iota; do 2 eexists;
      (split; [reflexivity|]); (split; [exact Hfiles|]);
      (split; [apply lookup_insert_eq|]);
      (split; [intros Hnone; apply Hscript_none in Hnone;
               first [discriminate Hnone|rewrite Hnone];
               repeat (rewrite lookup_insert_ne by (intros [=]));
               apply lookup_insert_eq|]);
      intros _; repeat (rewrite lookup_insert_ne by (intros [=]));
      apply lookup_insert_eq.
Qed.

End WithCollaborators.

End ListingProps.

(* ================================================================== *)
(** * Properties of one batch analysis *)
(* ================================================================== *)

Module BatchRunProps.
Import Py Eff Env Storage Analyzer Vocabulary EffProps StorageProps.
Import Journal StorageQueries Terms.

Section WithCollaborators.
Context `{Collaborators}.

(** ** What reads the store only *)

Lemma reads_only_ret {A} (a : A) : reads_only (ret a).
Proof. intros s. split; [reflexivity|discriminate]. Qed.

Lemma reads_only_raise {A} (e : Exn) : reads_only (raise e : M AState A).
Proof. intros s. split; [reflexivity|discriminate]. Qed.

Lemma reads_only_lift_exn {A} (r : Exn + A) : reads_only (lift_exn r).
Proof. destruct r; [apply reads_only_raise|apply reads_only_ret]. Qed.

Lemma reads_only_bind {A B} (c : M AState A) (k : A -> M AState B) :
  reads_only c -> (forall a, reads_only (k a)) -> reads_only (bind c k).
Proof.
  intros Hc Hk s. rewrite bind_run. destruct (Hc s) as [Hf Hh].
  destruct (c s) as [[a|e|] s1]; cbn in *.
  - destruct (Hk a s1) as [Hf' Hh']. split; [congruence|exact Hh'].
  - split; [exact Hf|discriminate].
  - now destruct Hh.
Qed.

Lemma reads_only_emit e : reads_only (emit e).
Proof. intros s. split; [reflexivity|discriminate]. Qed.

Lemma reads_only_log lvl site : reads_only (log lvl site).
Proof. apply reads_only_emit. Qed.

Lemma reads_only_tick : reads_only tick.
Proof. intros s. split; [reflexivity|discriminate]. Qed.

Lemma reads_only_gets {A} (f : AState -> A) : reads_only (gets f).
Proof. intros s. split; [reflexivity|discriminate]. Qed.

Lemma reads_only_load_json filename dflt : reads_only (_load_json filename dflt).
Proof.
  intros s. unfold _load_json, bind, emit, log, emit, modify, gets, ret. cbn.
  destruct (files s !! filename) as [[j|]|]; split; (reflexivity || discriminate).
Qed.

Lemma reads_only_list_batches : reads_only list_batches.
Proof. intros s. split; [reflexivity|discriminate]. Qed.

Ltac reads_only_step :=
  first
    [ apply reads_only_ret | apply reads_only_raise | apply reads_only_lift_exn
    | apply reads_only_log | apply reads_only_emit | apply reads_only_tick
    | apply reads_only_gets | apply reads_only_load_json
    | apply reads_only_list_batches
    | apply reads_only_bind; [|intros ?]
    | match goal with
      | |- reads_only (match ?x with _ => _ end) => destruct x
      end ].

Lemma reads_only_get_image page_num image_info :
  reads_only (_get_image_from_info page_num image_info).
Proof. unfold _get_image_from_info. cbv zeta. repeat reads_only_step. Qed.

Lemma reads_only_load_images page_nums i image_infos :
  reads_only (load_images page_nums i image_infos).
Proof.
  revert i. induction page_nums as [|p rest IH]; intros i; cbn [load_images];
    [apply reads_only_ret|].
  apply reads_only_bind; [apply reads_only_get_image|intros img].
  apply reads_only_bind; [apply IH|intros; apply reads_only_ret].
Qed.

Lemma reads_only_build_batch_context start_page previous_results :
  reads_only (_build_batch_context start_page previous_results).
Proof.
  unfold _build_batch_context, load_batch_analysis. cbv zeta.
  repeat reads_only_step.
Qed.

Lemma raises_dry_bind {A B} (c : M AState A) (k : A -> M AState B) :
  reads_only c -> (forall a, raises_dry (k a)) -> raises_dry (bind c k).
Proof.
  intros Hc Hk s. rewrite bind_run. destruct (Hc s) as [Hf Hh].
  destruct (c s) as [[a|e|] s1]; cbn in *.
  - destruct (Hk a s1) as [Hf' Hr]. split; [congruence|exact Hr].
  - split; [exact Hf|eauto].
  - now destruct Hh.
Qed.

(** ** A VLM that fails *)

(** X7.  When the VLM client fails on the batch, a forced [analyze_batch]
    raises and no file has been written: the batch record and the page
    records are saved only after the client has answered. *)
Theorem analyze_batch_vlm_failure_writes_nothing :
  forall (p : Z) (ps : list Z) (images : option (list Image))
         (image_infos : list (option ImageInfo)) (previous_results : list Dict)
         (s : AState),
    (forall t imgs context,
        exists e, vlm_analyze_batch t imgs (list_min p ps) context = inl e) ->
    let run := analyze_batch (p :: ps) images image_infos true previous_results s in
    files run.2 = files s /\ exists e, run.1 = Raise e.
Proof.
  intros p ps images image_infos previous_results s Hvlm.
  cbn zeta. revert s. change (raises_dry (analyze_batch (p :: ps) images
                                image_infos true previous_results)).
  unfold analyze_batch. cbv zeta. cbn [negb].
  apply raises_dry_bind;
    [destruct images; [apply reads_only_ret|apply reads_only_load_images]
    |intros imgs].
  apply raises_dry_bind; [apply reads_only_build_batch_context|intros context].
  apply raises_dry_bind; [apply reads_only_log|intros _].
  apply raises_dry_bind; [apply reads_only_log|intros _].
  apply raises_dry_bind; [apply reads_only_tick|intros t].
  apply raises_dry_bind; [apply reads_only_emit|intros _].
  destruct (Hvlm t imgs context) as [e ->]. rewrite bind_lift_inl.
  intros s. split; [reflexivity|eauto].
Qed.

(** ** What a computed batch looks like *)

Lemma list_min_le x xs : list_min x xs <= x.
Proof.
  unfold list_min. revert x. induction xs as [|y ys IH]; intros x; cbn; [lia|].
  specialize (IH (Z.min x y)). lia.
Qed.

Lemma list_max_ge x xs : x <= list_max x xs.
Proof.
  unfold list_max. revert x. induction xs as [|y ys IH]; intros x; cbn; [lia|].
  specialize (IH (Z.max x y)). lia.
Qed.

Lemma list_min_bound x xs q : q ∈ x :: xs -> list_min x xs <= q.
Proof.
  revert x. induction xs as [|y ys IH]; intros x Hq.
  - apply list_elem_of_singleton in Hq as ->. apply list_min_le.
  - change (list_min x (y :: ys)) with (list_min (Z.min x y) ys).
    apply elem_of_cons in Hq as [->|Hq].
    + pose proof (list_min_le (Z.min x y) ys). lia.
    + apply elem_of_cons in Hq as [->|Hq].
      * pose proof (list_min_le (Z.min x y) ys). lia.
      * apply IH. apply elem_of_cons. auto.
Qed.

Lemma list_max_bound x xs q : q ∈ x :: xs -> q <= list_max x xs.
Proof.
  revert x. induction xs as [|y ys IH]; intros x Hq.
  - apply list_elem_of_singleton in Hq as ->. apply list_max_ge.
  - change (list_max x (y :: ys)) with (list_max (Z.max x y) ys).
    apply elem_of_cons in Hq as [->|Hq].
    + pose proof (list_max_ge (Z.max x y) ys). lia.
    + apply elem_of_cons in Hq as [->|Hq].
      * pose proof (list_max_ge (Z.max x y) ys). lia.
      * apply IH. apply elem_of_cons. auto.
Qed.

Lemma list_min_elem x xs : list_min x xs ∈ x :: xs.
Proof.
  revert x. induction xs as [|y ys IH]; intros x; [apply list_elem_of_here|].
  change (list_min x (y :: ys)) with (list_min (Z.min x y) ys).
  specialize (IH (Z.min x y)). apply elem_of_cons in IH as [->|IH].
  - destruct (Z.min_spec x y) as [[_ ->]|[_ ->]];
      [apply list_elem_of_here|apply list_elem_of_further, list_elem_of_here].
  - do 2 apply list_elem_of_further. exact IH.
Qed.

Lemma list_max_elem x xs : list_max x xs ∈ x :: xs.
Proof.
  revert x. induction xs as [|y ys IH]; intros x; [apply list_elem_of_here|].
  change (list_max x (y :: ys)) with (list_max (Z.max x y) ys).
  specialize (IH (Z.max x y)). apply elem_of_cons in IH as [->|IH].
  - destruct (Z.max_spec x y) as [[_ ->]|[_ ->]];
      [apply list_elem_of_further, list_elem_of_here|apply list_elem_of_here].
  - do 2 apply list_elem_of_further. exact IH.
Qed.

Lemma save_page_analysis_result page_num (analysis : Dict) (s : AState) :
  exists (ok : bool) (s' : AState),
    save_page_analysis page_num analysis s
    = (Val (ok, <["saved_at" := JStr (isoformat (clock s))]> analysis), s').
Proof.
  unfold save_page_analysis, _save_json, now, tick, bind, ret, emit, log, emit,
    set_file, modify. cbn.
  destruct (disk_write _ _); cbn; eauto.
Qed.

(** The page entries come back from the fan-out marked. *)
Lemma save_pages_marked pages start_page end_page stamp :
  forall (s s' : AState) (pages' : list Json),
    save_pages pages start_page end_page (JStr stamp) s = (Val pages', s') ->
    Forall (page_marked start_page end_page stamp) pages'.
Proof.
  induction pages as [|page_data rest IH]; intros s s' pages' Hrun.
  - injection Hrun as <- _. constructor.
  - cbn [save_pages] in Hrun.
    apply bind_val_inv in Hrun as (page' & s1 & Hpage & Hrun).
    apply bind_val_inv in Hrun as (rest' & s2 & Hrest & Hrun).
    injection Hrun as <- _. constructor; [|exact (IH _ _ _ Hrest)].
    destruct page_data as [| | | | |pd]; try discriminate Hpage.
    destruct (truthy (dget pd "page_number" JNull)) eqn:Hnum.
    + assert (Hsaved : exists n, page'
                = JDict (<["saved_at" := JStr (isoformat (clock s))]>
                           (<["analyzed_at" := JStr stamp]>
                              (<["batch_range" :=
                                   JDict (page_range_dict start_page end_page)]>
                                 (<["from_batch" := JBool true]> pd))))
                /\ as_int (dget pd "page_number" JNull) = Some n).
      { destruct (dget pd "page_number" JNull) as [|b|z|?|?|?];
          try discriminate Hpage; cbn [as_int] in Hpage;
          apply bind_val_inv in Hpage as (r & s0 & Hsave & Hpage);
          injection Hpage as <- _;
          match type of Hsave with
          | save_page_analysis ?n ?d _ = _ =>
              destruct (save_page_analysis_result n d s) as (ok & s'' & Hres)
          end;
          rewrite Hres in Hsave; injection Hsave as <- _; cbn; eauto. }
      destruct Hsaved as (n & -> & _). cbn [page_marked]. intros _.
      split; [|split];
        repeat (rewrite lookup_insert_ne by (intros [=]));
        apply lookup_insert_eq.
    + injection Hpage as <- _. cbn. rewrite Hnum. discriminate.
Qed.

(** X8.  A forced [analyze_batch] that returns, returns a record whose
    [page_range] is the least and the greatest of the page numbers (two of
    them, bounding all), whose [analysis_mode] is ["batch"], and whose page
    entries with a page number carry the mark [from_batch], the range of
    the batch and the [analyzed_at] of the record. *)
Theorem analyze_batch_result_shape :
  forall (p : Z) (ps : list Z) (images : option (list Image))
         (image_infos : list (option ImageInfo)) (previous_results : list Dict)
         (s s' : AState) (result : Dict),
    analyze_batch (p :: ps) images image_infos true previous_results s
      = (Val result, s') ->
    let start_page := list_min p ps in
    let end_page := list_max p ps in
    (forall q, q ∈ p :: ps -> start_page <= q <= end_page)
    /\ start_page ∈ p :: ps /\ end_page ∈ p :: ps
    /\ result !! "page_range"
       = Some (JDict (page_range_dict start_page end_page))
    /\ result !! "analysis_mode" = Some (JStr "batch")
    /\ exists stamp : string,
         result !! "analyzed_at" = Some (JStr stamp)
         /\ forall pages : list Json,
              result !! "pages" = Some (JList pages) ->
              Forall (page_marked start_page end_page stamp) pages.
Proof.
  intros p ps images image_infos previous_results s s' result Hrun
    start_page end_page.
  split; [intros q Hq; split;
          [now apply list_min_bound|now apply list_max_bound]|].
  split; [apply list_min_elem|]. split; [apply list_max_elem|].
  unfold analyze_batch in Hrun. cbv zeta in Hrun. cbn [negb] in Hrun.
  fold start_page end_page in Hrun.
  apply bind_val_inv in Hrun as (imgs & s1 & _ & Hrun).
  apply bind_val_inv in Hrun as (context & s2 & _ & Hrun).
  apply bind_val_inv in Hrun as (? & s3 & _ & Hrun).
  apply bind_val_inv in Hrun as (? & s4 & _ & Hrun).
  apply bind_val_inv in Hrun as (t & s5 & _ & Hrun).
  apply bind_val_inv in Hrun as (? & s6 & _ & Hrun).
  apply bind_val_inv in Hrun as (answer & s7 & _ & Hrun).
  apply bind_val_inv in Hrun as (? & s8 & _ & Hrun).
  apply bind_val_inv in Hrun as (? & s9 & _ & Hrun).
  apply bind_val_inv in Hrun as (stamp & s10 & _ & Hrun).
  apply bind_val_inv in Hrun as (saved & s11 & Hsave & Hrun).
  destruct (CacheProps.save_batch_analysis_result start_page end_page
              (<["analysis_mode" := JStr "batch"]>
                 (<["analyzed_at" := JStr stamp]> answer)) s10)
    as (ok & s11' & Hsaved).
  rewrite Hsaved in Hsave. injection Hsave as <- _. cbn [snd] in Hrun.
  set (record := <["page_range" := _]> _) in Hrun.
  assert (Hrange : record !! "page_range"
                   = Some (JDict (page_range_dict start_page end_page)))
    by apply lookup_insert_eq.
  assert (Hmode : record !! "analysis_mode" = Some (JStr "batch")).
  { unfold record. repeat (rewrite lookup_insert_ne by (intros [=])).
    apply lookup_insert_eq. }
  assert (Hat : record !! "analyzed_at" = Some (JStr stamp)).
  { unfold record. repeat (rewrite lookup_insert_ne by (intros [=])).
    apply lookup_insert_eq. }
  destruct (truthy (dget record "pages" JNull)) eqn:Hpages.
  - apply bind_val_inv in Hrun as (items & s12 & _ & Hrun).
    apply bind_val_inv in Hrun as (items' & s13 & Hfan & Hrun).
    injection Hrun as <- _.
    rewrite !lookup_insert_ne by (intros [=]).
    split; [exact Hrange|]. split; [exact Hmode|].
    exists stamp. split; [exact Hat|].
    intros pages. rewrite lookup_insert_eq. intros [= <-].
    exact (save_pages_marked _ _ _ _ _ _ _ Hfan).
  - injection Hrun as <- _.
    split; [exact Hrange|]. split; [exact Hmode|].
    exists stamp. split; [exact Hat|].
    intros pages Hstored. unfold dget in Hpages. rewrite Hstored in Hpages.
    destruct pages; [constructor|discriminate Hpages].
Qed.

(** ** What the fan-out writes *)

Lemma writes_only_ret {A} names (a : A) : writes_only names (ret a).
Proof. intros s f _. reflexivity. Qed.

Lemma writes_only_raise {A} names (e : Exn) :
  writes_only names (raise e : M AState A).
Proof. intros s f _. reflexivity. Qed.

Lemma writes_only_bind {A B} names (c : M AState A) (k : A -> M AState B) :
  writes_only names c -> (forall a, writes_only names (k a)) ->
  writes_only names (bind c k).
Proof.
  intros Hc Hk s f Hf. rewrite bind_run. specialize (Hc s f Hf).
  destruct (c s) as [[a|e|] s1]; cbn in *; [|exact Hc..].
  now rewrite (Hk a s1 f Hf).
Qed.

Lemma writes_only_save_page page_num analysis :
  writes_only is_page_file (save_page_analysis page_num analysis).
Proof.
  intros s f Hf.
  assert (Hne : page_filename page_num <> f).
  { intros <-. apply Hf. now exists page_num. }
  unfold save_page_analysis, _save_json, now, tick, bind, ret, emit, log, emit,
    set_file, modify. cbn.
  destruct (disk_write _ _); cbn; rewrite ?lookup_insert_ne by exact Hne;
    reflexivity.
Qed.

Lemma writes_only_save_pages pages start_page end_page analyzed_at :
  writes_only is_page_file (save_pages pages start_page end_page analyzed_at).
Proof.
  induction pages as [|page_data rest IH]; cbn [save_pages];
    [apply writes_only_ret|].
  apply writes_only_bind.
  - destruct page_data; try apply writes_only_raise.
    destruct (truthy _); [|apply writes_only_ret].
    destruct (dget d "page_number" JNull); cbn [as_int];
      try apply writes_only_raise;
      (apply writes_only_bind;
       [apply writes_only_save_page|intros; apply writes_only_ret]).
  - intros page'. apply writes_only_bind; [exact IH|intros; apply writes_only_ret].
Qed.

Lemma batch_file_is_no_page_file start_page end_page :
  ~ is_page_file (batch_filename start_page end_page).
Proof. intros [n Hn]. symmetry in Hn. now apply page_filename_not_batch in Hn. Qed.

(** ** Computing, then asking again *)

(** What a forced run leaves in the range file when the disk takes the
    record. *)
Lemma forced_run_stored p ps images image_infos previous_results
    (s s1 : AState) (r1 : Dict) :
  let filename := batch_filename (list_min p ps) (list_max p ps) in
  (forall t, disk_write t filename = Written) ->
  analyze_batch (p :: ps) images image_infos true previous_results s
    = (Val r1, s1) ->
  exists record : Dict,
    files s1 !! filename = Some (FJson (JDict record))
    /\ (forall k, k <> "pages" -> record !! k = r1 !! k)
    /\ dict_truthy record = true.
Proof.
  intros filename Hdisk Hrun.
  unfold analyze_batch in Hrun. cbv zeta in Hrun. cbn [negb] in Hrun.
  fold filename in Hrun.
  apply bind_val_inv in Hrun as (imgs & s01 & _ & Hrun).
  apply bind_val_inv in Hrun as (context & s2 & _ & Hrun).
  apply bind_val_inv in Hrun as (? & s3 & _ & Hrun).
  apply bind_val_inv in Hrun as (? & s4 & _ & Hrun).
  apply bind_val_inv in Hrun as (t & s5 & _ & Hrun).
  apply bind_val_inv in Hrun as (? & s6 & _ & Hrun).
  apply bind_val_inv in Hrun as (answer & s7 & _ & Hrun).
  apply bind_val_inv in Hrun as (? & s8 & _ & Hrun).
  apply bind_val_inv in Hrun as (? & s9 & _ & Hrun).
  apply bind_val_inv in Hrun as (stamp & s10 & _ & Hrun).
  apply bind_val_inv in Hrun as (saved & s11 & Hsave & Hrun).
  assert (Hstored : files s11 !! filename = Some (FJson (JDict saved.2))
                    /\ dict_truthy saved.2 = true).
  { revert Hsave.
    unfold save_batch_analysis, _save_json, now, tick, bind, ret, emit, log,
      emit, set_file, modify. cbn. fold filename. rewrite Hdisk. cbn.
    intros [= <- <-]. cbn. split; [apply lookup_insert_eq|].
    apply CacheProps.dict_truthy_insert. }
  destruct Hstored as [Hfile Htruthy].
  exists saved.2. destruct (truthy (dget saved.2 "pages" JNull)).
  - apply bind_val_inv in Hrun as (items & s12 & Hitems & Hrun).
    apply bind_val_inv in Hrun as (items' & s13 & Hfan & Hrun).
    injection Hrun as <- <-.
    assert (s12 = s11) as ->.
    { destruct (dget saved.2 "pages" JNull); try discriminate Hitems.
      now injection Hitems. }
    split; [|split; [|exact Htruthy]].
    + pose proof (writes_only_save_pages items (list_min p ps) (list_max p ps)
                    (JStr stamp) s11 filename
                    (batch_file_is_no_page_file _ _)) as Hframe.
      rewrite Hfan in Hframe. cbn [snd] in Hframe. now rewrite Hframe.
    + intros k Hk. now rewrite lookup_insert_ne by congruence.
  - injection Hrun as <- <-. auto.
Qed.

Lemma cached_run p ps images image_infos previous_results (s : AState)
    (cached : Dict) :
  let start_page := list_min p ps in
  let end_page := list_max p ps in
  files s !! batch_filename start_page end_page = Some (FJson (JDict cached)) ->
  dict_truthy cached = true ->
  parse_error_flag cached = false ->
  analyze_batch (p :: ps) images image_infos false previous_results s
  = (Val cached,
     record_events s [EvRead (batch_filename start_page end_page);
                      EvLog DEBUG (BatchCacheHit start_page end_page)]).
Proof.
  intros start_page end_page Hfile Htruthy Hflag.
  unfold analyze_batch. fold start_page end_page.
  unfold load_batch_analysis, _load_json, bind, emit, modify, gets, log, ret, emit.
  cbn. rewrite Hfile. cbn. rewrite Htruthy.
  unfold parse_error_flag in Hflag. rewrite Hflag. cbn.
  unfold record_events. now rewrite <- app_assoc.
Qed.

(** X9.  At most one computation per range: once [analyze_batch] has returned
    a record that is not flagged [parse_error], on a disk that takes the
    range file, a call that is not forced returns the stored record without
    calling the VLM client and without writing.  The stored record is the
    returned one up to [pages], whose entries were marked after the
    dump. *)
Theorem analyze_batch_then_cached :
  forall (p : Z) (ps : list Z) (images images' : option (list Image))
         (image_infos image_infos' : list (option ImageInfo))
         (previous_results previous_results' : list Dict) (force : bool)
         (s s1 : AState) (r1 : Dict),
    let start_page := list_min p ps in
    let end_page := list_max p ps in
    (forall t, disk_write t (batch_filename start_page end_page) = Written) ->
    analyze_batch (p :: ps) images image_infos force previous_results s
      = (Val r1, s1) ->
    parse_error_flag r1 = false ->
    exists r2 : Dict,
      analyze_batch (p :: ps) images' image_infos' false previous_results' s1
        = (Val r2,
           record_events s1 [EvRead (batch_filename start_page end_page);
                             EvLog DEBUG (BatchCacheHit start_page end_page)])
      /\ forall k, k <> "pages" -> r2 !! k = r1 !! k.
Proof.
  intros p ps images images' image_infos image_infos' previous_results
    previous_results' force s s1 r1 start_page end_page Hdisk Hrun Hflag.
  assert (Hstored : exists record : Dict,
             files s1 !! batch_filename start_page end_page
               = Some (FJson (JDict record))
             /\ (forall k, k <> "pages" -> record !! k = r1 !! k)
             /\ dict_truthy record = true).
  { destruct force; [exact (forced_run_stored _ _ _ _ _ _ _ _ Hdisk Hrun)|].
    unfold analyze_batch in Hrun. cbv zeta in Hrun. cbn [negb] in Hrun.
    fold start_page end_page in Hrun.
    apply bind_val_inv in Hrun as (cached & s0 & Hload & Hrun).
    destruct (ListingProps.load_json_run
                (batch_filename start_page end_page) None s)
      as (r & s0' & Hload' & Hfiles & _ & _ & Hr).
    unfold load_batch_analysis in Hload. rewrite Hload' in Hload.
    injection Hload as -> ->.
    assert (Hforced : forall r s',
               analyze_batch (p :: ps) images image_infos true
                 previous_results s0 = (Val r, s') ->
               exists record : Dict,
                 files s' !! batch_filename start_page end_page
                   = Some (FJson (JDict record))
                 /\ (forall k, k <> "pages" -> record !! k = r !! k)
                 /\ dict_truthy record = true).
    { intros r s' Hforced.
      exact (forced_run_stored _ _ _ _ _ _ _ _ Hdisk Hforced). }
    destruct (truthy cached) eqn:Htruthy; [|exact (Hforced _ _ Hrun)].
    destruct cached as [| | | | |c]; try discriminate Hrun.
    destruct (truthy (dget c "parse_error" JNull)) eqn:Hc;
      cbn [negb] in Hrun; [exact (Hforced _ _ Hrun)|].
    apply bind_val_inv in Hrun as (? & s2 & Hlog & Hrun).
    injection Hrun as <- <-. injection Hlog as _ <-.
    exists c. cbn [files]. rewrite Hfiles.
    destruct (files s !! batch_filename start_page end_page) as [[j|]|];
      cbn in Hr;
      [subst j; auto|injection Hr as ->; discriminate Htruthy..]. }
  destruct Hstored as (record & Hfile & Hsame & Htruthy).
  exists record. split; [|exact Hsame].
  apply cached_run; [exact Hfile|exact Htruthy|].
  unfold parse_error_flag in *. unfold dget in *.
  now rewrite Hsame by discriminate.
Qed.

End WithCollaborators.
End BatchRunProps.

(* ================================================================== *)
(** * Properties of one segment summary *)
(* ================================================================== *)

Module SegmentProps.
Import Py Eff Env Storage Analyzer Vocabulary EffProps StorageProps.
Import Journal StorageQueries Terms.

Section WithCollaborators.
Context `{Collaborators}.

(** X10.  A stored summary is handed back as it is: a call of
    [generate_segment_summary] that is not forced, for a segment whose file
    holds a truthy value, returns that value whatever batch results it
    was given, reads the file and logs, and neither asks the chat model nor
    writes. *)
Theorem segment_summary_cache_hit :
  forall (segment_id : string) (b : Json) (bs : list Json) (s : AState)
         (cached : Json),
    files s !! segment_filename segment_id = Some (FJson cached) ->
    truthy cached = true ->
    generate_segment_summary segment_id (b :: bs) false s
    = (Val cached,
       record_events s [EvRead (segment_filename segment_id);
                        EvLog DEBUG (SegmentCacheHit segment_id)]).
Proof.
  intros segment_id b bs s cached Hfile Htruthy.
  unfold generate_segment_summary. cbv zeta. cbn [negb].
  unfold load_segment_summary, _load_json, bind, log, emit, modify, gets, ret.
  cbn [files image_files clock trace fst snd]. rewrite Hfile.
  cbn [files image_files clock trace fst snd]. rewrite Htruthy.
  unfold record_events. cbn [files image_files clock trace fst snd].
  now rewrite <- app_assoc.
Qed.

Lemma save_segment_summary_run segment_id (summary : Dict) (s : AState) :
  let record := <["segment_id" := JStr segment_id]>
                  (<["saved_at" := JStr (isoformat (clock s))]> summary) in
  exists (ok : bool) (s' : AState),
    save_segment_summary segment_id summary s = (Val (ok, record), s')
    /\ (disk_write (S (clock s)) (segment_filename segment_id) = Written ->
        files s' !! segment_filename segment_id = Some (FJson (JDict record))).
Proof.
  unfold save_segment_summary, _save_json, now, tick, bind, ret, emit, log, emit,
    set_file, modify. cbn.
  destruct (disk_write _ _); cbn; do 2 eexists; (split; [reflexivity|]);
    cbn; try discriminate.
  intros _. apply lookup_insert_eq.
Qed.

(** X11.  The identity of a segment: whatever the chat model answered, even an
    object with a [segment_id] of its own, a forced
    [generate_segment_summary] that returns, returns an object with the
    [segment_id] it was asked for, stamped with [generated_at] and
    [saved_at]; and that object is what the segment file holds when the
    disk takes it. *)
Theorem segment_summary_identity :
  forall (segment_id : string) (batch_results : list Json) (s s' : AState)
         (r : Json),
    batch_results <> [] ->
    generate_segment_summary segment_id batch_results true s = (Val r, s') ->
    exists segment : Dict,
      r = JDict segment
      /\ segment !! "segment_id" = Some (JStr segment_id)
      /\ is_Some (segment !! "generated_at")
      /\ is_Some (segment !! "saved_at")
      /\ ((forall t, disk_write t (segment_filename segment_id) = Written) ->
          files s' !! segment_filename segment_id
            = Some (FJson (JDict segment))).
Proof.
  intros segment_id batch_results s s' r Hne Hrun.
  unfold generate_segment_summary in Hrun.
  destruct batch_results as [|b bs]; [contradiction|].
  cbv zeta in Hrun. cbn [negb] in Hrun.
  apply bind_val_inv in Hrun as (c & s1 & _ & Hrun).
  apply bind_val_inv in Hrun as (answer & s2 & _ & Hrun).
  apply bind_val_inv in Hrun as (segment_data & s3 & _ & Hrun).
  apply bind_val_inv in Hrun as (stamp & s4 & _ & Hrun).
  apply bind_val_inv in Hrun as (saved & s5 & Hsave & Hrun).
  injection Hrun as <- <-.
  destruct (save_segment_summary_run segment_id
              (<["generated_at" := JStr stamp]> segment_data) s4)
    as (ok & s5' & Hsaved & Hfile).
  rewrite Hsaved in Hsave. injection Hsave as <- <-.
  eexists. split; [reflexivity|]. cbn [snd].
  split; [apply lookup_insert_eq|]. split; [|split].
  - rewrite !lookup_insert_ne by (intros [=]). rewrite lookup_insert_eq. eauto.
  - rewrite lookup_insert_ne by (intros [=]). rewrite lookup_insert_eq. eauto.
  - intros Hdisk. apply Hfile, Hdisk.
Qed.

(** ** The span of a segment *)

Lemma collect_one_span acc batch acc' :
  collect_one acc batch = inr acc' ->
  exists batch_start batch_end,
    batch_span batch = Some (batch_start, batch_end)
    /\ c_start_page acc'
       = Some (match c_start_page acc with
               | None => batch_start
               | Some sp => Z.min sp batch_start
               end)
    /\ c_end_page acc' = Z.max (c_end_page acc) batch_end
    /\ exists events,
         all_key_events acc' = (all_key_events acc ++ events)%list.
Proof.
  unfold collect_one, batch_span.
  destruct batch as [| | | | |b]; try discriminate.
  destruct (dget b "page_range" (JDict ∅)) as [| | | | |pr]; try discriminate.
  destruct (as_int (dget pr "start" (JInt 0))) as [bs|]; [|discriminate].
  destruct (as_int (dget pr "end" (JInt 0))) as [be|]; [|discriminate].
  destruct (iterate _) as [e|events]; [discriminate|].
  intros [= <-]. cbn. eauto 10.
Qed.

Lemma collect_span batch_results :
  forall acc c,
    collect acc batch_results = inr c ->
    (forall sp, c_start_page acc = Some sp ->
                exists sp', c_start_page c = Some sp' /\ sp' <= sp)
    /\ c_end_page acc <= c_end_page c
    /\ (batch_results <> [] -> is_Some (c_start_page c))
    /\ Forall (fun batch =>
                 exists batch_start batch_end,
                   batch_span batch = Some (batch_start, batch_end)
                   /\ (forall sp, c_start_page c = Some sp -> sp <= batch_start)
                   /\ batch_end <= c_end_page c)
              batch_results.
Proof.
  induction batch_results as [|batch rest IH]; intros acc c Hc.
  - injection Hc as <-. split; [eauto with lia|]. split; [lia|].
    split; [congruence|constructor].
  - cbn [collect] in Hc.
    destruct (collect_one acc batch) as [e|acc'] eqn:Hone; [discriminate|].
    apply collect_one_span in Hone
      as (bs & be & Hspan & Hstart & Hend & _).
    destruct (IH acc' c Hc) as (Hlow & Hhigh & _ & Hall).
    destruct (Hlow _ Hstart) as (sp' & Hsp' & Hle).
    split; [|split; [lia|split; [eauto|]]].
    + intros sp Hsp. exists sp'. split; [exact Hsp'|].
      rewrite Hsp in Hle. lia.
    + constructor; [|exact Hall].
      exists bs, be. split; [exact Hspan|]. split; [|lia].
      intros sp Hsp. rewrite Hsp' in Hsp. injection Hsp as <-.
      destruct (c_start_page acc); lia.
Qed.

(** X12.  With the chat model down, a forced [generate_segment_summary] over a
    group of batch records either raises while it collects them, before
    anything is written, or returns a segment whose [page_range] holds the
    page range of every record of the group, whose [batch_count] is the
    size of the group and which keeps at most ten key events. *)
Theorem segment_span_covers_group :
  forall (segment_id : string) (batch_results : list Json) (s : AState),
    batch_results <> [] ->
    (forall t prompt system, exists e, chat_generate t prompt system = inl e) ->
    match generate_segment_summary segment_id batch_results true s with
    | (Val r, s') =>
        exists (segment : Dict) (start_page end_page : Z) (events : list Json),
          r = JDict segment
          /\ segment !! "page_range"
             = Some (JDict (page_range_dict start_page end_page))
          /\ Forall (fun batch =>
                       exists batch_start batch_end,
                         batch_span batch = Some (batch_start, batch_end)
                         /\ start_page <= batch_start
                         /\ batch_end <= end_page)
                    batch_results
          /\ segment !! "batch_count"
             = Some (JInt (Z.of_nat (length batch_results)))
          /\ segment !! "key_events" = Some (JList events)
          /\ (length events <= 10)%nat
    | (Raise e, s') => s' = s
    | (Hang, _) => False
    end.
Proof.
  intros segment_id batch_results s Hne Hchat.
  unfold generate_segment_summary.
  destruct batch_results as [|b bs] eqn:E; [contradiction|]. rewrite <- E in *.
  cbv zeta. cbn [negb].
  destruct (collect nothing_collected batch_results) as [e|c] eqn:Hcollect;
    [reflexivity|].
  rewrite bind_lift_inr.
  destruct (collect_span _ _ _ Hcollect) as (_ & _ & Hsome & Hall).
  destruct (Hsome Hne) as [start_page Hstart]. rewrite Hstart. cbn [default].
  unfold summarize_with_llm.
  rewrite bind_run, bind_run. cbn [tick]. rewrite bind_run.
  unfold emit at 1. cbn [modify clock trace files image_files].
  match goal with
  | |- context [chat_generate ?t ?prompt ?system] =>
      destruct (Hchat t prompt system) as [e ->]
  end.
  cbn [ret snd fst].
  unfold save_segment_summary, _save_json, now, tick, bind, ret, emit, log, emit,
    set_file, modify. cbn.
  destruct (disk_write _ (segment_filename segment_id)); cbn;
    unfold initial_segment_data;
    (eexists; exists start_page, (c_end_page c), (take 10 (all_key_events c));
     split; [reflexivity|];
     split; [repeat (rewrite lookup_insert_ne by (intros [=]));
             apply lookup_insert_eq|];
     split; [eapply Forall_impl; [exact Hall|];
             intros batch (bs' & be' & Hspan & Hlow & Hhigh);
             exists bs', be'; split; [exact Hspan|];
             split; [now apply Hlow|exact Hhigh]|];
     split; [repeat (rewrite lookup_insert_ne by (intros [=]));
             apply lookup_insert_eq|];
     split; [repeat (rewrite lookup_insert_ne by (intros [=]));
             apply lookup_insert_eq|];
     rewrite length_take; lia).
Qed.

End WithCollaborators.
End SegmentProps.

(* ================================================================== *)
(** * Properties of the life of a task *)
(* ================================================================== *)

Module LifecycleProps.
Import Py Eff Env Storage Analyzer TaskManager Vocabulary Tactics EffProps.
Import Journal StorageQueries Terms.

Section WithCollaborators.
Context `{Collaborators}.

(** ** The controller and the storage *)

(** A request served by the controller writes no file and calls no
    model. *)
Lemma serve_storage r w :
  files (an (serve r w).2) = files (an w)
  /\ model_calls (an (serve r w).2) = model_calls (an w).
Proof.
  unfold model_calls.
  destruct r; cbn [serve snd]; run_op;
    repeat (case_match; simplify_eq;
            cbn [fst snd an set_mgr set_an files trace]);
    rewrite ?List.filter_app; cbn; rewrite ?app_nil_r; auto.
Qed.

Lemma serve_all_storage rs w w' :
  serve_all rs w = (Val tt, w') ->
  files (an w') = files (an w) /\ model_calls (an w') = model_calls (an w).
Proof.
  revert w. induction rs as [|r rs IH]; intros w Hrun.
  - injection Hrun as <-. auto.
  - unfold serve_all in *. cbn [for_each] in Hrun. rewrite bind_run in Hrun.
    replace (serve r w) with (Val tt, (serve r w).2) in Hrun
      by (destruct r; reflexivity).
    destruct (IH _ Hrun) as [Hf Hm]. destruct (serve_storage r w) as [Hf' Hm'].
    split; congruence.
Qed.

(** ** The checkpoint *)

Lemma checkpoint_outcome :
  forall (id : string) (w : World),
    let run := _check_pause_and_cancel id w in
    match run.1 with
    | Val go => cancel_flag run.2 id = negb go
    | Hang => _pause_events (mgr run.2) !! id = Some false
    | Raise _ => False
    end
    /\ inbox run.2 = tail (inbox w)
    /\ files (an run.2) = files (an w)
    /\ model_calls (an run.2) = model_calls (an w).
Proof.
  intros id w. cbn zeta. unfold _check_pause_and_cancel.
  rewrite bind_run. cbn [gets]. rewrite bind_run. cbn [modify].
  set (i := default _ (head (inbox w))).
  set (w0 := set_inbox (tail (inbox w)) w).
  assert (H0 : inbox w0 = tail (inbox w) /\ files (an w0) = files (an w)
               /\ model_calls (an w0) = model_calls (an w)) by auto.
  clearbody w0. destruct H0 as (Hin & Hf & Hm).
  rewrite bind_run.
  destruct (ControllerProps.serve_all_run id (at_entry i) w0)
    as (w1 & Hrun1 & Hin1 & _).
  rewrite Hrun1. destruct (serve_all_storage _ _ _ Hrun1) as [Hf1 Hm1].
  rewrite bind_run. cbn [gets].
  destruct (cancel_flag w1 id) eqn:Hflag1.
  { cbn. rewrite Hflag1. repeat split; congruence. }
  rewrite bind_run.
  destruct (ControllerProps.serve_all_run id (before_wait i) w1)
    as (w2 & Hrun2 & Hin2 & _).
  rewrite Hrun2. destruct (serve_all_storage _ _ _ Hrun2) as [Hf2 Hm2].
  rewrite bind_run. cbn [gets]. rewrite bind_run.
  assert (Hend : forall w3,
             inbox w3 = tail (inbox w) -> files (an w3) = files (an w) ->
             model_calls (an w3) = model_calls (an w) ->
             let run := (let* _ := serve_all (after_wake i) in
                         let* w' := gets (fun w' => w') in
                         if cancel_flag w' id then ret false else ret true) w3 in
             match run.1 with
             | Val go => cancel_flag run.2 id = negb go
             | Hang => _pause_events (mgr run.2) !! id = Some false
             | Raise _ => False
             end
             /\ inbox run.2 = tail (inbox w)
             /\ files (an run.2) = files (an w)
             /\ model_calls (an run.2) = model_calls (an w)).
  { intros w3 Hin3 Hf3 Hm3. cbn zeta. rewrite bind_run.
    destruct (ControllerProps.serve_all_run id (after_wake i) w3)
      as (w4 & Hrun4 & Hin4 & _).
    rewrite Hrun4. destruct (serve_all_storage _ _ _ Hrun4) as [Hf4 Hm4].
    rewrite bind_run. cbn [gets].
    destruct (cancel_flag w4 id) eqn:Hflag4; cbn; rewrite Hflag4;
      repeat split; congruence. }
  destruct (_pause_events (mgr w2) !! id) as [[|]|] eqn:Hgate; cbn [ret].
  - apply Hend; congruence.
  - rewrite bind_run.
    destruct (ControllerProps.serve_all_run id (while_blocked i) w2)
      as (w3 & Hrun3 & Hin3 & _).
    rewrite Hrun3. destruct (serve_all_storage _ _ _ Hrun3) as [Hf3 Hm3].
    rewrite bind_run. cbn [gets].
    destruct (_pause_events (mgr w3) !! id) as [[|]|] eqn:Hgate3;
      cbn [ret hang]; try (apply Hend; congruence).
    cbn. repeat split; congruence.
  - apply Hend; congruence.
Qed.

(** X13.  [_check_pause_and_cancel] never raises, and its answer is sound for
    the tables it leaves: it answers [True] only with the cancel flag of
    the task down, [False] only with the flag up, and it stays blocked only
    on a cleared gate.  It takes the requests of one checkpoint off the
    inbox, writes no file and calls no model. *)
Theorem checkpoint_is_sound :
  forall (id : string) (w : World),
    let run := _check_pause_and_cancel id w in
    match run.1 with
    | Val go => cancel_flag run.2 id = negb go
    | Hang => _pause_events (mgr run.2) !! id = Some false
    | Raise _ => False
    end
    /\ inbox run.2 = tail (inbox w)
    /\ files (an run.2) = files (an w)
    /\ model_calls (an run.2) = model_calls (an w).
Proof.
  intros id w.
  destruct (checkpoint_outcome id w) as (Hanswer & Hinbox & Hfiles & Hcalls).
  split; [exact Hanswer|]. split; [exact Hinbox|].
  split; [exact Hfiles|exact Hcalls].
Qed.

(** ** A cancelled task *)

Lemma checkpoint_of_cancelled id w :
  cancelled_for_good id w ->
  exists w',
    _check_pause_and_cancel id w = (Val false, w')
    /\ files (an w') = files (an w)
    /\ model_calls (an w') = model_calls (an w).
Proof.
  intros Hg.
  destruct (ControllerProps.checkpoint_cancelled id id w Hg)
    as [_ Hfalse]. destruct (Hfalse eq_refl) as (w' & Hrun).
  destruct (checkpoint_outcome id w) as (_ & _ & Hfiles & Hcalls).
  rewrite Hrun in Hfiles, Hcalls. eauto.
Qed.

Lemma aligned_batch_groups_defined chapter_page_map pages_per_batch :
  0 < pages_per_batch ->
  exists groups, aligned_batch_groups chapter_page_map pages_per_batch = inr groups.
Proof.
  intros Hppb. induction chapter_page_map as [|[ch pages] rest IH];
    cbn [aligned_batch_groups]; [eauto|].
  unfold range_step. destruct (pages_per_batch =? 0) eqn:Hz; [lia|].
  destruct (pages_per_batch <? 0) eqn:Hn; [lia|].
  destruct IH as [more ->]. eauto.
Qed.

(** X14.  Once a task is cancelled for good, its tiers do nothing more: the
    batch tier and the summary tier return without a result, without
    writing a file and without calling a model. *)
Theorem cancelled_tiers_call_no_model :
  forall (id : string) (all_images : list ImageInfo)
         (pages_per_batch context_batch_count : Z) (align_to_chapter : bool)
         (chapter_page_map : list (string * list Z))
         (input_results : list Json) (units_per_group : Z)
         (layer_name : string) (layer_idx : Z) (w : World),
    cancelled_for_good id w ->
    0 < pages_per_batch ->
    (exists w',
        _execute_batch_analysis_layer id all_images pages_per_batch
          context_batch_count align_to_chapter chapter_page_map w
        = (Val [], w')
        /\ files (an w') = files (an w)
        /\ model_calls (an w') = model_calls (an w))
    /\ (exists w',
          _execute_summary_layer id input_results units_per_group layer_name
            layer_idx w
          = (Val [], w')
          /\ files (an w') = files (an w)
          /\ model_calls (an w') = model_calls (an w)).
Proof.
  intros id all_images pages_per_batch context_batch_count align_to_chapter
    chapter_page_map input_results units_per_group layer_name layer_idx w
    Hg Hppb.
  destruct (checkpoint_of_cancelled id w Hg) as (w' & Hcheck & Hfiles & Hcalls).
  split.
  - unfold _execute_batch_analysis_layer.
    destruct (align_to_chapter && _).
    + destruct (aligned_batch_groups_defined chapter_page_map pages_per_batch
                  Hppb) as (groups & ->).
      rewrite bind_lift_inr.
      destruct groups as [|[ch pages] rest]; cbn [aligned_batch_loop].
      * exists w. auto.
      * rewrite bind_run, Hcheck. cbn [negb]. exists w'. auto.
    + unfold floordiv. destruct (pages_per_batch =? 0) eqn:Hz; [lia|].
      rewrite bind_lift_inr.
      destruct (range _) as [|idx rest]; cbn [plain_batch_loop].
      * exists w. auto.
      * rewrite bind_run, Hcheck. cbn [negb]. exists w'. auto.
  - unfold _execute_summary_layer.
    destruct input_results as [|x xs] eqn:E.
    + unfold on_an, zoom, log, emit, modify, bind, ret. cbn.
      eexists. split; [reflexivity|]. cbn. split; [reflexivity|].
      unfold model_calls. cbn. rewrite List.filter_app. cbn. apply app_nil_r.
    + rewrite <- E. cbv zeta.
      set (u := if units_per_group <=? 0 then _ else _).
      unfold floordiv. destruct (u =? 0) eqn:Hz.
      { exfalso. subst u. apply Z.eqb_eq in Hz. rewrite E in Hz.
        cbn [length] in Hz.
        destruct (units_per_group <=? 0) eqn:Hu; [lia|].
        apply Z.leb_gt in Hu. lia. }
      rewrite bind_lift_inr.
      destruct (indexed_groups _ _ _) as [|[idx items] rest];
        cbn [summary_group_loop].
      * exists w. auto.
      * rewrite bind_run, Hcheck. cbn [negb]. exists w'. auto.
Qed.

(** ** One task in flight per book *)

Lemma find_none_all {A} (f : A -> bool) (l : list A) :
  (forall x, f x = false) -> List.find f l = None.
Proof.
  intros Hf. induction l as [|x l IH]; [reflexivity|]. cbn. now rewrite Hf.
Qed.

Lemma no_running_sibling (m : Manager) id book :
  (forall tid t, tasks m !! tid = Some t -> status t <> RUNNING) ->
  running_sibling m id book = None.
Proof.
  intros Hnone. unfold running_sibling. apply find_none_all. intros tid.
  destruct (tasks m !! tid) as [t|] eqn:Ht; [|reflexivity].
  rewrite (bool_decide_eq_false_2 _ (Hnone _ _ Ht)). apply andb_false_r.
Qed.

(** X15.  The check of [start_task] looks at Running tasks only, and
    [resume_task] does not look at the book at all: when a Running task is
    paused, another task of its book started, and the first one resumed,
    all three requests are accepted and both tasks of the book are
    Running. *)
Theorem resume_bypasses_book_check :
  forall (w : World) (a b : string) (ta tb : AnalysisTask) (gate : bool),
    tasks (mgr w) !! a = Some ta ->
    tasks (mgr w) !! b = Some tb ->
    a <> b ->
    book_id tb = book_id ta ->
    status ta = RUNNING ->
    (forall tid t, tasks (mgr w) !! tid = Some t -> status t = RUNNING ->
                   tid = a) ->
    _pause_events (mgr w) !! a = Some gate ->
    exists w1 w2 w3 : World,
      pause_task a w = (Val true, w1)
      /\ start_task b w1 = (Val true, w2)
      /\ resume_task a w2 = (Val true, w3)
      /\ status_of w3 a = Some RUNNING
      /\ status_of w3 b = Some RUNNING
      /\ (book_id <$> tasks (mgr w3) !! a) = (book_id <$> tasks (mgr w3) !! b).
Proof.
  intros w a b ta tb gate Ha Hb Hab Hbook Hrun Honly Hgate.
  assert (Htb : status tb <> RUNNING).
  { intros Hs. apply Hab. symmetry. exact (Honly _ _ Hb Hs). }
  (* pause *)
  assert (Hpause : exists w1,
             pause_task a w = (Val true, w1)
             /\ tasks (mgr w1) = alter (with_status PAUSED) a (tasks (mgr w))
             /\ _pause_events (mgr w1) = <[a := false]> (_pause_events (mgr w))).
  { unfold pause_task. rewrite bind_run. cbn [gets].
    rewrite Ha, Hrun. cbn [bool_decide negb]. run_op. rewrite Hgate.
    eexists. split; [reflexivity|]. cbn. auto. }
  destruct Hpause as (w1 & Hpause & Htasks1 & Hgates1).
  (* start *)
  assert (Hb1 : tasks (mgr w1) !! b = Some tb).
  { rewrite Htasks1, lookup_alter_ne by exact Hab. exact Hb. }
  assert (Hidle : running_sibling (mgr w1) b (book_id tb) = None).
  { apply no_running_sibling. intros tid t Ht. rewrite Htasks1 in Ht.
    destruct (decide (tid = a)) as [->|Hne].
    - rewrite lookup_alter_eq, Ha in Ht. injection Ht as <-. discriminate.
    - rewrite lookup_alter_ne in Ht by congruence.
      intros Hs. apply Hne. exact (Honly _ _ Ht Hs). }
  assert (Hstart : exists w2,
             start_task b w1 = (Val true, w2)
             /\ tasks (mgr w2) !! a = Some (with_status PAUSED ta)
             /\ (exists tb', tasks (mgr w2) !! b = Some tb'
                             /\ status tb' = RUNNING /\ book_id tb' = book_id tb)
             /\ _pause_events (mgr w2) = _pause_events (mgr w1)).
  { unfold start_task. rewrite bind_run. cbn [gets].
    rewrite Hb1, (bool_decide_eq_false_2 _ Htb), Hidle. run_op.
    eexists. split; [reflexivity|]. cbn. split; [|split; [|reflexivity]].
    - rewrite !lookup_alter_ne by congruence.
      now rewrite Htasks1, lookup_alter_eq, Ha.
    - rewrite !lookup_alter_eq, Hb1. cbn. eauto. }
  destruct Hstart as (w2 & Hstart & Ha2 & (tb' & Hb2 & Hsb & Hbb) & Hgates2).
  (* resume *)
  assert (Hresume : exists w3,
             resume_task a w2 = (Val true, w3)
             /\ tasks (mgr w3) = alter (with_status RUNNING) a (tasks (mgr w2))).
  { unfold resume_task. rewrite bind_run. cbn [gets].
    rewrite Ha2. cbn [status with_status bool_decide negb]. run_op.
    rewrite Hgates2, Hgates1, lookup_insert_eq.
    eexists. split; reflexivity. }
  destruct Hresume as (w3 & Hresume & Htasks3).
  exists w1, w2, w3. split; [exact Hpause|]. split; [exact Hstart|].
  split; [exact Hresume|]. unfold status_of. rewrite Htasks3.
  rewrite lookup_alter_eq, Ha2, lookup_alter_ne, Hb2 by exact Hab. cbn.
  rewrite Hsb, Hbb, Hbook. auto.
Qed.

(** ** The end of a worker *)

(** X16.  However the analysis of a task ends, by returning or by raising, the
    worker leaves the task in a terminal state and takes it off the
    running tasks, and raises nothing itself: Failed with the error after
    an exception, Cancelled after a return with the cancel flag up,
    Completed otherwise. *)
Theorem execute_task_ends_terminal :
  forall (id : string) (analysis : M World unit) (w : World),
    let after := analysis w in
    is_Some (tasks (mgr after.2) !! id) ->
    after.1 <> Hang ->
    let run := _execute_task id analysis w in
    run.1 = Val tt
    /\ (id ∉ running_tasks (mgr run.2))
    /\ exists t : AnalysisTask,
         tasks (mgr run.2) !! id = Some t
         /\ terminal (status t)
         /\ status t = match after.1 with
                       | Raise _ => FAILED
                       | _ => if cancel_flag after.2 id then CANCELLED
                              else COMPLETED
                       end
         /\ (forall e, after.1 = Raise e -> error_message t = Some e).
Proof.
  intros id analysis w after [t Ht] Hhang run. subst run after.
  assert (Hout : forall r : gset string, id ∉ r ∖ {[id]}).
  { intros r Hin. apply elem_of_difference in Hin as [_ Hin].
    apply Hin. now apply elem_of_singleton. }
  unfold _execute_task. destruct (analysis w) as [[[]|e|] w1]; cbn [fst snd] in *;
    [| |congruence]; cbn [finish_task].
  - rewrite bind_run. cbn [gets].
    destruct (cancel_flag w1 id); run_op; cbn;
      (split; [reflexivity|]); (split; [apply Hout|]);
      eexists; (split; [rewrite ?lookup_alter_eq, Ht; reflexivity|]);
      cbn; unfold terminal; split; [auto|split; [reflexivity|discriminate]
                                   |auto|split; [reflexivity|discriminate]].
  - run_op. cbn. split; [reflexivity|]. split; [apply Hout|].
    eexists. split; [rewrite !lookup_alter_eq, Ht; reflexivity|].
    cbn. unfold terminal. split; [auto|]. split; [reflexivity|].
    now intros e' [= ->].
Qed.

End WithCollaborators.
End LifecycleProps.

(* ================================================================== *)
(** * Properties of the cutting of a book into batches *)
(* ================================================================== *)

Module BatchingProps.
Import Py Eff Env Storage Analyzer TaskManager Vocabulary EffProps.
Import Journal StorageQueries Terms.

(** ** Batches cut without regard to chapters *)

Lemma range_from_app a b c :
  a <= b <= c -> (range_from a b ++ range_from b c)%list = range_from a c.
Proof.
  intros Habc. unfold range_from.
  replace (Z.to_nat (c - a)) with (Z.to_nat (b - a) + Z.to_nat (c - b))%nat by lia.
  rewrite seq_app, map_app. f_equal. cbn [Nat.add].
  replace (seq (Z.to_nat (b - a)) (Z.to_nat (c - b)))
    with (Nat.add (Z.to_nat (b - a)) <$> seq 0 (Z.to_nat (c - b)))
    by (rewrite fmap_add_seq; f_equal; lia).
  change (map ?f (?g <$> ?l)) with (f <$> (g <$> l)).
  rewrite <- list_fmap_compose.
  apply list_fmap_ext. intros _ k _. cbn. lia.
Qed.

Lemma plain_batches_prefix pages_per_batch total_pages (k : nat) :
  0 < pages_per_batch -> 0 <= total_pages ->
  concat (map (plain_batch_pages pages_per_batch total_pages)
              (map Z.of_nat (seq 0 k)))
  = map (fun i => i + 1)
        (range_from 0 (Z.min (Z.of_nat k * pages_per_batch) total_pages)).
Proof.
  intros Hp Hn. induction k as [|k IH].
  - cbn [seq map concat]. unfold range_from.
    replace (Z.to_nat _) with 0%nat by lia. reflexivity.
  - rewrite seq_S, !map_app, concat_app, IH. cbn [map concat Nat.add].
    rewrite app_nil_r. unfold plain_batch_pages. rewrite <- map_app. f_equal.
    destruct (Z_lt_le_dec (Z.of_nat k * pages_per_batch) total_pages) as [Hlt|Hge].
    + replace (Z.min (Z.of_nat k * pages_per_batch) total_pages)
        with (Z.of_nat k * pages_per_batch) by lia.
      replace (Z.min (Z.of_nat (S k) * pages_per_batch) total_pages)
        with (Z.min (Z.of_nat k * pages_per_batch + pages_per_batch) total_pages)
        by lia.
      apply range_from_app. lia.
    + replace (Z.min (Z.of_nat k * pages_per_batch) total_pages)
        with total_pages by lia.
      replace (Z.min (Z.of_nat (S k) * pages_per_batch) total_pages)
        with total_pages by nia.
      replace (range_from (Z.of_nat k * pages_per_batch) _) with (@nil Z).
      * apply app_nil_r.
      * unfold range_from. replace (Z.to_nat _) with 0%nat by lia. reflexivity.
Qed.

(** X17.  Cut without regard to chapters, with a positive batch size, the pages
    1 to [len(all_images)] go into the batches in order, each page once:
    the batches of the tier, put end to end, are the pages of the book,
    and no batch is empty or longer than [pages_per_batch]. *)
Theorem plain_batches_cover_the_book :
  forall (all_images : list ImageInfo) (pages_per_batch : Z)
         (chapter_page_map : list (string * list Z)),
    0 < pages_per_batch ->
    let batches :=
      batch_layer_batches all_images pages_per_batch false chapter_page_map in
    concat batches
      = map (fun i => i + 1) (range (Z.of_nat (length all_images)))
    /\ Forall (fun batch : list Z =>
                 batch <> []
                 /\ Z.of_nat (length batch) <= pages_per_batch) batches.
Proof.
  intros all_images pages_per_batch chapter_page_map Hp batches.
  subst batches. unfold batch_layer_batches. cbn [andb].
  set (n := Z.of_nat (length all_images)).
  pose proof (GroupProps.ceil_bounds n pages_per_batch Hp ltac:(lia)) as Hc.
  split.
  - unfold range at 1. rewrite plain_batches_prefix by lia.
    f_equal. rewrite Z2Nat.id by nia.
    replace (Z.min _ n) with n by lia.
    unfold range, range_from. rewrite Z.sub_0_r.
    apply list_fmap_ext. intros _ k _. lia.
  - apply Forall_forall. intros batch Hbatch.
    apply list_elem_of_fmap in Hbatch as (idx & -> & Hidx).
    apply BatchTierProps.range_elem in Hidx.
    unfold plain_batch_pages.
    rewrite length_map, BatchTierProps.range_from_length. split; [|lia].
    intros Hnil. apply (f_equal length) in Hnil.
    rewrite length_map, BatchTierProps.range_from_length in Hnil.
    cbn in Hnil. nia.
Qed.

(** ** Batches cut along the chapters *)

Lemma page_map_add_concat ch p m :
  concat (map snd (page_map_add ch p m)) ≡ₚ p :: concat (map snd m).
Proof.
  induction m as [|[k pages] rest IH]; cbn [page_map_add]; [reflexivity|].
  destruct (String.eqb k ch); cbn [map snd concat].
  - rewrite <- app_assoc. cbn [app]. symmetry. apply Permutation_middle.
  - rewrite IH. symmetry. apply Permutation_middle.
Qed.

Lemma page_map_add_entries (Q : string * list Z -> Prop) ch p m :
  Forall Q m -> Q (ch, [p]) ->
  (forall pages, Q (ch, pages) -> Q (ch, (pages ++ [p])%list)) ->
  Forall Q (page_map_add ch p m).
Proof.
  intros Hm Hnew Hadd. induction Hm as [|[k pages] rest Hk Hrest IH];
    cbn [page_map_add]; [repeat constructor; exact Hnew|].
  destruct (String.eqb k ch) eqn:Hkc.
  - apply String.eqb_eq in Hkc as ->. constructor; [now apply Hadd|assumption].
  - constructor; assumption.
Qed.

Lemma page_map_upto_step all_images (k : nat) img m :
  all_images !! k = Some img ->
  page_map_upto all_images k m ->
  page_map_upto all_images (S k)
    (if truthy (JStr (img_chapter_id img))
     then page_map_add (img_chapter_id img) (Z.of_nat k + 1) m else m).
Proof.
  intros Himg (Hentries & Hnodup & Hall).
  assert (Hpage : page_of_chapter all_images (img_chapter_id img)
                    (Z.of_nat k + 1)).
  { split; [lia|]. exists img. split; [|reflexivity].
    now replace (Z.to_nat (Z.of_nat k + 1 - 1)) with k by lia. }
  assert (Hweaken : Forall (fun entry : string * list Z =>
            entry.1 <> "" /\ entry.2 <> []
            /\ Forall (fun p => p <= Z.of_nat (S k)
                                /\ page_of_chapter all_images entry.1 p)
                      entry.2) m).
  { eapply Forall_impl; [exact Hentries|]. intros entry (Hch & Hne & Hp).
    split; [exact Hch|]. split; [exact Hne|].
    eapply Forall_impl; [exact Hp|]. cbn. intros p [? ?].
    split; [lia|assumption]. }
  assert (Hfresh : Z.of_nat k + 1 ∉ concat (map snd m)).
  { intros Hin. apply list_elem_of_In, in_concat in Hin as (pages & Hpages & Hin).
    apply in_map_iff in Hpages as (entry & <- & Hentry).
    rewrite Forall_forall in Hentries.
    destruct (Hentries entry (proj2 (list_elem_of_In _ _) Hentry))
      as (_ & _ & Hp).
    rewrite Forall_forall in Hp.
    destruct (Hp _ (proj2 (list_elem_of_In _ _) Hin)) as [Hle _]. lia. }
  cbn [truthy]. destruct (String.eqb (img_chapter_id img) "") eqn:Hch; cbn [negb].
  - apply String.eqb_eq in Hch. split; [exact Hweaken|]. split; [exact Hnodup|].
    intros p img' Hp Himg' Hne.
    destruct (decide (p = Z.of_nat k + 1)) as [->|Hother].
    + replace (Z.to_nat (Z.of_nat k + 1 - 1)) with k in Himg' by lia.
      congruence.
    + apply (Hall p img'); [lia|assumption..].
  - apply String.eqb_neq in Hch. split; [|split].
    + apply page_map_add_entries; [exact Hweaken| |].
      * cbn. split; [exact Hch|]. split; [discriminate|].
        constructor; [split; [lia|exact Hpage]|constructor].
      * cbn. intros pages (_ & _ & Hp). split; [exact Hch|].
        split; [now destruct pages|].
        apply Forall_app. split; [exact Hp|].
        constructor; [split; [lia|exact Hpage]|constructor].
    + rewrite page_map_add_concat. now constructor.
    + intros p img' Hp Himg' Hne. rewrite page_map_add_concat.
      destruct (decide (p = Z.of_nat k + 1)) as [->|Hother];
        [apply list_elem_of_here|].
      apply list_elem_of_further, (Hall p img'); [lia|assumption..].
Qed.

Lemma chapter_page_map_from_upto all_images :
  forall imgs (pre : list ImageInfo) m,
    all_images = (pre ++ imgs)%list ->
    page_map_upto all_images (length pre) m ->
    page_map_upto all_images (length all_images)
      (chapter_page_map_from imgs (Z.of_nat (length pre)) m).
Proof.
  induction imgs as [|img rest IH]; intros pre m Hall Hm.
  - cbn [chapter_page_map_from]. rewrite app_nil_r in Hall. now subst pre.
  - cbn [chapter_page_map_from].
    replace (Z.of_nat (length pre) + 1) with (Z.of_nat (length (pre ++ [img])))
      by (rewrite length_app; cbn; lia).
    apply IH; [now rewrite <- app_assoc|].
    replace (length (pre ++ [img])) with (S (length pre))
      by (rewrite length_app; cbn; lia).
    replace (Z.of_nat (S (length pre))) with (Z.of_nat (length pre) + 1) by lia.
    apply page_map_upto_step; [|exact Hm].
    rewrite Hall. now rewrite lookup_app_r, Nat.sub_diag by lia.
Qed.

Lemma build_chapter_page_map_upto all_images :
  page_map_upto all_images (length all_images)
    (_build_chapter_page_map all_images).
Proof.
  unfold _build_chapter_page_map.
  apply (chapter_page_map_from_upto all_images all_images [] []);
    [reflexivity|].
  split; [constructor|]. split; [constructor|]. intros p img Hp. cbn in Hp. lia.
Qed.

Lemma slice_as_group_items {A} (l : list A) (u : Z) (k : nat) :
  0 < u ->
  slice l (Some (Z.of_nat k * u)) (Some (Z.of_nat k * u + u))
  = group_items l u (Z.of_nat k).
Proof.
  intros Hu. unfold group_items, slice, clip.
  assert (0 <= Z.of_nat k * u) as Hk by nia.
  assert ((Z.of_nat k * u <? 0) = false) as -> by (apply Z.ltb_ge; lia).
  assert ((Z.of_nat k * u + u <? 0) = false) as -> by (apply Z.ltb_ge; lia).
  assert ((Z.min (Z.of_nat k * u + u) (Z.of_nat (length l)) <? 0) = false)
    as -> by (apply Z.ltb_ge; lia).
  now rewrite (Z.min_l (Z.min _ _) (Z.of_nat (length l))) by lia.
Qed.

(** The batches of a chapter map: put end to end they are the pages of
    the map, entry after entry, and every batch is a non-empty run of at
    most [pages_per_batch] pages of one entry. *)
Lemma aligned_batch_groups_cut chapter_page_map pages_per_batch :
  0 < pages_per_batch ->
  exists groups,
    aligned_batch_groups chapter_page_map pages_per_batch = inr groups
    /\ concat (map snd groups) = concat (map snd chapter_page_map)
    /\ Forall (fun g : string * list Z =>
                 g.2 <> []
                 /\ Z.of_nat (length g.2) <= pages_per_batch
                 /\ exists pages, (g.1, pages) ∈ chapter_page_map
                                  /\ g.2 `sublist_of` pages) groups.
Proof.
  intros Hp. induction chapter_page_map as [|[ch pages] rest IH];
    cbn [aligned_batch_groups].
  - exists []. split; [reflexivity|]. split; [reflexivity|constructor].
  - destruct IH as (more & -> & Hconcat & Hmore).
    unfold range_step.
    assert ((pages_per_batch =? 0) = false) as -> by lia.
    assert ((pages_per_batch <? 0) = false) as -> by lia.
    eexists. split; [reflexivity|].
    set (c := (Z.of_nat (length pages) + pages_per_batch - 1) / pages_per_batch).
    pose proof (GroupProps.ceil_bounds (Z.of_nat (length pages))
                  pages_per_batch Hp ltac:(lia)) as Hc. fold c in Hc.
    split; [|apply Forall_app; split].
    + rewrite map_app, concat_app, Hconcat. cbn [map snd concat]. f_equal.
      etransitivity;
        [|exact (GroupProps.groups_concat pages pages_per_batch Hp)].
      f_equal. unfold indexed_groups, range. fold c.
      rewrite !map_map. apply map_ext. intros k. cbn [snd].
      apply slice_as_group_items, Hp.
    + apply Forall_forall. intros g Hg.
      apply list_elem_of_fmap in Hg as (i & -> & Hi).
      apply list_elem_of_fmap in Hi as (k & -> & Hk).
      apply elem_of_seq in Hk. cbn [fst snd].
      split; [apply BatchTierProps.slice_window_nonempty; [exact Hp|nia]|].
      split.
      * unfold slice. rewrite length_take. unfold clip.
        assert (0 <= Z.of_nat k * pages_per_batch) as Hk0 by nia.
        assert ((Z.of_nat k * pages_per_batch <? 0) = false) as ->
          by (apply Z.ltb_ge; lia).
        assert ((Z.of_nat k * pages_per_batch + pages_per_batch <? 0) = false)
          as -> by (apply Z.ltb_ge; lia).
        lia.
      * exists pages. split; [apply list_elem_of_here|].
        unfold slice. etransitivity; [apply sublist_take|apply sublist_drop].
    + eapply Forall_impl; [exact Hmore|].
      intros g (Hne & Hlen & pages' & Hin & Hsub).
      split; [exact Hne|]. split; [exact Hlen|].
      exists pages'. split; [now apply list_elem_of_further|exact Hsub].
Qed.

(** X18.  Cut along the chapters, with a positive batch size, a batch never
    crosses a chapter: it is a non-empty run of at most [pages_per_batch]
    pages that are all images of the chapter it is labelled with.  No page
    is in two batches, and the pages in the batches are the pages whose
    image names a chapter: a page without a chapter id is in no batch. *)
Theorem aligned_batches_follow_chapters :
  forall (all_images : list ImageInfo) (pages_per_batch : Z),
    0 < pages_per_batch ->
    exists groups : list (string * list Z),
      aligned_batch_groups (_build_chapter_page_map all_images) pages_per_batch
        = inr groups
      /\ Forall (fun g : string * list Z =>
                   g.2 <> []
                   /\ Z.of_nat (length g.2) <= pages_per_batch
                   /\ Forall (page_of_chapter all_images g.1) g.2) groups
      /\ NoDup (concat (map snd groups))
      /\ forall p : Z,
           p ∈ concat (map snd groups)
           <-> exists ch, ch <> "" /\ page_of_chapter all_images ch p.
Proof.
  intros all_images pages_per_batch Hp.
  destruct (build_chapter_page_map_upto all_images) as (Hentries & Hnodup & Hall).
  destruct (aligned_batch_groups_cut (_build_chapter_page_map all_images)
              pages_per_batch Hp) as (groups & Hrun & Hconcat & Hgroups).
  exists groups. split; [exact Hrun|]. rewrite Hconcat.
  rewrite Forall_forall in Hentries.
  split; [|split; [exact Hnodup|]].
  - eapply Forall_impl; [exact Hgroups|].
    intros g (Hne & Hlen & pages & Hin & Hsub).
    split; [exact Hne|]. split; [exact Hlen|].
    destruct (Hentries _ Hin) as (_ & _ & Hpages). cbn [fst snd] in Hpages.
    rewrite Forall_forall in Hpages. apply Forall_forall. intros p Hin'.
    exact (proj2 (Hpages p (elem_of_sublist _ _ _ Hin' Hsub))).
  - intros p. split.
    + intros Hin.
      apply list_elem_of_In, in_concat in Hin as (pages & Hpages & Hin).
      apply in_map_iff in Hpages as (entry & <- & Hentry).
      destruct (Hentries entry (proj2 (list_elem_of_In _ _) Hentry))
        as (Hch & _ & Hpages).
      rewrite Forall_forall in Hpages.
      destruct (Hpages _ (proj2 (list_elem_of_In _ _) Hin)) as [_ Hpage].
      exists entry.1. split; [exact Hch|exact Hpage].
    + intros (ch & Hch & Hlow & img & Himg & <-).
      apply (Hall p img); [|exact Himg|exact Hch].
      split; [exact Hlow|]. apply lookup_lt_Some in Himg. lia.
Qed.

(** ** The batches of a chapter analysis *)

Section WithCollaborators.
Context `{Collaborators}.

Lemma chapter_batch_loop_length starts :
  forall batch_idx chapter_images pages_per_batch context_batch_count
         total_batches progress_callback batch_results s results s',
    chapter_batch_loop starts batch_idx chapter_images pages_per_batch
      context_batch_count total_batches progress_callback batch_results s
    = (Val results, s') ->
    length results = (length batch_results + length starts)%nat.
Proof.
  induction starts as [|i rest IH]; intros * Hrun.
  - injection Hrun as <- _. cbn. lia.
  - cbn [chapter_batch_loop] in Hrun.
    apply bind_val_inv in Hrun as (_ & s1 & _ & Hrun).
    apply bind_val_inv in Hrun as (batch_result & s2 & _ & Hrun).
    apply IH in Hrun. rewrite Hrun, length_app. cbn. lia.
Qed.

(** X19.  The first tier of [analyze_chapter_with_segments] is all or nothing:
    when it returns, the batch size is not zero and there is one result
    for every batch of the chapter, the batches being the runs of
    [pages_per_batch] images (none for a negative size): a batch that fails
    is never left out of a returned list.  With a batch size of zero it
    raises [ZeroDivisionError] before anything is done. *)
Theorem chapter_batches_all_or_nothing :
  forall (chapter_images : list (Z * ImageInfo))
         (pages_per_batch context_batch_count : Z) (progress_callback : bool)
         (s : AState),
    let run := analyze_chapter_batches chapter_images pages_per_batch
                 context_batch_count progress_callback s in
    let total_pages := Z.of_nat (length chapter_images) in
    (forall results : list Dict,
        run.1 = Val results ->
        pages_per_batch <> 0
        /\ Z.of_nat (length results)
           = if 0 <? pages_per_batch
             then (total_pages + pages_per_batch - 1) / pages_per_batch
             else 0)
    /\ (pages_per_batch = 0 -> run = (Raise ZeroDivisionError, s)).
Proof.
  intros chapter_images pages_per_batch context_batch_count progress_callback
    s run total_pages.
  subst run. unfold analyze_chapter_batches, floordiv, range_step.
  fold total_pages. split.
  - intros results Hrun.
    destruct (pages_per_batch =? 0) eqn:Hz; [discriminate Hrun|].
    split; [lia|]. rewrite bind_lift_inr in Hrun.
    destruct (pages_per_batch <? 0) eqn:Hneg; rewrite bind_lift_inr in Hrun;
      (destruct (chapter_batch_loop _ _ _ _ _ _ _ _ s) as [r s'] eqn:Hloop);
      cbn [fst] in Hrun; subst r;
      apply chapter_batch_loop_length in Hloop; rewrite Hloop.
    + assert ((0 <? pages_per_batch) = false) as -> by lia. reflexivity.
    + assert ((0 <? pages_per_batch) = true) as -> by lia.
      cbn [length Nat.add]. rewrite length_map, length_seq.
      pose proof (GroupProps.ceil_bounds total_pages pages_per_batch
                    ltac:(lia) ltac:(lia)).
      nia.
  - intros ->. reflexivity.
Qed.

End WithCollaborators.

End BatchingProps.

(* ================================================================== *)
(** * Properties of analysing again *)
(* ================================================================== *)

Module ReanalysisProps.
Import Py Eff Env Storage Analyzer TaskManager Vocabulary Tactics EffProps.
Import Journal StorageQueries Reanalysis Terms.

Section WithCollaborators.
Context `{Collaborators} `{Removal}.

(** ** [reanalyze_batch] *)

(** The first page of a range that is not empty. *)
Lemma range_from_cons (a b : Z) :
  a < b -> range_from a b = a :: range_from (a + 1) b.
Proof.
  intros Hab. unfold range_from.
  replace (Z.to_nat (b - a)) with (S (Z.to_nat (b - (a + 1)))) by lia.
  cbn [seq map]. f_equal; [lia|].
  rewrite <- seq_shift, map_map. apply map_ext. intros k. lia.
Qed.

(** The least page of a range is its first page. *)
Lemma list_min_range_from (a : Z) (l : list Z) :
  Forall (fun q => a <= q) l -> list_min a l = a.
Proof.
  unfold list_min. induction 1 as [|q l Hq _ IH]; [reflexivity|].
  cbn [foldl]. now rewrite Z.min_l.
Qed.

(** What the removal does to the storage state, apart from the files. *)
Lemma delete_file_trace filename failed (l : Logged AState) :
  trace (under (delete_file filename failed l).2) = trace (under l).
Proof.
  unfold delete_file, on_under, zoom, note_log, note, drop_file, tick, bind,
    gets, modify, ret. cbn.
  destruct (files (under l) !! filename); [|reflexivity]. cbn.
  destruct (disk_remove _ _); reflexivity.
Qed.

(** X20.  [reanalyze_batch] on a range with a page in it never reaches the VLM
    client.  It takes the stored record of the range off the disk, then
    raises the [ValueError] of the first page: [analyze_batch] is called
    without image information, so that no image can be loaded.  No other
    file is touched; when the removal fails the store is as it was and the
    failure is logged. *)
Theorem reanalyze_batch_deletes_then_raises :
  forall (start_page end_page : Z) (l : Logged AState),
    start_page <= end_page ->
    let filename := batch_filename start_page end_page in
    exists l' : Logged AState,
      reanalyze_batch start_page end_page l
        = (Raise (ValueError ("无法获取第 " +:+ str_of_Z start_page
                              +:+ " 页的图片")), l')
      /\ model_calls (under l') = model_calls (under l)
      /\ (forall f, f <> filename ->
            files (under l') !! f = files (under l) !! f)
      /\ (files (under l') !! filename = None
          \/ (files (under l') = files (under l)
              /\ exists e,
                   journal l'
                   = journal l ++ [NoteLog ERROR (DeleteBatchFailed e)])).
Proof.
  intros start_page end_page l Hle filename.
  pose proof (delete_file_trace filename DeleteBatchFailed l) as Htrace.
  destruct (ListingProps.delete_file_run filename DeleteBatchFailed l)
    as (ok & l' & Hrun & Hother & Hok & Hfailed).
  rewrite Hrun in Htrace. cbn [snd] in Htrace.
  exists l'. unfold reanalyze_batch, delete_batch_analysis.
  fold filename. rewrite bind_run, Hrun.
  rewrite (range_from_cons start_page (end_page + 1)) by lia.
  split.
  - unfold on_under, zoom, analyze_batch. cbn [negb load_images].
    unfold _get_image_from_info.
    rewrite list_min_range_from.
    + unfold bind, raise. cbn. destruct l'. reflexivity.
    + apply Forall_forall. intros q Hq. unfold range_from in Hq.
      apply list_elem_of_fmap in Hq as (k & -> & _). lia.
  - split; [unfold model_calls; now rewrite Htrace|].
    split; [exact Hother|].
    destruct ok.
    + left. now apply Hok.
    + right. now apply Hfailed.
Qed.

(** ** [reanalyze_segment] *)

(** X21.  A segment that cannot be loaded as a truthy value is unknown:
    [reanalyze_segment] raises the [ValueError] that names it, whether the
    file is missing, unreadable or holds an empty value.  Nothing is
    written and no model is called. *)
Theorem reanalyze_segment_unknown :
  forall (segment_id : string) (s : AState),
    match files s !! segment_filename segment_id with
    | Some (FJson existing) => truthy existing = false
    | _ => True
    end ->
    exists s' : AState,
      reanalyze_segment segment_id s
        = (Raise (ValueError ("未找到小总结: " +:+ segment_id)), s')
      /\ files s' = files s
      /\ model_calls s' = model_calls s.
Proof.
  intros segment_id s Hstored.
  unfold reanalyze_segment, load_segment_summary, _load_json, model_calls.
  unfold bind, emit, log, emit, modify, gets, ret, raise. cbn.
  destruct (files s !! segment_filename segment_id) as [[existing|]|]; cbn.
  - rewrite Hstored. cbn. eexists. split; [reflexivity|]. cbn.
    split; [reflexivity|]. rewrite List.filter_app. cbn. apply app_nil_r.
  - eexists. split; [reflexivity|]. cbn.
    split; [reflexivity|]. rewrite !List.filter_app. cbn.
    now rewrite !app_nil_r.
  - eexists. split; [reflexivity|]. cbn.
    split; [reflexivity|]. rewrite List.filter_app. cbn. apply app_nil_r.
Qed.

(** The loop over the listed batches, in a store without a record in the
    range: nothing is collected. *)
Lemma batches_in_range_empty (a b : Z) (batches : list BatchInfo)
    (batch_results : list Json) (s : AState) :
  (forall start_page end_page,
      a <= start_page -> end_page <= b ->
      files s !! batch_filename start_page end_page = None) ->
  exists s',
    batches_in_range batches (JInt a) (JInt b) batch_results s
      = (Val batch_results, s')
    /\ files s' = files s
    /\ model_calls s' = model_calls s.
Proof.
  intros Hnone. revert s Hnone.
  induction batches as [|batch rest IH]; intros s Hnone.
  - exists s. auto.
  - cbn [batches_in_range]. unfold int_ge, int_le. cbn [as_int lift_exn].
    rewrite bind_ret.
    destruct (a <=? bi_start_page batch) eqn:Ha; rewrite bind_ret;
      [destruct (bi_end_page batch <=? b) eqn:Hb|]; try (apply IH, Hnone).
    rewrite bind_run. unfold load_batch_analysis.
    destruct (ListingProps.load_json_run
                (batch_filename (bi_start_page batch) (bi_end_page batch))
                None s) as (r & s1 & Hrun & Hfiles & _ & _ & Hr).
    rewrite Hnone in Hr by lia. cbn in Hr. subst r. rewrite Hrun.
    change (truthy (JDict ∅)) with false. cbv iota.
    destruct (IH s1) as (s' & Hloop & Hfiles' & Hcalls').
    { intros start_page end_page Hs He. rewrite Hfiles. now apply Hnone. }
    exists s'. split; [exact Hloop|]. split; [congruence|].
    rewrite Hcalls'. clear - Hrun Hnone Ha Hb.
    unfold _load_json, bind, emit, modify, gets, ret in Hrun. cbn in Hrun.
    rewrite Hnone in Hrun by lia.
    injection Hrun as <-. unfold model_calls. cbn.
    rewrite List.filter_app. cbn. apply app_nil_r.
Qed.

(** X22.  A segment whose batches are gone is not generated again:
    when the store holds no batch record within the page range of the
    stored summary, [reanalyze_segment] returns [{}], writes nothing,
    calls no model, and the stored summary stays as it was. *)
Theorem reanalyze_segment_without_batches :
  forall (segment_id : string) (existing : Dict) (a b : Z) (s : AState),
    files s !! segment_filename segment_id = Some (FJson (JDict existing)) ->
    existing !! "page_range" = Some (JDict (page_range_dict a b)) ->
    (forall start_page end_page,
        a <= start_page -> end_page <= b ->
        files s !! batch_filename start_page end_page = None) ->
    exists s' : AState,
      reanalyze_segment segment_id s = (Val (JDict ∅), s')
      /\ files s' = files s
      /\ model_calls s' = model_calls s.
Proof.
  intros segment_id existing a b s Hstored Hrange Hnone.
  unfold reanalyze_segment, load_segment_summary.
  destruct (ListingProps.load_json_run (segment_filename segment_id) None s)
    as (r & s1 & Hrun & Hfiles1 & _ & _ & Hr).
  rewrite Hstored in Hr. subst r.
  assert (Hcalls1 : model_calls s1 = model_calls s).
  { clear - Hrun Hstored.
    unfold _load_json, bind, emit, modify, gets, ret in Hrun. cbn in Hrun.
    rewrite Hstored in Hrun. injection Hrun as <-. unfold model_calls. cbn.
    rewrite List.filter_app. cbn. apply app_nil_r. }
  rewrite bind_run, Hrun.
  assert (truthy (JDict existing) = true) as ->.
  { cbn. apply CacheProps.dict_truthy_nonempty. intros ->.
    rewrite lookup_empty in Hrange. discriminate Hrange. }
  cbn [negb get lift_exn]. unfold dget. rewrite Hrange.
  cbn [default id get lift_exn]. rewrite bind_ret.
  unfold page_range_dict. cbn [get lift_exn]. unfold dget.
  rewrite lookup_insert_ne by discriminate. rewrite !lookup_insert_eq.
  cbn [default id]. rewrite !bind_ret.
  destruct (ListingProps.list_batches_entries s1) as (batches & Hlist & _ & _).
  rewrite bind_run, Hlist.
  destruct (batches_in_range_empty a b batches []
              (record_events s1 [EvListDir "batches"]))
    as (s' & Hloop & Hfiles' & Hcalls').
  { intros start_page end_page Hs He. cbn [record_events files].
    rewrite Hfiles1. now apply Hnone. }
  rewrite bind_run, Hloop. cbn [generate_segment_summary].
  exists s'. split; [reflexivity|].
  split; [rewrite Hfiles'; exact Hfiles1|].
  rewrite Hcalls', <- Hcalls1. unfold model_calls. cbn.
  rewrite List.filter_app. cbn. apply app_nil_r.
Qed.

End WithCollaborators.
End ReanalysisProps.

(* ================================================================== *)
(** * Properties of the continuation data *)
(* ================================================================== *)

Module ContinuationProps.
Import Py Eff Env Storage Analyzer Vocabulary EffProps.
Import Journal StorageQueries Terms.

Section WithCollaborators.
Context `{Collaborators}.

(** What [save_continuation_pages] leaves in the store. *)
Lemma save_continuation_pages_run (pages : list Json) (s : AState) :
  exists (ok : bool) (s' : AState),
    save_continuation_pages pages s = (Val ok, s')
    /\ (ok = true ->
        exists stamp : string,
          files s'
          = <["continuation/pages.json" :=
                FJson (JDict (<["saved_at" := JStr stamp]>
                                (<["pages" := JList pages]> ∅)))]> (files s))
    /\ (ok = false ->
        forall f, f <> "continuation/pages.json" ->
                  files s' !! f = files s !! f).
Proof.
  unfold save_continuation_pages, _save_json, now, tick, set_file, log, emit,
    bind, modify, gets, ret. cbn.
  destruct (disk_write _ _); cbn; do 2 eexists;
    (split; [reflexivity|]); cbn; split;
    try discriminate; try (intros _; eexists; reflexivity);
    try (intros _ f Hf; reflexivity).
  intros _ f Hf. now rewrite lookup_insert_ne.
Qed.

(** X23.  The pages of a continuation are read back as they were saved: after a
    [save_continuation_pages] that answered [True],
    [load_continuation_all] returns, leaves the store as it is and holds
    the saved list under ["pages"]; with a page in the list it reports
    [has_data]. *)
Theorem save_then_load_continuation_pages :
  forall (pages : list Json) (s s1 : AState),
    save_continuation_pages pages s = (Val true, s1) ->
    exists (d : Dict) (s2 : AState),
      load_continuation_all s1 = (Val d, s2)
      /\ files s2 = files s1
      /\ d !! "pages" = Some (JList pages)
      /\ (pages <> [] -> d !! "has_data" = Some (JBool true)).
Proof.
  intros pages s s1 Hsave.
  destruct (save_continuation_pages_run pages s)
    as (ok & s1' & Hrun & Hwritten & _).
  rewrite Hsave in Hrun. injection Hrun as <- <-.
  destruct (Hwritten eq_refl) as (stamp & Hfiles). clear Hwritten.
  unfold load_continuation_all, load_continuation_script,
    load_continuation_pages, load_continuation_config.
  destruct (ListingProps.load_json_run "continuation/script.json" None s1)
    as (script & s2 & Hrun1 & Hf1 & _ & _ & _).
  destruct (ListingProps.load_json_run "continuation/pages.json" None s2)
    as (pages_data & s3 & Hrun2 & Hf2 & _ & _ & Hr2).
  destruct (ListingProps.load_json_run "continuation/config.json" None s3)
    as (config & s4 & Hrun3 & Hf3 & _ & _ & _).
  rewrite bind_run, Hrun1, bind_run, Hrun2, bind_run, Hrun3.
  rewrite Hf1, Hfiles, lookup_insert_eq in Hr2. subst pages_data.
  assert (truthy (JDict (<["saved_at" := JStr stamp]>
                           (<["pages" := JList pages]> ∅))) = true) as ->
    by apply CacheProps.dict_truthy_insert.
  cbn [get lift_exn]. unfold dget.
  rewrite lookup_insert_ne by discriminate. rewrite lookup_insert_eq.
  cbn [default id]. rewrite bind_ret.
  assert (Hlen : pages <> [] -> (0 <? Z.of_nat (length pages)) = true).
  { intros Hne. destruct pages; [contradiction|]. cbn [length].
    apply Z.ltb_lt. lia. }
  destruct script; cbn [len lift_exn]; rewrite ?bind_ret; unfold ret;
    do 2 eexists; (split; [reflexivity|]); (split; [congruence|]);
    (split; [repeat (rewrite lookup_insert_ne by (intros [=]));
             apply lookup_insert_eq|]);
    intros Hne; rewrite lookup_insert_eq; rewrite ?Hlen by exact Hne;
    reflexivity.
Qed.

End WithCollaborators.
End ContinuationProps.

(* ================================================================== *)
(** * Properties of the reanalysis of chosen pages *)
(* ================================================================== *)

Module ReanalysisTaskProps.
Import Py Eff Env Storage Analyzer TaskManager Vocabulary Tactics EffProps.
Import Journal StorageQueries ReanalysisTask Terms.

(** ** The images of the pages *)

Lemma image_infos_defined all_images batch_pages :
  Forall (fun p => 1 - Z.of_nat (length all_images) <= p) batch_pages ->
  exists infos,
    reanalysis_image_infos all_images batch_pages = inr infos
    /\ length infos = length batch_pages
    /\ forall (k : nat) (p : Z),
         batch_pages !! k = Some p ->
         infos !! k
         = Some (if p <=? Z.of_nat (length all_images)
                 then all_images
                        !! Z.to_nat ((p - 1) mod Z.of_nat (length all_images))
                 else None).
Proof.
  set (n := Z.of_nat (length all_images)).
  induction 1 as [|p ps Hp _ (infos & IH & Hlen & Hinfos)];
    cbn [reanalysis_image_infos].
  - exists []. split; [reflexivity|]. split; [reflexivity|].
    intros k p Hk. now rewrite lookup_nil in Hk.
  - fold n. rewrite IH. destruct (p <=? n) eqn:Hpn.
    + assert (Hidx : exists img,
                 index all_images (p - 1) = inr img
                 /\ all_images !! Z.to_nat ((p - 1) mod n) = Some img).
      { unfold index. fold n.
        assert (Hn : 0 < n) by lia.
        destruct (p - 1 <? 0) eqn:Hneg.
        - assert (((p - 1 + n <? 0) || (n <=? p - 1 + n)) = false) as ->
            by lia.
          replace ((p - 1) mod n) with (p - 1 + n).
          + destruct (all_images !! Z.to_nat (p - 1 + n)) as [img|] eqn:E;
              [eauto|].
            apply lookup_ge_None in E. lia.
          + apply (Z.mod_unique_pos _ _ (-1)); lia.
        - assert (((p - 1 <? 0) || (n <=? p - 1)) = false) as -> by lia.
          rewrite Z.mod_small by lia.
          destruct (all_images !! Z.to_nat (p - 1)) as [img|] eqn:E; [eauto|].
          apply lookup_ge_None in E. lia. }
      destruct Hidx as (img & -> & Himg).
      eexists. split; [reflexivity|]. split; [cbn; now rewrite Hlen|].
      intros [|k] q Hq; cbn in Hq |- *.
      * injection Hq as <-. now rewrite Hpn, Himg.
      * now apply Hinfos.
    + eexists. split; [reflexivity|]. split; [cbn; now rewrite Hlen|].
      intros [|k] q Hq; cbn in Hq |- *.
      * injection Hq as <-. now rewrite Hpn.
      * now apply Hinfos.
Qed.

Lemma image_infos_index_error all_images batch_pages :
  Exists (fun p => p < 1 - Z.of_nat (length all_images)) batch_pages ->
  reanalysis_image_infos all_images batch_pages = inl IndexError.
Proof.
  set (n := Z.of_nat (length all_images)).
  induction 1 as [p ps Hp|p ps _ IH]; cbn [reanalysis_image_infos]; fold n.
  - assert ((p <=? n) = true) as -> by lia.
    unfold index. fold n.
    assert ((p - 1 <? 0) = true) as -> by lia.
    assert (((p - 1 + n <? 0) || (n <=? p - 1 + n)) = true) as -> by lia.
    reflexivity.
  - rewrite IH. destruct (p <=? n); [|reflexivity].
    destruct (index all_images (p - 1)) as [e|img] eqn:E; [|reflexivity].
    unfold index in E.
    destruct (_ || _); [congruence|]. destruct (_ !! _); congruence.
Qed.

(** X24.  The pages of a reanalysis are counted around the book.  With [n]
    images, a page from [1 - n] to [n] gets the image at the index
    [(page - 1) mod n], so that page [0] is analysed with the last image
    of the book; a page above [n] gets no image information; and a page
    below [1 - n] raises [IndexError]. *)
Theorem reanalysis_pages_wrap_around :
  forall (all_images : list ImageInfo) (batch_pages : list Z),
    let n := Z.of_nat (length all_images) in
    (Forall (fun p => 1 - n <= p) batch_pages ->
     exists infos : list (option ImageInfo),
       reanalysis_image_infos all_images batch_pages = inr infos
       /\ length infos = length batch_pages
       /\ forall (k : nat) (p : Z),
            batch_pages !! k = Some p ->
            infos !! k
            = Some (if p <=? n
                    then all_images !! Z.to_nat ((p - 1) mod n)
                    else None))
    /\ (Exists (fun p => p < 1 - n) batch_pages ->
        reanalysis_image_infos all_images batch_pages = inl IndexError).
Proof.
  intros all_images batch_pages n. split.
  - apply image_infos_defined.
  - apply image_infos_index_error.
Qed.

Section WithCollaborators.
Context `{Collaborators} `{PostProcessing}.

(** ** What never raises *)

Lemma never_raises_on_under {S A} (c : M S A) :
  never_raises c -> never_raises (on_under c).
Proof.
  intros Hc l e. unfold on_under, zoom.
  specialize (Hc (under l) e). destruct (c (under l)) as [[a|e'|] s'];
    cbn in *; congruence.
Qed.

Lemma on_under_run {S A} (c : M S A) (l : Logged S) :
  on_under c l = ((c (under l)).1, set_under (c (under l)).2 l).
Proof. unfold on_under, zoom. now destruct (c (under l)). Qed.

Lemma set_under_same {S} (l : Logged S) : set_under (under l) l = l.
Proof. now destruct l. Qed.

Lemma never_raises_at {S A} (c : M S A) (s : S) :
  never_raises c -> forall e, (c s).1 <> Raise e.
Proof. intros Hc. apply Hc. Qed.

Lemma never_raises_note {S} (n : Note) : never_raises (note n : M (Logged S) unit).
Proof. intros l e. discriminate. Qed.

Lemma never_raises_update id f :
  never_raises (on_under (update_task id f)).
Proof. intros l e. discriminate. Qed.

Lemma post_processing_never_raises id :
  never_raises (_post_analysis_processing id).
Proof.
  unfold _post_analysis_processing, note_log.
  repeat first
    [ apply never_raises_note | apply never_raises_update
    | apply BatchTierProps.never_raises_try; intros ?
    | apply BatchTierProps.never_raises_bind; [|intros ?] ].
Qed.

Lemma reanalysis_loop_never_raises id pages all_images pages_per_batch
    total_batches :
  0 < pages_per_batch ->
  Forall (fun p => 1 - Z.of_nat (length all_images) <= p) pages ->
  forall starts batch_idx,
    Forall (fun i => 0 <= i < Z.of_nat (length pages)) starts ->
    never_raises (reanalysis_loop starts batch_idx id pages all_images
                    pages_per_batch total_batches).
Proof.
  intros Hp Hpages starts.
  induction starts as [|i rest IH]; intros batch_idx Hstarts;
    cbn [reanalysis_loop].
  - apply BatchTierProps.never_raises_ret.
  - apply Forall_cons_1 in Hstarts as [Hi Hrest].
    apply BatchTierProps.never_raises_bind;
      [apply never_raises_on_under, BatchTierProps.never_raises_checkpoint|].
    intros go. destruct go; cbn [negb]; [|apply BatchTierProps.never_raises_ret].
    set (batch_pages := slice pages (Some i) (Some (i + pages_per_batch))).
    assert (Hne : batch_pages <> [])
      by (apply BatchTierProps.slice_window_nonempty; assumption).
    destruct (image_infos_defined all_images batch_pages)
      as (infos & -> & _); [now apply BatchTierProps.slice_Forall|].
    destruct (BatchTierProps.index_first _ Hne) as [first ->].
    destruct (BatchTierProps.index_last _ Hne) as [last ->].
    rewrite !bind_lift_inr.
    apply BatchTierProps.never_raises_bind; [apply never_raises_update|].
    intros _.
    apply BatchTierProps.never_raises_bind; [|intros _].
    + apply BatchTierProps.never_raises_try. intros e.
      rewrite !bind_lift_inr.
      apply BatchTierProps.never_raises_bind;
        [apply never_raises_note|intros _; apply never_raises_update].
    + apply BatchTierProps.never_raises_bind; [|intros _; apply IH, Hrest].
      intros l e. discriminate.
Qed.

(** X25.  A reanalysis raises nothing.  With a batch size that is not zero and
    target pages from [1 - len(all_images)] upwards, [_execute_reanalysis]
    lets no exception out, whatever the VLM client, the disk, the
    embeddings or the overview do and whatever requests arrive in between.
    Without target pages it returns at once and leaves everything as it
    is: not even the post-processing is run. *)
Theorem reanalysis_never_raises :
  forall (id : string) (all_images : list ImageInfo) (pages_per_batch : Z)
         (l : Logged World),
    let pages := default [] (tasks (mgr (under l)) !! id ≫= target_pages) in
    pages_per_batch <> 0 ->
    Forall (fun p => 1 - Z.of_nat (length all_images) <= p) pages ->
    (forall e, (_execute_reanalysis id all_images pages_per_batch l).1
               <> Raise e)
    /\ (pages = [] ->
        _execute_reanalysis id all_images pages_per_batch l = (Val tt, l)).
Proof.
  intros id all_images pages_per_batch l pages Hp Hpages.
  unfold _execute_reanalysis. rewrite bind_run, on_under_run.
  cbn [gets fst snd]. rewrite set_under_same. fold pages.
  destruct pages as [|p0 ps] eqn:Epages; [split; [discriminate|reflexivity]|].
  split; [|discriminate]. rewrite <- Epages in *. clear Epages p0 ps.
  assert (Hsorted : Forall (fun p => 1 - Z.of_nat (length all_images) <= p)
                      (sorted_ints pages)).
  { apply Forall_forall. intros p Hin.
    apply (proj1 (ListingProps.sorted_ints_elem _ _)) in Hin.
    rewrite Forall_forall in Hpages. now apply Hpages. }
  set (sorted := sorted_ints pages) in *.
  set (n := Z.of_nat (length sorted)).
  apply never_raises_at.
  apply BatchTierProps.never_raises_bind; [apply never_raises_update|].
  intros _. unfold floordiv, range_step.
  assert ((pages_per_batch =? 0) = false) as -> by lia.
  rewrite !bind_lift_inr.
  assert (Hpost : forall finished : bool,
             never_raises (if finished then _post_analysis_processing id
                           else ret tt)).
  { intros [|]; [apply post_processing_never_raises
                |apply BatchTierProps.never_raises_ret]. }
  destruct (pages_per_batch <? 0) eqn:Hneg; rewrite bind_lift_inr.
  - cbn [reanalysis_loop]. rewrite bind_ret. apply post_processing_never_raises.
  - apply BatchTierProps.never_raises_bind; [|exact Hpost].
    apply reanalysis_loop_never_raises; [lia|exact Hsorted|].
    apply Forall_forall. intros i Hi.
    apply list_elem_of_fmap in Hi as (k & -> & Hk).
    apply elem_of_seq in Hk.
    pose proof (GroupProps.ceil_bounds n pages_per_batch ltac:(lia)
                  ltac:(lia)).
    nia.
Qed.

(** ** A page below the book *)

Lemma sorted_ints_head (l : list Z) (p : Z) :
  p ∈ l -> exists x rest, sorted_ints l = x :: rest /\ x <= p.
Proof.
  intros Hin. apply (proj2 (ListingProps.sorted_ints_elem _ _)) in Hin.
  pose proof (ListingProps.sorted_ints_ascending l) as Hasc.
  destruct (sorted_ints l) as [|x rest]; [now apply elem_of_nil in Hin|].
  exists x, rest. split; [reflexivity|].
  apply elem_of_cons in Hin as [->|Hin]; [lia|].
  apply ListingProps.ascending_cons in Hasc as [Hall _].
  rewrite Forall_forall in Hall. now apply Hall.
Qed.

(** X26.  A target page below [1 - len(all_images)] fails the whole reanalysis:
    with a positive batch size and nobody interfering,
    [_execute_reanalysis] raises [IndexError] while it gathers the images
    of the first batch, outside the handler of the batch.  No page has been
    analysed and the post-processing is not run. *)
Theorem reanalysis_page_below_book_fails :
  forall (id : string) (all_images : list ImageInfo) (pages_per_batch : Z)
         (l : Logged World) (task : AnalysisTask) (pages : list Z) (p : Z),
    tasks (mgr (under l)) !! id = Some task ->
    target_pages task = Some pages ->
    p ∈ pages ->
    p < 1 - Z.of_nat (length all_images) ->
    0 < pages_per_batch ->
    quiet id (under l) ->
    exists l' : Logged World,
      _execute_reanalysis id all_images pages_per_batch l
        = (Raise IndexError, l')
      /\ an (under l') = an (under l)
      /\ journal l' = journal l.
Proof.
  intros id all_images pages_per_batch l task pages p Htask Htarget Hin Hlow
    Hp Hquiet.
  unfold _execute_reanalysis. rewrite bind_run, on_under_run.
  cbn [gets fst snd]. rewrite set_under_same.
  rewrite Htask. cbn [mbind option_bind]. rewrite Htarget. cbn [default from_option Datatypes.id].
  destruct pages as [|p0 ps] eqn:Epages; [now apply elem_of_nil in Hin|].
  rewrite <- Epages in *. clear Epages p0 ps.
  destruct (sorted_ints_head pages p Hin) as (x & rest & Hsorted & Hx).
  rewrite Hsorted.
  set (n := Z.of_nat (length (x :: rest))).
  assert (Hn : 1 <= n) by (subst n; cbn [length]; lia).
  rewrite bind_run, on_under_run. unfold update_task, on_mgr, modify.
  cbn [fst snd]. unfold floordiv, range_step.
  assert ((pages_per_batch =? 0) = false) as -> by lia.
  assert ((pages_per_batch <? 0) = false) as -> by lia.
  rewrite !bind_lift_inr.
  pose proof (GroupProps.ceil_bounds n pages_per_batch Hp ltac:(lia)) as Hc.
  destruct (Z.to_nat ((n + pages_per_batch - 1) / pages_per_batch))
    as [|c] eqn:Ec; [nia|].
  cbn [seq map reanalysis_loop]. rewrite bind_run. rewrite bind_run, on_under_run.
  cbn [under set_under].
  set (w1 := set_mgr _ (under l)).
  assert (Hquiet1 : quiet id w1).
  { apply (BatchTierProps.quiet_same id (under l));
      [reflexivity..|exact Hquiet]. }
  rewrite (BatchTierProps.checkpoint_quiet id w1 Hquiet1). cbn [fst snd negb].
  rewrite image_infos_index_error.
  - rewrite bind_lift_inl. unfold raise. eexists. split; [reflexivity|].
    cbn [under set_under journal]. split; reflexivity.
  - change (Z.of_nat 0 * pages_per_batch) with 0.
    unfold slice, clip. change (0 <? 0) with false. cbv iota.
    assert ((0 + pages_per_batch <? 0) = false) as ->
      by (apply Z.ltb_ge; lia).
    fold n.
    replace (Z.to_nat (Z.min (0 + pages_per_batch) n - Z.min 0 n))
      with (S (Z.to_nat (Z.min pages_per_batch n - 1))) by lia.
    replace (Z.to_nat (Z.min 0 n)) with 0%nat by lia.
    cbn [drop take]. apply Exists_cons_hd. lia.
Qed.

End WithCollaborators.
End ReanalysisTaskProps.

(* ================================================================== *)
(** * What a reanalysis accounts for *)
(* ================================================================== *)

Module ReanalysisOutcomeProps.
Import Py Eff Env Storage Analyzer TaskManager Vocabulary Tactics EffProps.
Import Journal StorageQueries ReanalysisTask Terms ReanalysisTaskProps.

Section WithCollaborators.
Context `{Collaborators} `{PostProcessing}.

Lemma failed_pages_progress id f (w : World) :
  failed_pages_of
    (set_mgr (with_tasks (alter (with_progress f) id) (mgr w)) w) id
  = failed_pages_of w id.
Proof.
  unfold failed_pages_of. cbn. rewrite lookup_alter_eq.
  now destruct (tasks (mgr w) !! id).
Qed.

Lemma failed_pages_an a (w : World) id :
  failed_pages_of (set_an a w) id = failed_pages_of w id.
Proof. reflexivity. Qed.

Lemma done_batches_app j1 j2 :
  done_batches (j1 ++ j2) = (done_batches j1 + done_batches j2)%nat.
Proof. unfold done_batches. now rewrite List.filter_app, length_app. Qed.

Ltac run_logged :=
  repeat (rewrite ?bind_lift_inr, ?bind_run, ?on_under_run;
          unfold modify, zoom;
          cbn [fst snd under journal set_under an set_mgr set_an]).

(** The post-processing changes neither the failed pages nor the batches
    reported as done, and lets no exception out. *)
Lemma post_processing_outcome id (l : Logged World) :
  match _post_analysis_processing id l with
  | (Val _, l') =>
      failed_pages_of (under l') id = failed_pages_of (under l) id
      /\ done_batches (journal l') = done_batches (journal l)
  | (Raise _, _) => False
  | (Hang, _) => True
  end.
Proof.
  unfold _post_analysis_processing, note_log, note, try_except, update_task,
    on_mgr, on_an.
  run_logged.
  destruct (build_embeddings (an (under l))) as [[[]|e|] a1]; run_logged;
    [| |exact I].
  all: destruct (generate_overview a1) as [[[]|e'|] a2]; run_logged;
    try exact I.
  all: unfold failed_pages_of; cbn [mgr set_mgr set_an tasks with_tasks];
    rewrite !lookup_alter_eq; (split; [now destruct (tasks (mgr (under l)) !! id)|]);
    rewrite !done_batches_app; cbn; lia.
Qed.

Lemma reanalysis_loop_accounted id pages all_images pages_per_batch
    total_batches :
  0 < pages_per_batch ->
  Forall (fun p => 1 - Z.of_nat (length all_images) <= p) pages ->
  forall starts batch_idx (l : Logged World),
    Forall (fun i => 0 <= i < Z.of_nat (length pages)) starts ->
    quiet id (under l) ->
    is_Some (tasks (mgr (under l)) !! id) ->
    match reanalysis_loop starts batch_idx id pages all_images
            pages_per_batch total_batches l with
    | (Val finished, l') =>
        finished = true
        /\ exists failed : list (list Z),
             failed `sublist_of`
               map (fun i => slice pages (Some i) (Some (i + pages_per_batch)))
                   starts
             /\ failed_pages_of (under l') id
                = failed_pages_of (under l) id ++ concat failed
             /\ (done_batches (journal l') + length failed
                 = done_batches (journal l) + length starts)%nat
    | (Raise _, _) => False
    | (Hang, _) => True
    end.
Proof.
  intros Hp Hpages starts.
  induction starts as [|i rest IH]; intros batch_idx l Hstarts Hq [task Htask];
    cbn [reanalysis_loop map].
  - split; [reflexivity|]. exists []. split; [constructor|].
    split; [cbn; now rewrite app_nil_r|cbn; lia].
  - apply Forall_cons_1 in Hstarts as [Hi Hrest].
    rewrite bind_run, on_under_run, (BatchTierProps.checkpoint_quiet _ _ Hq).
    cbn [fst snd negb]. rewrite set_under_same.
    set (batch_pages := slice pages (Some i) (Some (i + pages_per_batch))).
    assert (Hne : batch_pages <> [])
      by (apply BatchTierProps.slice_window_nonempty; assumption).
    destruct (image_infos_defined all_images batch_pages)
      as (infos & -> & _); [now apply BatchTierProps.slice_Forall|].
    destruct (BatchTierProps.index_first _ Hne) as [first ->].
    destruct (BatchTierProps.index_last _ Hne) as [last ->].
    rewrite !bind_lift_inr.
    unfold try_except, update_task, on_mgr, _notify_progress, on_an, emit,
      note_log, note.
    run_logged.
    destruct (analyze_batch batch_pages None infos true [] (an (under l)))
      as [[result|e|] a'] eqn:Hcall; run_logged; [| |exact I].
    + match goal with
      | |- context [reanalysis_loop rest ?k id pages all_images
                      pages_per_batch total_batches ?l1] =>
          specialize (IH k l1 Hrest); set (l2 := l1) in *
      end.
      assert (Hq2 : quiet id (under l2))
        by (apply (BatchTierProps.quiet_same id (under l));
            [reflexivity..|exact Hq]).
      assert (Htask2 : is_Some (tasks (mgr (under l2)) !! id)).
      { subst l2. cbn [under set_under mgr set_mgr set_an tasks with_tasks].
        rewrite !lookup_alter_eq, Htask. cbn. eauto. }
      specialize (IH Hq2 Htask2). clear Htask2.
      destruct (reanalysis_loop rest _ id pages all_images pages_per_batch
                  total_batches l2) as [[finished|e|] l'];
        [|exact IH|exact I].
      destruct IH as (-> & failed & Hsub & Hfailed & Hdone).
      split; [reflexivity|]. exists failed.
      split; [now apply sublist_cons|].
      split.
      * rewrite Hfailed. f_equal. subst l2. unfold failed_pages_of.
        cbn [under set_under mgr set_mgr set_an tasks with_tasks].
        rewrite !lookup_alter_eq, Htask. reflexivity.
      * subst l2. cbn [journal set_under] in Hdone.
        rewrite done_batches_app in Hdone.
        cbn in Hdone |- *. lia.
    + match goal with
      | |- context [reanalysis_loop rest ?k id pages all_images
                      pages_per_batch total_batches ?l1] =>
          specialize (IH k l1 Hrest); set (l2 := l1) in *
      end.
      assert (Hq2 : quiet id (under l2))
        by (apply (BatchTierProps.quiet_same id (under l));
            [reflexivity..|exact Hq]).
      assert (Htask2 : is_Some (tasks (mgr (under l2)) !! id)).
      { subst l2. cbn [under set_under mgr set_mgr set_an tasks with_tasks].
        rewrite !lookup_alter_eq, Htask. cbn. eauto. }
      specialize (IH Hq2 Htask2). clear Htask2.
      destruct (reanalysis_loop rest _ id pages all_images pages_per_batch
                  total_batches l2) as [[finished|e'|] l'];
        [|exact IH|exact I].
      destruct IH as (-> & failed & Hsub & Hfailed & Hdone).
      split; [reflexivity|]. exists (batch_pages :: failed).
      split; [now apply sublist_skip|].
      split.
      * rewrite Hfailed. cbn [concat]. rewrite app_assoc. f_equal.
        subst l2. unfold failed_pages_of.
        cbn [under set_under mgr set_mgr set_an tasks with_tasks].
        rewrite !lookup_alter_eq, Htask. reflexivity.
      * subst l2. cbn [journal set_under] in Hdone.
        rewrite done_batches_app in Hdone.
        cbn in Hdone |- *. lia.
Qed.

(** X27.  In a reanalysis no batch is lost.  With a positive batch size, target
    pages from [1 - len(all_images)] upwards and nobody interfering,
    [_execute_reanalysis] does not raise, and when it returns every batch
    of the sorted target pages is either reported as done in the log or
    has all its pages appended, in order, to the failed pages of the
    task. *)
Theorem reanalysis_failure_is_local :
  forall (id : string) (all_images : list ImageInfo) (pages_per_batch : Z)
         (l : Logged World) (task : AnalysisTask) (pages : list Z),
    tasks (mgr (under l)) !! id = Some task ->
    target_pages task = Some pages ->
    0 < pages_per_batch ->
    Forall (fun p => 1 - Z.of_nat (length all_images) <= p) pages ->
    quiet id (under l) ->
    match _execute_reanalysis id all_images pages_per_batch l with
    | (Val _, l') =>
        exists failed : list (list Z),
          failed `sublist_of` reanalysis_batches pages pages_per_batch
          /\ failed_pages_of (under l') id
             = failed_pages_of (under l) id ++ concat failed
          /\ (done_batches (journal l') + length failed
              = done_batches (journal l)
                + length (reanalysis_batches pages pages_per_batch))%nat
    | (Raise _, _) => False
    | (Hang, _) => True
    end.
Proof.
  intros id all_images pages_per_batch l task pages Htask Htarget Hp Hpages Hq.
  unfold _execute_reanalysis. rewrite bind_run, on_under_run.
  cbn [gets fst snd]. rewrite set_under_same.
  rewrite Htask. cbn [mbind option_bind]. rewrite Htarget.
  cbn [default from_option Datatypes.id].
  destruct pages as [|p0 ps] eqn:Epages.
  - assert (reanalysis_batches [] pages_per_batch = []) as ->.
    { unfold reanalysis_batches. cbn [sorted_ints foldr length].
      replace (Z.to_nat _) with 0%nat; [reflexivity|].
      rewrite Z.div_small; lia. }
    exists []. cbn. split; [constructor|]. split; [now rewrite app_nil_r|lia].
  - rewrite <- Epages in *. clear Epages p0 ps.
    assert (Hsorted : Forall (fun p => 1 - Z.of_nat (length all_images) <= p)
                        (sorted_ints pages)).
    { apply Forall_forall. intros p Hin.
      apply (proj1 (ListingProps.sorted_ints_elem _ _)) in Hin.
      rewrite Forall_forall in Hpages. now apply Hpages. }
    unfold reanalysis_batches. cbv zeta.
    set (sorted := sorted_ints pages) in *.
    set (n := Z.of_nat (length sorted)).
    unfold floordiv, range_step.
    assert ((pages_per_batch =? 0) = false) as -> by lia.
    assert ((pages_per_batch <? 0) = false) as -> by lia.
    unfold update_task, on_mgr. run_logged.
    match goal with
    | |- context [reanalysis_loop ?starts 0 id sorted all_images
                    pages_per_batch ?tb ?l1] =>
        pose proof (reanalysis_loop_accounted id sorted all_images
                      pages_per_batch tb Hp Hsorted starts 0 l1) as Hloop;
        set (l2 := l1) in *
    end.
    assert (Hq2 : quiet id (under l2))
      by (apply (BatchTierProps.quiet_same id (under l));
          [reflexivity..|exact Hq]).
    assert (Htask2 : is_Some (tasks (mgr (under l2)) !! id)).
    { subst l2. cbn [under set_under mgr set_mgr set_an tasks with_tasks].
      rewrite !lookup_alter_eq, Htask. cbn. eauto. }
    assert (Hfp2 : failed_pages_of (under l2) id = failed_pages_of (under l) id).
    { subst l2. unfold failed_pages_of.
      cbn [under set_under mgr set_mgr set_an tasks with_tasks].
      rewrite !lookup_alter_eq, Htask. reflexivity. }
    assert (Hj2 : journal l2 = journal l) by reflexivity.
    assert (Hstarts :
              Forall (fun i => 0 <= i < n)
                (map (fun k : nat => Z.of_nat k * pages_per_batch)
                   (seq 0 (Z.to_nat ((n + pages_per_batch - 1)
                                     / pages_per_batch))))).
    { apply Forall_forall. intros i Hi.
      apply list_elem_of_fmap in Hi as (k & -> & Hk).
      apply elem_of_seq in Hk.
      pose proof (GroupProps.ceil_bounds n pages_per_batch Hp ltac:(lia)).
      nia. }
    specialize (Hloop Hstarts Hq2 Htask2). clearbody l2.
    destruct (reanalysis_loop _ 0 id sorted all_images pages_per_batch _ l2)
      as [[finished|e|] l3]; [|exact Hloop|exact I].
    destruct Hloop as (-> & failed & Hsub & Hfailed & Hdone).
    pose proof (post_processing_outcome id l3) as Hpost.
    destruct (_post_analysis_processing id l3) as [[[]|e|] l4];
      [|exact Hpost|exact I].
    destruct Hpost as [Hfp Hdb].
    exists failed. rewrite map_map in Hsub. split; [exact Hsub|].
    split; [now rewrite Hfp, Hfailed, Hfp2|].
    rewrite Hdb. rewrite !length_map in *. rewrite <- Hj2. exact Hdone.
Qed.

End WithCollaborators.
End ReanalysisOutcomeProps.

(* ================================================================== *)
(** * The properties at work on the small book *)
(* ================================================================== *)

Module Examples.
Import Py Eff Env Storage Analyzer TaskManager Vocabulary EffProps Demo.

(** A finished task can be started again: [start_task] on a Completed task
    returns [True], the task is Running and a worker thread is launched. *)
Lemma start_task_restarts_completed_task :
  let run := start_task "t1" (world_with COMPLETED) in
  status_of (world_with COMPLETED) "t1" = Some COMPLETED
  /\ run.1 = Val true
  /\ status_of run.2 "t1" = Some RUNNING
  /\ trace (an run.2) = [EvThreadStart "t1"; EvLog INFO (TaskStarted "t1")].
Proof. vm_compute. repeat split. Qed.

(** A group whose text generation raises still yields a segment: with the
    chat model down, the tier over one batch returns one segment, and the
    segment file holds it. *)
Lemma llm_failure_still_emits_segment :
  let run := @_execute_summary_layer collaborators "t1"
               [JDict first_record] 5 "segments" 1 (world_with RUNNING) in
  (forall t prompt system,
      chat_generate (Collaborators := collaborators) t prompt system
      = inl (ExternalError "llm down"))
  /\ exists segment : Dict,
       run.1 = Val [JDict segment]
       /\ files (an run.2) !! segment_filename (layer_segment_id 1 0)
          = Some (FJson (JDict segment))
       /\ segment !! "summary"
          = Some (JStr "第1-5页: the hero leaves home").
Proof.
  split; [reflexivity|].
  eexists. split; [vm_compute; reflexivity|].
  split; vm_compute; reflexivity.
Qed.

(** The cache at work: pages 1 to 5 are stored, and a second, non-forced
    analysis of these pages is answered from the store. *)
Lemma cache_hit_on_first_batch :
  exists s',
    @analyze_batch collaborators [3; 1; 5; 2; 4] None [] false []
      store_with_first_record = (Val first_record, s')
    /\ files s' = files store_with_first_record
    /\ clock s' = 0%nat.
Proof.
  destruct (@CacheProps.analyze_batch_cache_hit collaborators
              3 [1; 5; 2; 4] None [] [] store_with_first_record first_record)
    as (s' & Hrun & Hfiles & _ & Hclock & _).
  - vm_compute. reflexivity.
  - intros E. apply (f_equal (fun d : Dict => d !! "page_range")) in E.
    vm_compute in E. discriminate E.
  - vm_compute. reflexivity.
  - exists s'. split; [exact Hrun|]. split; [exact Hfiles|exact Hclock].
Defined.

(** Saving a batch into the empty store. *)
Lemma save_into_empty_store :
  exists (ok : bool) (analysis' : Dict) (s' : AState),
    @save_batch_analysis collaborators 6 10 first_record empty_store
      = (Val (ok, analysis'), s')
    /\ analysis' !! "page_range" = Some (JDict (page_range_dict 6 10))
    /\ batch_store_consistent s'.
Proof.
  destruct (@StorageProps.save_batch_analysis_page_range collaborators
              6 10 first_record empty_store)
    as (ok & analysis' & s' & Hrun & Hrange & _ & _ & Hstore).
  exists ok, analysis', s'. split; [exact Hrun|]. split; [exact Hrange|].
  apply Hstore. intros start_page end_page d Hd. cbn in Hd.
  rewrite lookup_empty in Hd. discriminate Hd.
Defined.

(** A window of two over three results, the second of them flagged. *)
Lemma window_skips_flagged_result :
  let flagged : Dict := <["parse_error" := JBool true]> first_record in
  let third : Dict := <["batch_summary" := JStr "the return"]> ∅ in
  Z.of_nat (length (context_window [first_record; flagged; third] 2)) <= 2
  /\ Forall (fun r => parse_error_flag r = false)
            (context_window [first_record; flagged; third] 2).
Proof.
  intros flagged third.
  destruct (WindowProps.context_window_most_recent_valid
              [first_record; flagged; third] 2) as (Hlen & Hvalid & _).
  - lia.
  - split; [exact Hlen|exact Hvalid].
Defined.

Lemma two_tasks_wf : wf_manager (mgr world_with_two_tasks).
Proof.
  intros id t Hl. cbn in Hl.
  destruct (decide (id = "t2")) as [->|Hne2].
  - rewrite lookup_insert_eq in Hl. injection Hl as <-.
    split; [reflexivity|]. cbn. rewrite lookup_singleton_eq. cbn. set_solver.
  - rewrite lookup_insert_ne in Hl by congruence.
    destruct (decide (id = "t1")) as [->|Hne1].
    + rewrite lookup_singleton_eq in Hl. injection Hl as <-.
      split; [reflexivity|]. cbn. rewrite lookup_singleton_eq. cbn. set_solver.
    + rewrite lookup_singleton_ne in Hl by congruence. discriminate Hl.
Qed.

(** The second task of a book cannot start while the first one runs. *)
Lemma second_task_of_book_rejected :
  exists (w' : World) (site : LogSite),
    start_task "t2" world_with_two_tasks = (Val false, w')
    /\ mgr w' = mgr world_with_two_tasks.
Proof.
  destruct (ControllerProps.start_task_rejected world_with_two_tasks "t2"
              (task_in PENDING "t2")) as (w' & site & Hrun & Hmgr & _).
  - exact two_tasks_wf.
  - vm_compute. reflexivity.
  - right. exists "t1", (task_in RUNNING "t1").
    split; [discriminate|]. split; [vm_compute; reflexivity|].
    split; reflexivity.
  - exists w', site. split; [exact Hrun|exact Hmgr].
Defined.

(** A cancelled task is left alone by pause, resume and cancel. *)
Lemma cancelled_task_left_alone :
  pause_task "t1" (world_with CANCELLED) = (Val false, world_with CANCELLED)
  /\ resume_task "t1" (world_with CANCELLED) = (Val false, world_with CANCELLED)
  /\ cancel_task "t1" (world_with CANCELLED) = (Val false, world_with CANCELLED).
Proof.
  destruct (ControllerProps.terminal_task_requests (world_with CANCELLED) "t1"
              (task_in CANCELLED "t1")) as (Hp & Hr & Hc & _).
  - vm_compute. reflexivity.
  - left. reflexivity.
  - split; [exact Hp|]. split; [exact Hr|exact Hc].
Defined.

(** Pause, then cancel, on the running task of the small book. *)
Lemma pause_then_cancel_on_running_task :
  exists w1 w2 : World,
    pause_task "t1" (world_with RUNNING) = (Val true, w1)
    /\ cancel_task "t1" w1 = (Val true, w2)
    /\ status_of w2 "t1" = Some CANCELLED
    /\ forall w3, steps "t1" w2 w3 -> status_of w3 "t1" <> Some RUNNING.
Proof.
  destruct (ControllerProps.pause_then_cancel (world_with RUNNING) "t1"
              (task_in RUNNING "t1") true)
    as (w1 & w2 & Hp & _ & _ & Hc & Hs & _ & _ & Hnever & _).
  - vm_compute. reflexivity.
  - reflexivity.
  - vm_compute. reflexivity.
  - constructor.
  - exists w1, w2. split; [exact Hp|]. split; [exact Hc|]. split; [exact Hs|].
    intros w3 Hsteps. exact (proj1 (Hnever w3 Hsteps)).
Defined.

(** A task that was paused and then cancelled does return to Running:
    [start_task] checks for Running tasks only, so that it accepts the
    Cancelled task, sets it Running and launches a worker, with the cancel
    flag still up. *)
Lemma start_task_restarts_cancelled_task :
  let w1 := (pause_task "t1" (world_with RUNNING)).2 in
  let w2 := (cancel_task "t1" w1).2 in
  let run := start_task "t1" w2 in
  (pause_task "t1" (world_with RUNNING)).1 = Val true
  /\ (cancel_task "t1" w1).1 = Val true
  /\ status_of w2 "t1" = Some CANCELLED
  /\ run.1 = Val true
  /\ status_of run.2 "t1" = Some RUNNING
  /\ cancel_flag run.2 "t1" = true
  /\ List.filter is_thread_start (trace (an run.2)) = [EvThreadStart "t1"].
Proof. vm_compute. repeat split. Qed.

(** The batch tier over the twelve pages, five pages a batch, the batch of
    pages 6 to 10 failing: nothing escapes the tier. *)
Lemma batch_tier_on_small_book :
  never_raises (@_execute_batch_analysis_layer collaborators "t1" book_images
                  5 1 false [])
  /\ accounted "t1" (world_with RUNNING)
       (batch_layer_batches book_images 5 false []) 0
       (@_execute_batch_analysis_layer collaborators "t1" book_images
          5 1 false [] (world_with RUNNING)).
Proof.
  destruct (@BatchTierProps.batch_failure_is_local collaborators "t1"
              (task_in RUNNING "t1") book_images 5 1 false []
              (world_with RUNNING)) as (Hnever & _ & Hquiet).
  - lia.
  - constructor.
  - vm_compute. reflexivity.
  - split; [exact Hnever|]. apply Hquiet.
    split; [reflexivity|]. split; [vm_compute; reflexivity|].
    vm_compute. discriminate.
Defined.

(** ** The small book, run *)

Example file_names :
  (format_03d 7, format_03d 42, format_03d 1234, format_03d (-5),
   batch_filename 6 10)
  = ("007", "042", "1234", "-05", "batches/batch_006_010.json").
Proof. reflexivity. Qed.

Example three_results_in_groups_of_two :
  summary_layer_groups [1; 2; 3] 2 = [[1; 2]; [3]]
  /\ summary_layer_groups [1; 2; 3] 0 = [[1; 2; 3]]
  /\ summary_layer_groups ([] : list Z) 2 = []
  /\ chapter_layer_groups [1; 2; 3; 4; 5] 2 = [[1; 2]; [3; 4]; [5]].
Proof. vm_compute. repeat split. Qed.

Example twelve_pages_in_batches_of_five :
  batch_layer_batches book_images 5 false []
  = [[1; 2; 3; 4; 5]; [6; 7; 8; 9; 10]; [11; 12]].
Proof. vm_compute. reflexivity. Qed.

(** The batch of pages 6 to 10 fails: the tier returns the two other
    batches, and pages 6 to 10 are the failed pages of the task. *)
Example failed_batch_is_recorded :
  let run := @_execute_batch_analysis_layer collaborators "t1" book_images
               5 1 false [] (world_with RUNNING) in
  (exists first last : Dict,
      run.1 = Val [first; last]
      /\ first !! "page_range" = Some (JDict (page_range_dict 1 5))
      /\ last !! "page_range" = Some (JDict (page_range_dict 11 12)))
  /\ failed_pages_of run.2 "t1" = [6; 7; 8; 9; 10]
  /\ status_of run.2 "t1" = Some RUNNING.
Proof.
  split.
  - do 2 eexists. split; [vm_compute; reflexivity|].
    split; vm_compute; reflexivity.
  - split; vm_compute; reflexivity.
Qed.

End Examples.

(* ================================================================== *)
(** * More properties at work on the small book *)
(* ================================================================== *)

Module Scenarios.
Import Py Eff Env Storage Analyzer TaskManager Vocabulary Demo.
Import Journal StorageQueries Reanalysis ReanalysisTask Terms Fixtures.

Lemma store_with_first_record_consistent :
  batch_store_consistent store_with_first_record.
Proof.
  intros start_page end_page d Hd. cbn [files store_with_first_record] in Hd.
  apply lookup_singleton_Some in Hd as [Hname Hd].
  apply StorageProps.batch_filename_inj in Hname as [<- <-].
  injection Hd as <-. reflexivity.
Qed.

(** Page 3 is looked up in the store of the first record. *)
Lemma page_three_found :
  exists (r : Json) (s' : AState),
    find_batch_for_page 3 store_with_first_record = (Val r, s')
    /\ files s' = files store_with_first_record.
Proof.
  destruct (ListingProps.find_batch_for_page_covers 3
              store_with_first_record store_with_first_record_consistent)
    as (r & s' & Hrun & Hfiles & _).
  exists r, s'. split; [exact Hrun|exact Hfiles].
Defined.

(** The continuation data of a book that has none. *)
Lemma no_continuation_data_reported_as_data :
  exists (d : Dict) (s' : AState),
    load_continuation_all empty_store = (Val d, s')
    /\ d !! "has_data" = Some (JBool true)
    /\ d !! "script" = Some (JDict ∅)
    /\ d !! "pages" = Some (JList []).
Proof.
  destruct (ListingProps.load_continuation_all_has_data empty_store)
    as [(s' & j & _ & Hfile & _)|(d & s' & Hrun & _ & Hdata & Hscript & Hpages)].
  - cbn. rewrite lookup_empty. discriminate.
  - cbn in Hfile. rewrite lookup_empty in Hfile. discriminate Hfile.
  - exists d, s'. split; [exact Hrun|]. split; [exact Hdata|].
    split; [apply Hscript|apply Hpages]; apply lookup_empty.
Defined.

(** The batch of pages 6 to 10, on which the VLM client fails. *)
Lemma failed_vlm_call_leaves_store :
  let run := @analyze_batch collaborators [6; 7; 8; 9; 10] None
               (map Some (take 5 (drop 5 book_images))) true [] book_store in
  files run.2 = files book_store /\ exists e, run.1 = Raise e.
Proof.
  apply (@BatchRunProps.analyze_batch_vlm_failure_writes_nothing collaborators
           6 [7; 8; 9; 10]).
  intros t imgs context. exists (ExternalError "vlm timeout"). reflexivity.
Defined.

(** The record of the batch of pages 1 to 5, analysed on the small book. *)
Lemma first_batch_record_shape :
  let run := @analyze_batch collaborators [1; 2; 3; 4; 5] None
               (map Some (take 5 book_images)) true [] book_store in
  exists result : Dict,
    run.1 = Val result
    /\ result !! "page_range" = Some (JDict (page_range_dict 1 5))
    /\ result !! "analysis_mode" = Some (JStr "batch").
Proof.
  intros run.
  pose (result := match run.1 with Val r => r | _ => ∅ end).
  assert (Hrun : run = (Val result, run.2)) by (vm_compute; reflexivity).
  destruct (@BatchRunProps.analyze_batch_result_shape collaborators
              1 [2; 3; 4; 5] None (map Some (take 5 book_images)) []
              book_store run.2 result Hrun)
    as (_ & _ & _ & Hrange & Hmode & _).
  exists result. split; [now rewrite Hrun|].
  split; [exact Hrange|exact Hmode].
Defined.

(** Pages 1 to 5 analysed, then asked for again: the second call is
    answered from the store. *)
Lemma second_call_is_answered_from_the_store :
  let run := @analyze_batch collaborators [1; 2; 3; 4; 5] None
               (map Some (take 5 book_images)) true [] book_store in
  exists r2 : Dict,
    (@analyze_batch collaborators [1; 2; 3; 4; 5] None [] false [] run.2).1
      = Val r2
    /\ r2 !! "batch_summary" = Some (JStr "a summary").
Proof.
  intros run.
  pose (r1 := match run.1 with Val r => r | _ => ∅ end).
  assert (Hrun : run = (Val r1, run.2)) by (vm_compute; reflexivity).
  destruct (@BatchRunProps.analyze_batch_then_cached collaborators
              1 [2; 3; 4; 5] None None (map Some (take 5 book_images)) []
              [] [] true book_store run.2 r1)
    as (r2 & Hr2 & Hsame).
  - intros t. reflexivity.
  - exact Hrun.
  - vm_compute. reflexivity.
  - exists r2. split; [now rewrite Hr2|].
    rewrite Hsame by discriminate. vm_compute. reflexivity.
Defined.

(** The stored segment is handed back. *)
Lemma stored_segment_is_reused :
  (@generate_segment_summary collaborators "seg_L1_000" [JDict first_record]
     false store_with_first_segment).1
  = Val (JDict first_segment).
Proof.
  rewrite (@SegmentProps.segment_summary_cache_hit collaborators "seg_L1_000"
             (JDict first_record) [] store_with_first_segment
             (JDict first_segment)).
  - reflexivity.
  - vm_compute. reflexivity.
  - vm_compute. reflexivity.
Defined.

(** The segment of the first record, generated with the chat model
    down. *)
Lemma generated_segment_carries_its_id :
  let run := @generate_segment_summary collaborators "seg_L1_000"
               [JDict first_record] true empty_store in
  exists segment : Dict,
    run.1 = Val (JDict segment)
    /\ segment !! "segment_id" = Some (JStr "seg_L1_000")
    /\ files run.2 !! segment_filename "seg_L1_000"
       = Some (FJson (JDict segment)).
Proof.
  intros run.
  pose (r := match run.1 with Val r => r | _ => JNull end).
  assert (Hrun : run = (Val r, run.2)) by (vm_compute; reflexivity).
  destruct (@SegmentProps.segment_summary_identity collaborators "seg_L1_000"
              [JDict first_record] empty_store run.2 r)
    as (segment & Hr & Hid & _ & _ & Hfile).
  - discriminate.
  - exact Hrun.
  - exists segment. split; [now rewrite Hrun, Hr|]. split; [exact Hid|].
    apply Hfile. intros t. reflexivity.
Defined.

Lemma generated_segment_spans_first_record :
  exists (segment : Dict) (start_page end_page : Z),
    (@generate_segment_summary collaborators "seg_L1_000"
       [JDict first_record] true empty_store).1 = Val (JDict segment)
    /\ segment !! "page_range"
       = Some (JDict (page_range_dict start_page end_page))
    /\ start_page <= 1 /\ 5 <= end_page.
Proof.
  pose proof (@SegmentProps.segment_span_covers_group collaborators
                "seg_L1_000" [JDict first_record] empty_store
                ltac:(discriminate)
                (fun t prompt system =>
                   ex_intro _ (ExternalError "llm down") eq_refl)) as Hspan.
  destruct (@generate_segment_summary collaborators "seg_L1_000"
              [JDict first_record] true empty_store)
    as [[r|e|] s'] eqn:Hrun.
  - destruct Hspan as (segment & start_page & end_page & events & -> & Hrange
                       & Hall & _).
    apply Forall_cons_1 in Hall as [(bs & be & Hbatch & Hs & He) _].
    vm_compute in Hbatch. injection Hbatch as <- <-.
    exists segment, start_page, end_page.
    split; [reflexivity|]. split; [exact Hrange|]. split; assumption.
  - vm_compute in Hrun. discriminate Hrun.
  - destruct Hspan.
Defined.

(** The tiers of the cancelled task. *)
Lemma cancelled_world_is_cancelled_for_good :
  cancelled_for_good "t1" cancelled_world.
Proof.
  split; [split|constructor].
  - exists (task_in CANCELLED "t1"). split; [vm_compute; reflexivity|].
    vm_compute. tauto.
  - vm_compute. reflexivity.
Qed.

Lemma cancelled_task_analyses_nothing :
  exists w' : World,
    @_execute_batch_analysis_layer collaborators "t1" book_images 5 1 false []
      cancelled_world = (Val [], w')
    /\ files (an w') = files (an cancelled_world).
Proof.
  destruct (@LifecycleProps.cancelled_tiers_call_no_model collaborators "t1"
              book_images 5 1 false [] [] 5 "segments" 1 cancelled_world
              cancelled_world_is_cancelled_for_good ltac:(lia))
    as [(w' & Hrun & Hfiles & _) _].
  exists w'. split; [exact Hrun|exact Hfiles].
Defined.

(** Two tasks of one book running at once. *)
Lemma two_tasks_of_the_book_running :
  exists w1 w2 w3 : World,
    pause_task "t1" world_with_two_tasks = (Val true, w1)
    /\ start_task "t2" w1 = (Val true, w2)
    /\ resume_task "t1" w2 = (Val true, w3)
    /\ status_of w3 "t1" = Some RUNNING
    /\ status_of w3 "t2" = Some RUNNING.
Proof.
  destruct (LifecycleProps.resume_bypasses_book_check world_with_two_tasks
              "t1" "t2" (task_in RUNNING "t1") (task_in PENDING "t2") true)
    as (w1 & w2 & w3 & Hp & Hs & Hr & H1 & H2 & _).
  - vm_compute. reflexivity.
  - vm_compute. reflexivity.
  - discriminate.
  - reflexivity.
  - reflexivity.
  - intros tid t Hl Hrunning. cbn in Hl.
    destruct (decide (tid = "t2")) as [->|Hne].
    + rewrite lookup_insert_eq in Hl. injection Hl as <-.
      discriminate Hrunning.
    + rewrite lookup_insert_ne in Hl by congruence.
      apply lookup_singleton_Some in Hl as [<- _]. reflexivity.
  - vm_compute. reflexivity.
  - exists w1, w2, w3. repeat (split; [assumption|]). assumption.
Defined.

(** A worker whose analysis raises. *)
Lemma failed_analysis_ends_failed :
  let run := @_execute_task "t1" (raise (ExternalError "boom"))
               (world_with RUNNING) in
  run.1 = Val tt /\ status_of run.2 "t1" = Some FAILED.
Proof.
  intros run.
  destruct (LifecycleProps.execute_task_ends_terminal "t1"
              (raise (ExternalError "boom")) (world_with RUNNING))
    as (Hrun & _ & t & Ht & _ & Hstatus & _).
  - vm_compute. eauto.
  - discriminate.
  - subst run. split; [exact Hrun|]. unfold status_of. rewrite Ht. cbn.
    now rewrite Hstatus.
Defined.

(** The twelve pages in batches of five. *)
Lemma small_book_in_plain_batches :
  concat (batch_layer_batches book_images 5 false [])
  = map (fun i => i + 1) (range 12).
Proof.
  destruct (BatchingProps.plain_batches_cover_the_book book_images 5 []
              ltac:(lia)) as [Hcover _].
  exact Hcover.
Defined.

Lemma small_book_in_chapter_batches :
  exists groups : list (string * list Z),
    aligned_batch_groups (_build_chapter_page_map book_images) 5 = inr groups
    /\ NoDup (concat (map snd groups)).
Proof.
  destruct (BatchingProps.aligned_batches_follow_chapters book_images 5
              ltac:(lia)) as (groups & Hrun & _ & Hnodup & _).
  exists groups. split; [exact Hrun|exact Hnodup].
Defined.

(** The first record is asked to be analysed again. *)
Lemma first_record_lost_by_reanalysis :
  exists l' : Logged AState,
    (@reanalyze_batch collaborators removal 1 5 logged_store).1
      = Raise (ValueError ("无法获取第 " +:+ str_of_Z 1 +:+ " 页的图片"))
    /\ (@reanalyze_batch collaborators removal 1 5 logged_store).2 = l'
    /\ files (under l') !! batch_filename 1 5 = None.
Proof.
  destruct (@ReanalysisProps.reanalyze_batch_deletes_then_raises collaborators
              removal 1 5 logged_store ltac:(lia))
    as (l' & Hrun & _ & _ & [Hgone|(_ & e & Hlogged)]).
  - exists l'. rewrite Hrun. split; [reflexivity|]. split; [reflexivity|].
    exact Hgone.
  - apply (f_equal snd) in Hrun. cbn [snd] in Hrun. rewrite <- Hrun in Hlogged.
    vm_compute in Hlogged. discriminate Hlogged.
Defined.

(** A segment nobody stored. *)
Lemma unknown_segment_is_refused :
  exists s' : AState,
    @reanalyze_segment collaborators "seg_L1_000" empty_store
    = (Raise (ValueError ("未找到小总结: " +:+ "seg_L1_000")), s')
    /\ files s' = files empty_store.
Proof.
  destruct (@ReanalysisProps.reanalyze_segment_unknown collaborators
              "seg_L1_000" empty_store) as (s' & Hrun & Hfiles & _).
  - cbn. rewrite lookup_empty. exact I.
  - exists s'. split; [exact Hrun|exact Hfiles].
Defined.

(** The stored segment, its batch records gone. *)
Lemma segment_without_batches_is_kept :
  exists s' : AState,
    @reanalyze_segment collaborators "seg_L1_000" store_with_first_segment
    = (Val (JDict ∅), s')
    /\ files s' = files store_with_first_segment.
Proof.
  destruct (@ReanalysisProps.reanalyze_segment_without_batches collaborators
              "seg_L1_000" first_segment 1 5 store_with_first_segment)
    as (s' & Hrun & Hfiles & _).
  - vm_compute. reflexivity.
  - vm_compute. reflexivity.
  - intros start_page end_page _ _. cbn [files store_with_first_segment].
    apply lookup_singleton_ne. unfold segment_filename, batch_filename.
    discriminate.
  - exists s'. split; [exact Hrun|exact Hfiles].
Defined.

(** One continuation page, saved and read back. *)
Lemma continuation_page_read_back :
  exists (s1 : AState) (d : Dict),
    @save_continuation_pages collaborators [JStr "page one"] empty_store
    = (Val true, s1)
    /\ (load_continuation_all s1).1 = Val d
    /\ d !! "pages" = Some (JList [JStr "page one"])
    /\ d !! "has_data" = Some (JBool true).
Proof.
  pose (s1 := (@save_continuation_pages collaborators [JStr "page one"]
                 empty_store).2).
  assert (Hsave : @save_continuation_pages collaborators [JStr "page one"]
                    empty_store = (Val true, s1)) by reflexivity.
  destruct (@ContinuationProps.save_then_load_continuation_pages collaborators
              [JStr "page one"] empty_store s1 Hsave)
    as (d & s2 & Hload & _ & Hpages & Hdata).
  exists s1, d. split; [exact Hsave|]. split; [now rewrite Hload|].
  split; [exact Hpages|]. apply Hdata. discriminate.
Defined.

(** Pages 3, 0 and 14 of the twelve-page book analysed again. *)
Lemma reanalysis_of_three_pages_raises_nothing :
  match (@_execute_reanalysis collaborators post_processing "t1" book_images 5
           (reanalysis_world [3; 0; 14])).1 with
  | Raise _ => False
  | _ => True
  end.
Proof.
  destruct (@ReanalysisTaskProps.reanalysis_never_raises collaborators
              post_processing "t1" book_images 5
              (reanalysis_world [3; 0; 14])) as [Hnever _].
  - discriminate.
  - vm_compute. repeat constructor; discriminate.
  - destruct (@_execute_reanalysis collaborators post_processing "t1"
                book_images 5 (reanalysis_world [3; 0; 14])).1
      as [[]|e|]; [exact I|exact (Hnever e eq_refl)|exact I].
Defined.

(** Page -20 of the twelve-page book. *)
Lemma page_far_below_the_book :
  exists l' : Logged World,
    @_execute_reanalysis collaborators post_processing "t1" book_images 5
      (reanalysis_world [3; -20]) = (Raise IndexError, l')
    /\ journal l' = [].
Proof.
  destruct (@ReanalysisTaskProps.reanalysis_page_below_book_fails
              collaborators post_processing "t1" book_images 5
              (reanalysis_world [3; -20])
              (with_status RUNNING
                 (new_task "t1" "book" REANALYZE None (Some [3; -20]) false))
              [3; -20] (-20))
    as (l' & Hrun & _ & Hjournal).
  - vm_compute. reflexivity.
  - reflexivity.
  - apply list_elem_of_further, list_elem_of_here.
  - vm_compute. reflexivity.
  - lia.
  - split; [reflexivity|]. split; [vm_compute; reflexivity|].
    vm_compute. discriminate.
  - exists l'. split; [exact Hrun|exact Hjournal].
Defined.

(** Pages 7, 3 and 0 analysed again, the VLM client failing on the batch
    that starts at page 6. *)
Lemma reanalysis_of_the_small_book_accounts_for_its_batch :
  match @_execute_reanalysis collaborators post_processing "t1" book_images 5
          (reanalysis_world [7; 3; 0]) with
  | (Val _, l') =>
      exists failed : list (list Z),
        failed `sublist_of` reanalysis_batches [7; 3; 0] 5
        /\ (done_batches (journal l') + length failed = 1)%nat
  | (Raise _, _) => False
  | (Hang, _) => True
  end.
Proof.
  pose proof (@ReanalysisOutcomeProps.reanalysis_failure_is_local
                collaborators post_processing "t1" book_images 5
                (reanalysis_world [7; 3; 0])
                (with_status RUNNING
                   (new_task "t1" "book" REANALYZE None (Some [7; 3; 0]) false))
                [7; 3; 0]) as Hlocal.
  destruct (@_execute_reanalysis collaborators post_processing "t1"
              book_images 5 (reanalysis_world [7; 3; 0])) as [[[]|e|] l'].
  - destruct Hlocal as (failed & Hsub & _ & Hdone).
    + vm_compute. reflexivity.
    + reflexivity.
    + lia.
    + vm_compute. repeat constructor; discriminate.
    + split; [reflexivity|]. split; [vm_compute; reflexivity|].
      vm_compute. discriminate.
    + exists failed. split; [exact Hsub|exact Hdone].
  - apply Hlocal.
    + vm_compute. reflexivity.
    + reflexivity.
    + lia.
    + vm_compute. repeat constructor; discriminate.
    + split; [reflexivity|]. split; [vm_compute; reflexivity|].
      vm_compute. discriminate.
  - exact I.
Defined.

End Scenarios.
